(** * WEO / EMBI dashboard generator: a shallow embedding of [script.py]

    The script is a linear pipeline over pandas objects: it resolves the
    holdings countries to ISO codes, collects three views of every WEO
    variable (current year, 2019, 10-year median), merges them into one
    table, projects one record per country and embeds the records as JSON.
    The embedding keeps the script's names and models the pandas values it
    manipulates:

    - a float64 cell is [NaN] or a rational number: every finite float is a
      rational and comparisons agree with the rationals; [round] is
      modelled on binary64 ([fl] rounds a rational to the nearest float), the
      mean of two middle values of a median is taken exactly, and infinities
      are left out (no magnitude comes near 2^1024);
    - a [Series] is the list of its (label, value) pairs in positional order;
    - a [DataFrame] is an index plus a list of labelled columns, the cell of
      a column at a position past its end reads as NaN;
    - a raised exception is the [Err] case of [result], and [try/except] is
      a match on it;
    - the dictionaries the script iterates over are association lists in
      insertion order, the static name-to-code table is a finite map;
    - the dataset object [w] is the function [getc] it offers.

    pandas is modelled as in its 1.x and 2.x releases: selecting a missing
    label raises [KeyError], ['A'] is the annual frequency, and aligning data
    with repeated labels raises. *)

From Stdlib Require Import ZArith QArith Qround Qabs Qpower String Ascii List.
From Stdlib Require Import Bool Lia Lqa.
From Stdlib Require Import Permutation Sorted DecimalString DecimalZ.
From stdpp Require Import base decidable option list strings gmap sorting.

Local Open Scope string_scope.
Local Open Scope list_scope.
Local Open Scope Z_scope.

(** ** Exceptions *)

Inductive exn : Type :=
  | KeyError
  | TypeError
  | IndexError
  | ValueError
  | OverflowError.

Inductive result (A : Type) : Type :=
  | Ok (a : A)
  | Err (e : exn).
Arguments Ok {A} a.
Arguments Err {A} e.

Global Instance result_ret : MRet result := fun A a => Ok a.

Global Instance result_bind : MBind result := fun A B k r =>
  match r with
  | Ok a => k a
  | Err e => Err e
  end.

Global Instance result_fmap : FMap result := fun A B f r =>
  match r with
  | Ok a => Ok (f a)
  | Err e => Err e
  end.

(** ** Cells and series *)

Inductive cell : Type :=
  | NaN
  | Num (q : Q).

Definition notna (c : cell) : bool :=
  match c with NaN => false | Num _ => true end.

Definition isna (c : cell) : bool := negb (notna c).

(** Ascending order of [sort_values]: numbers by value, NaN after every
    number ([na_position='last']). *)
Definition cell_leb (a b : cell) : bool :=
  match a, b with
  | _, NaN => true
  | NaN, Num _ => false
  | Num x, Num y => Qle_bool x y
  end.

Definition Series : Type := list (string * cell).

Definition value_le (a b : string * cell) : Prop :=
  cell_leb (snd a) (snd b) = true.

Global Instance value_le_dec : RelDecision value_le.
Proof. intros a b. unfold value_le. apply _. Defined.

(** [Series.sort_values()]: pandas' [nargsort] sorts the non-NaN entries by
    value and appends the NaN entries in their original order.  The order in
    which numpy's quicksort leaves equal values is not fixed by pandas; the
    merge sort here returns one admissible order, and the properties below
    speak of the result up to the order of equal values (a sorted
    permutation), never of this order. *)
Definition sort_values (s : Series) : Series :=
  merge_sort value_le (List.filter (fun p => notna (snd p)) s)
    ++ List.filter (fun p => isna (snd p)) s.

(** ** Python's [int(str)] on ASCII text

    Texts are modelled as strings of bytes.  On a text with characters
    beyond ASCII Python also reads the decimal digits and the blanks of other
    scripts; the properties that depend on the reading of a text are stated
    for ASCII texts. *)

Definition is_ascii_text (s : string) : Prop :=
  Forall (fun c => (nat_of_ascii c < 128)%nat) (list_ascii_of_string s).

(** The blanks that [int] strips: tab, line feed, vertical tab, form feed,
    carriage return and the space.  The separators 0x1C-0x1F are blanks for
    [str.strip] but not for [int]. *)
Definition is_py_space (c : ascii) : bool :=
  let n := nat_of_ascii c in
  ((9 <=? n) && (n <=? 13) || (n =? 32))%nat.

Definition digit_of_ascii (c : ascii) : option Z :=
  let n := nat_of_ascii c in
  if ((48 <=? n) && (n <=? 57))%nat then Some (Z.of_nat n - 48) else None.

Definition is_digit (c : ascii) : Prop := is_Some (digit_of_ascii c).

Fixpoint lstrip (cs : list ascii) : list ascii :=
  match cs with
  | c :: cs' => if is_py_space c then lstrip cs' else cs
  | [] => []
  end.

Definition strip (cs : list ascii) : list ascii :=
  rev (lstrip (rev (lstrip cs))).

(** Digits with single underscores between them, as the literal grammar of
    [int] demands. *)
Fixpoint py_digits (acc : Z) (prev_digit : bool) (cs : list ascii) : option Z :=
  match cs with
  | [] => if prev_digit then Some acc else None
  | c :: cs' =>
      match digit_of_ascii c with
      | Some d => py_digits (10 * acc + d) true cs'
      | None =>
          if Ascii.eqb c "_"%char && prev_digit
          then py_digits acc false cs'
          else None
      end
  end.

(** The limit of Python 3.11 on the number of digits of a decimal text that
    [int] converts ([sys.get_int_max_str_digits()]). *)
Definition max_str_digits : nat := 4300.

Definition count_digits (cs : list ascii) : nat :=
  length (List.filter (fun c => bool_decide (is_digit c)) cs).

(** [int(s)]: [None] stands for the [ValueError] of a text that is no
    integer literal or that has more digits than the limit. *)
Definition py_int (s : string) : option Z :=
  let cs := strip (list_ascii_of_string s) in
  if (max_str_digits <? count_digits cs)%nat then None
  else
    match cs with
    | "-"%char :: ds => option_map Z.opp (py_digits 0 false ds)
    | "+"%char :: ds => py_digits 0 false ds
    | ds => py_digits 0 false ds
    end.

(** ** Index entries and year extraction *)

(** A label of the time index: a pandas [Period] (it has a [year]
    attribute), a plain integer, or a string. *)
Inductive index_entry : Type :=
  | Period (year : Z)
  | IntLabel (y : Z)
  | StrLabel (s : string).

(** What [extract_year_from_index] returns: an [int], or a [str]. *)
Inductive year_key : Type :=
  | YInt (y : Z)
  | YStr (s : string).

Global Instance year_key_eq_dec : EqDecision year_key.
Proof. solve_decision. Defined.

Definition extract_year_from_index (idx : index_entry) : year_key :=
  match idx with
  | Period y => YInt y
  | IntLabel y => YInt y
  | StrLabel s =>
      match py_int s with
      | Some y => YInt y
      | None => YStr s
      end
  end.

(** The text labels of an index are ASCII texts. *)
Definition ascii_labels (idx : list index_entry) : Prop :=
  forall s, In (StrLabel s) idx -> is_ascii_text s.

(** The year a label of the time index stands for, in the words of the
    specification: the year of a period, an integer itself, the integer that
    a text denotes.  The properties of the year resolution are stated with
    it, on the labels of the frame. *)
Definition spec_label_year (label : index_entry) (y : Z) : Prop :=
  match label with
  | Period p => p = y
  | IntLabel i => i = y
  | StrLabel s => py_int s = Some y
  end.

(** ** Time-indexed frames *)

Record DataFrame : Type := mkDataFrame {
  df_index : list index_entry;
  df_columns : list (string * list cell)
}.

Definition row_at (df : DataFrame) (pos : nat) : Series :=
  map (fun c => (fst c, nth pos (snd c) NaN)) (df_columns df).

(** [df.iloc[pos]] for a non-negative position. *)
Definition iloc (df : DataFrame) (pos : nat) : result Series :=
  if (pos <? length (df_index df))%nat then Ok (row_at df pos)
  else Err IndexError.

(** [df.iloc[-1]]. *)
Definition iloc_last (df : DataFrame) : result Series :=
  match length (df_index df) with
  | O => Err IndexError
  | S n => Ok (row_at df n)
  end.

(** [x in l] and [l.index(x)] on Python lists. *)
Definition py_in (x : year_key) (l : list year_key) : bool :=
  existsb (fun y => bool_decide (y = x)) l.

Fixpoint py_index (x : year_key) (l : list year_key) : option nat :=
  match l with
  | [] => None
  | y :: l' =>
      if bool_decide (y = x) then Some O
      else option_map S (py_index x l')
  end.

(** [min(l, key=key)] on a non-empty list [best :: l]: the first minimal
    element wins. *)
Fixpoint py_min_by (key : Z -> Z) (best : Z) (l : list Z) : Z :=
  match l with
  | [] => best
  | x :: l' => py_min_by key (if key x <? key best then x else best) l'
  end.

Definition numeric_years_of (index_years : list year_key) : list Z :=
  flat_map (fun y => match y with YInt z => [z] | YStr _ => [] end) index_years.

Definition last_available : year_key := YStr "last_available".

Definition get_year_data (series_data : DataFrame) (target_year : Z)
  : result (Series * year_key) :=
  let index_years := map extract_year_from_index (df_index series_data) in
  if py_in (YInt target_year) index_years then
    match py_index (YInt target_year) index_years with
    | Some year_pos =>
        row ← iloc series_data year_pos;
        Ok (sort_values row, YInt target_year)
    | None => Err ValueError
    end
  else
    match numeric_years_of index_years with
    | y0 :: rest =>
        let closest_year :=
          py_min_by (fun x => Z.abs (x - target_year)) y0 rest in
        match py_index (YInt closest_year) index_years with
        | Some year_pos =>
            row ← iloc series_data year_pos;
            Ok (sort_values row, YInt closest_year)
        | None => Err ValueError
        end
    | [] =>
        row ← iloc_last series_data;
        Ok (sort_values row, last_available)
    end.

(** The normalized time index: [index_years] of [get_year_data]. *)
Definition index_years (series_data : DataFrame) : list year_key :=
  map extract_year_from_index (df_index series_data).

(** ** Label slices with [Period] bounds

    [series_data.loc[pd.Period(lo, freq='A'):pd.Period(hi, freq='A')]] asks
    the index for the two slice bounds ([Index.get_slice_bound]): the
    position of the label when the index holds it, else a binary search,
    which needs a monotonic index whose labels compare with a [Period]. *)

Inductive side : Type := Left | Right.

Definition flip_side (sd : side) : side :=
  match sd with Left => Right | Right => Left end.

Definition is_period (label : Z) (e : index_entry) : bool :=
  match e with
  | Period y => y =? label
  | _ => false
  end.

(** The years of a [PeriodIndex]; [None] when some label is no [Period]. *)
Fixpoint period_years (idx : list index_entry) : option (list Z) :=
  match idx with
  | [] => Some []
  | Period y :: idx' => option_map (cons y) (period_years idx')
  | _ :: _ => None
  end.

Fixpoint is_monotonic_increasing (l : list Z) : bool :=
  match l with
  | x :: (y :: _) as l' => (x <=? y) && is_monotonic_increasing l'
  | _ => true
  end.

Fixpoint is_monotonic_decreasing (l : list Z) : bool :=
  match l with
  | x :: (y :: _) as l' => (y <=? x) && is_monotonic_decreasing l'
  | _ => true
  end.

(** [numpy.searchsorted] on an ascending list: the first position whose
    element is not below (left) or is above (right) the value. *)
Fixpoint searchsorted (sd : side) (l : list Z) (v : Z) : nat :=
  match l with
  | [] => O
  | x :: l' =>
      if (match sd with Left => x <? v | Right => x <=? v end)
      then S (searchsorted sd l' v)
      else O
  end.

Fixpoint positions_from (i : nat) (label : Z) (idx : list index_entry) : list nat :=
  match idx with
  | [] => []
  | e :: idx' =>
      if is_period label e then i :: positions_from (S i) label idx'
      else positions_from (S i) label idx'
  end.

Definition searchsorted_monotonic (sd : side) (years : list Z) (label : Z)
  : result nat :=
  if is_monotonic_increasing years then Ok (searchsorted sd years label)
  else if is_monotonic_decreasing years then
    Ok (length years - searchsorted (flip_side sd) (rev years) label)%nat
  else Err KeyError.

(** [a <= b] on two labels of an index that is no [PeriodIndex]; [None]
    when Python cannot compare them (two kinds of labels: the comparison
    raises [TypeError]). *)
Definition entry_leb (a b : index_entry) : option bool :=
  match a, b with
  | Period x, Period y => Some (x <=? y)
  | IntLabel x, IntLabel y => Some (x <=? y)
  | StrLabel s, StrLabel t => Some (String.leb s t)
  | _, _ => None
  end.

(** [Index.is_monotonic_increasing] and [is_monotonic_decreasing]: adjacent
    labels are compared, and a comparison that raises makes the index
    non-monotonic. *)
Fixpoint entries_monotonic (increasing : bool) (idx : list index_entry) : bool :=
  match idx with
  | a :: (b :: _) as idx' =>
      match (if increasing then entry_leb a b else entry_leb b a) with
      | Some true => entries_monotonic increasing idx'
      | _ => false
      end
  | _ => true
  end.

(** A label that occurs several times gives a bound only when its positions
    are contiguous.  A label that does not occur is searched for, which needs
    a monotonic index: on an index that is not monotonic pandas raises
    [KeyError]; on a monotonic index with labels that are no [Period]
    (integer years, strings) the binary search compares a label with the
    [Period] bound, which raises [TypeError]. *)
Definition get_slice_bound (idx : list index_entry) (label : Z) (sd : side)
  : result nat :=
  match positions_from O label idx with
  | [] =>
      match period_years idx with
      | Some years => searchsorted_monotonic sd years label
      | None =>
          if entries_monotonic true idx || entries_monotonic false idx
          then Err TypeError
          else Err KeyError
      end
  | first :: rest =>
      let last := List.last rest first in
      if (last - first + 1 =? length (first :: rest))%nat
      then Ok (match sd with Left => first | Right => S last end)
      else Err KeyError
  end.

Definition slice {A : Type} (start stop : nat) (l : list A) : list A :=
  firstn (stop - start) (skipn start l).

Definition loc_period_slice (df : DataFrame) (lo hi : Z) : result DataFrame :=
  start ← get_slice_bound (df_index df) lo Left;
  stop ← get_slice_bound (df_index df) hi Right;
  Ok {| df_index := slice start stop (df_index df);
        df_columns :=
          map (fun c => (fst c, slice start stop (snd c))) (df_columns df) |}.

(** ** Column medians *)

Definition Qle_b (x y : Q) : Prop := Qle_bool x y = true.

Global Instance Qle_b_dec : RelDecision Qle_b.
Proof. intros x y. unfold Qle_b. apply _. Defined.

Definition numbers (l : list cell) : list Q :=
  flat_map (fun c => match c with Num q => [q] | NaN => [] end) l.

(** The median of the sorted numbers [xs]: the middle one, or the mean of
    the two middle ones. *)
Definition middle (xs : list Q) : cell :=
  let n := length xs in
  match n with
  | O => NaN
  | _ =>
      if Nat.odd n then Num (nth (n / 2) xs 0%Q)
      else Num (Qred ((nth (n / 2 - 1) xs 0%Q + nth (n / 2) xs 0%Q) / 2))
  end.

(** [Series.median()] with [skipna=True]: NaN entries are left out, and no
    number at all gives NaN. *)
Definition median_of (l : list cell) : cell :=
  middle (merge_sort Qle_b (numbers l)).

(** [DataFrame.median()]: one median per column. *)
Definition median (df : DataFrame) : Series :=
  map (fun c => (fst c, median_of (snd c))) (df_columns df).

(** The specification's wording of the view: for each country, the median
    of the observations whose year lies in the inclusive window
    [lo, hi]. *)
Definition in_window (lo hi : Z) (yc : Z * cell) : bool :=
  (lo <=? fst yc) && (fst yc <=? hi).

Definition window_observations (years : list Z) (col : list cell) (lo hi : Z)
  : list cell :=
  map snd (List.filter (in_window lo hi) (combine years col)).

Definition spec_median_10yr (years : list Z) (cols : list (string * list cell))
    (target_year : Z) : Series :=
  map (fun c => (fst c,
                 median_of (window_observations years (snd c)
                                                (target_year - 9) target_year)))
      cols.

(** ** Column selection [df[labels]] *)

(** Every requested label must be a column; a label that several columns
    carry selects all of them. *)
Definition has_column (df : DataFrame) (label : string) : bool :=
  existsb (fun c => String.eqb (fst c) label) (df_columns df).

Definition getitem_columns (df : DataFrame) (labels : list string)
  : result DataFrame :=
  if forallb (has_column df) labels then
    Ok {| df_index := df_index df;
          df_columns :=
            flat_map (fun label =>
                        List.filter (fun c => String.eqb (fst c) label)
                                    (df_columns df)) labels |}
  else Err KeyError.

(** ** Python dictionaries that are iterated: insertion-ordered *)

Definition dict (V : Type) : Type := list (string * V).

Fixpoint dict_get {V : Type} (k : string) (d : dict V) : option V :=
  match d with
  | [] => None
  | (k', v) :: d' => if String.eqb k' k then Some v else dict_get k d'
  end.

Fixpoint dict_set {V : Type} (k : string) (v : V) (d : dict V) : dict V :=
  match d with
  | [] => [(k, v)]
  | (k', v') :: d' =>
      if String.eqb k' k then (k, v) :: d' else (k', v') :: dict_set k v d'
  end.

Definition keys {V : Type} (d : dict V) : list string := map fst d.

(** ** Static tables *)

Definition country_mapping_items : list (string * string) :=
  [("Angola", "AGO"); ("Argentina", "ARG"); ("Bahrain", "BHR"); ("Brazil", "BRA");
   ("Bulgaria", "BGR"); ("Chile", "CHL"); ("China", "CHN"); ("Colombia", "COL");
   ("Costa Rica", "CRI"); ("Cote D'Ivoire (Ivory Coast)", "CIV");
   ("Dominican Republic", "DOM");
   ("Ecuador", "ECU"); ("Egypt", "EGY"); ("Ghana", "GHA"); ("Guatemala", "GTM");
   ("Hungary", "HUN"); ("Jamaica", "JAM"); ("Jordan", "JOR"); ("Kazakhstan", "KAZ");
   ("Kenya", "KEN"); ("Latvia", "LVA"); ("Malaysia", "MYS"); ("Mexico", "MEX");
   ("Morocco", "MAR"); ("Nigeria", "NGA"); ("Oman", "OMN"); ("Pakistan", "PAK");
   ("Panama", "PAN"); ("Peru", "PER"); ("Philippines", "PHL"); ("Poland", "POL");
   ("Romania", "ROU"); ("Saudi Arabia", "SAU"); ("Serbia", "SRB");
   ("South Africa", "ZAF");
   ("Sri Lanka", "LKA"); ("Turkey", "TUR"); ("Ukraine", "UKR");
   ("United Arab Emirates", "ARE");
   ("Uruguay", "URY")].

Definition country_mapping : gmap string string :=
  list_to_map country_mapping_items.

(** [[country_mapping.get(country, country) for country in countries
      if country in country_mapping]] *)
Definition embi_countries (countries : list string) : list string :=
  flat_map (fun country =>
              if bool_decide (is_Some (country_mapping !! country))
              then [default country (country_mapping !! country)]
              else []) countries.

Definition var_dict : dict string :=
  [("NGDPD", "GDP (US Dollars)");
   ("LP", "Population");
   ("NGDP_RPCH", "Real GDP growth (%)");
   ("NID_NGDP", "Total investment (% of GDP)");
   ("NGSD_NGDP", "National savings (% of GDP)");
   ("PCPIPCH", "Inflation, consumer prices (%)");
   ("GGR_NGDP", "General government revenue (% of GDP)");
   ("GGX_NGDP", "General government total expenditure (% of GDP)");
   ("GGXCNL_NGDP", "General government net lending/borrowing (% of GDP)");
   ("GGXONLB_NGDP", "General government net borrowing (% of GDP)");
   ("GGXWDG_NGDP", "General government gross debt (% of GDP)");
   ("BCA_NGDPD", "Current account balance (% of GDP)")].

(** The name under which a variable appears as a column:
    [rename(columns=var_dict)]. *)
Definition display (k : string) : string := default k (dict_get k var_dict).

Definition logical_order : list string :=
  ["GDP (US Dollars)";
   "Population";
   "Real GDP growth (%)";
   "Inflation, consumer prices (%)";
   "National savings (% of GDP)";
   "Total investment (% of GDP)";
   "Current account balance (% of GDP)";
   "General government revenue (% of GDP)";
   "General government total expenditure (% of GDP)";
   "General government net lending/borrowing (% of GDP)";
   "General government net borrowing (% of GDP)";
   "General government gross debt (% of GDP)"].

(** ** The collection loop *)

Record collected : Type := mkCollected {
  current_year_data : dict (option Series);
  median_10yr_data : dict (option Series);
  data_2019 : dict (option Series)
}.

Definition nan_series (labels : list string) : Series :=
  map (fun c => (c, NaN)) labels.

(** [{k: v for k, v in d.items() if v is not None}] *)
Definition clean {V : Type} (d : dict (option V)) : dict V :=
  flat_map (fun kv => match snd kv with
                      | Some v => [(fst kv, v)]
                      | None => []
                      end) d.

Section Collect.
(** [w.getc]: the per-country time series of one WEO subject code, or the
    exception the dataset wrapper raises. *)
Variable getc : string -> result DataFrame.
(** [df['Location'].dropna().unique()] of the holdings file. *)
Variable countries : list string.
Variable current_year : Z.

(** The inner [try] around the 2019 lookup. *)
Definition values_2019_of (series_data : DataFrame) : Series :=
  match get_year_data series_data 2019 with
  | Ok (values_2019, used_year_2019) => values_2019
  | Err _ => sort_values (nan_series (embi_countries countries))
  end.

(** The body of the outer [try] for one variable. *)
Definition collect_var (var : string) : result (Series * Series * Series) :=
  full ← getc var;
  series_data ← getitem_columns full (embi_countries countries);
  '(current_values, used_year) ← get_year_data series_data current_year;
  window ← loc_period_slice series_data (current_year - 9) current_year;
  let median_10yr := sort_values (median window) in
  Ok (current_values, median_10yr, values_2019_of series_data).

(** One iteration: the three assignments, or the [except] branch that
    stores [None] three times (also over a current-year value that was
    assigned before the median raised). *)
Definition collect_step (st : collected) (var : string) : collected :=
  match collect_var var with
  | Ok (current_values, median_10yr, values_2019) =>
      {| current_year_data :=
           dict_set var (Some current_values) (current_year_data st);
         median_10yr_data :=
           dict_set var (Some median_10yr) (median_10yr_data st);
         data_2019 := dict_set var (Some values_2019) (data_2019 st) |}
  | Err _ =>
      {| current_year_data := dict_set var None (current_year_data st);
         median_10yr_data := dict_set var None (median_10yr_data st);
         data_2019 := dict_set var None (data_2019 st) |}
  end.

Definition collect_from (st : collected) (vars : list string) : collected :=
  fold_left collect_step vars st.

Definition collect_all : collected :=
  collect_from (mkCollected [] [] []) (keys var_dict).

(** What the loop stores for a variable in each dictionary. *)
Definition stored_current (var : string) : option Series :=
  match collect_var var with Ok (c, _, _) => Some c | Err _ => None end.
Definition stored_median (var : string) : option Series :=
  match collect_var var with Ok (_, m, _) => Some m | Err _ => None end.
Definition stored_2019 (var : string) : option Series :=
  match collect_var var with Ok (_, _, y) => Some y | Err _ => None end.

(** Every entry of the three dictionaries was stored by the loop for a
    variable of [vars]. *)
Definition loop_invariant (vars : list string) (st : collected) : Prop :=
  (forall k v, In (k, v) (current_year_data st) -> In k vars /\ v = stored_current k)
  /\ (forall k v, In (k, v) (median_10yr_data st) -> In k vars /\ v = stored_median k)
  /\ (forall k v, In (k, v) (data_2019 st) -> In k vars /\ v = stored_2019 k).

(** The three dictionaries hold the outcome of the loop for [var]. *)
Definition holds_outcome (st : collected) (var : string) : Prop :=
  dict_get var (current_year_data st) = Some (stored_current var)
  /\ dict_get var (median_10yr_data st) = Some (stored_median var)
  /\ dict_get var (data_2019 st) = Some (stored_2019 var).
End Collect.



(** ** Country-indexed tables *)

Record Table (L : Type) : Type := mkTable {
  t_index : list string;
  t_columns : list (L * list cell)
}.
Arguments mkTable {L} _ _.
Arguments t_index {L} _.
Arguments t_columns {L} _.

Fixpoint str_index (x : string) (l : list string) : option nat :=
  match l with
  | [] => None
  | y :: l' => if String.eqb y x then Some O else option_map S (str_index x l')
  end.

Definition str_in (x : string) (l : list string) : bool :=
  existsb (String.eqb x) l.

Definition list_eqb (l1 l2 : list string) : bool :=
  bool_decide (l1 = l2).

Definition str_le (a b : string) : Prop := String.leb a b = true.

Global Instance str_le_dec : RelDecision str_le.
Proof. intros a b. unfold str_le. apply _. Defined.

(** [Index.unique()]: the first occurrence of every label, in order. *)
Fixpoint unique_from (seen l : list string) : list string :=
  match l with
  | [] => []
  | x :: l' =>
      if str_in x seen then unique_from seen l'
      else x :: unique_from (x :: seen) l'
  end.

Definition unique (l : list string) : list string := unique_from [] l.

Definition sorted_unique (l : list string) : list string :=
  merge_sort str_le (unique l).

(** pandas' [union_indexes]: equal indexes are kept as they are, different
    ones are united, and sorted when [sort] is set. *)
Definition union_indexes (sort : bool) (indexes : list (list string)) : list string :=
  match indexes with
  | [] => []
  | i0 :: rest =>
      if forallb (list_eqb i0) rest then i0
      else if sort then sorted_unique (concat indexes)
      else unique (concat indexes)
  end.

(** Aligning labelled data to a target index ([reindex]) is the identity
    when the labels already are the target, and otherwise needs distinct
    source labels: pandas raises on duplicates. *)
Definition can_reindex (source target : list string) : bool :=
  list_eqb source target || bool_decide (NoDup source).

Definition series_get (s : Series) (label : string) : cell :=
  default NaN (dict_get label s).

Definition cell_at (idx : list string) (col : list cell) (label : string) : cell :=
  match str_index label idx with
  | Some i => nth i col NaN
  | None => NaN
  end.

(** The frame [pd.DataFrame(d)] builds from a dictionary of series when every
    series can be aligned to the united index. *)
Definition frame_of_dict (d : dict Series) : Table string :=
  let idx := union_indexes true (map (fun kv => map fst (snd kv)) d) in
  {| t_index := idx;
     t_columns := map (fun kv => (fst kv, map (series_get (snd kv)) idx)) d |}.

(** [pd.DataFrame(d)] for a dictionary of series. *)
Definition DataFrame_of_dict (d : dict Series) : result (Table string) :=
  let idx := union_indexes true (map (fun kv => map fst (snd kv)) d) in
  if forallb (fun kv => can_reindex (map fst (snd kv)) idx) d
  then Ok (frame_of_dict d)
  else Err ValueError.

Definition rename_columns (names : dict string) (t : Table string) : Table string :=
  {| t_index := t_index t;
     t_columns :=
       map (fun c => (default (fst c) (dict_get (fst c) names), snd c))
           (t_columns t) |}.

Definition add_suffix (suffix : string) (t : Table string) : Table string :=
  {| t_index := t_index t;
     t_columns := map (fun c => ((fst c ++ suffix)%string, snd c)) (t_columns t) |}.

(** The frame [pd.concat(frames, axis=1)] builds when every frame can be
    aligned to the united index. *)
Definition concat_frames (frames : list (Table string)) : Table string :=
  let idx := union_indexes false (map t_index frames) in
  {| t_index := idx;
     t_columns :=
       flat_map (fun t =>
                   map (fun c => (fst c, map (cell_at (t_index t) (snd c)) idx))
                       (t_columns t)) frames |}.

(** [pd.concat(frames, axis=1)] *)
Definition concat_columns (frames : list (Table string)) : result (Table string) :=
  let idx := union_indexes false (map t_index frames) in
  if forallb (fun t => can_reindex (t_index t) idx) frames
  then Ok (concat_frames frames)
  else Err ValueError.

(** ** String helpers *)

Definition py_str (z : Z) : string := NilZero.string_of_int (Z.to_int z).

Definition endswith (s suffix : string) : bool :=
  let n := String.length s in
  let m := String.length suffix in
  (m <=? n)%nat && String.eqb (substring (n - m) m s) suffix.

(** [s.replace(old, new)] for a non-empty [old]: every occurrence, left to
    right, without overlap. *)
Fixpoint replace_from (old new : string) (skip : nat) (s : string) : string :=
  match s with
  | EmptyString => EmptyString
  | String c s' =>
      match skip with
      | S k => replace_from old new k s'
      | O =>
          if String.prefix old s
          then (new ++ replace_from old new (String.length old - 1) s')%string
          else String c (replace_from old new O s')
      end
  end.

Definition py_replace (old new s : string) : string := replace_from old new O s.

(** ** The merged table with (Indicator, Time_Period) columns *)

Definition column_tuple (current_year : Z) (col : string) : list (string * string) :=
  let suffix := ("_" ++ py_str current_year)%string in
  if endswith col suffix then
    [(py_replace suffix "" col, py_str current_year)]
  else if endswith col "_10yr_Median" then
    [(py_replace "_10yr_Median" "" col, "10yr_Median")]
  else if endswith col "_2019" then
    [(py_replace "_2019" "" col, "2019")]
  else [].

Definition columns_tuples (current_year : Z) (cols : list string) : list (string * string) :=
  flat_map (column_tuple current_year) cols.

Definition tuple_leb (a b : string * string) : bool :=
  match String.compare (fst a) (fst b) with
  | Lt => true
  | Eq => String.leb (snd a) (snd b)
  | Gt => false
  end.

Definition column_le (a b : (string * string) * list cell) : Prop :=
  tuple_leb (fst a) (fst b) = true.

Global Instance column_le_dec : RelDecision column_le.
Proof. intros a b. unfold column_le. apply _. Defined.

(** [dff.columns = multi_index; dff = dff.sort_index(axis=1)] *)
Definition set_multi_index (current_year : Z) (t : Table string)
  : result (Table (string * string)) :=
  let tuples := columns_tuples current_year (map fst (t_columns t)) in
  if (length tuples =? length (t_columns t))%nat then
    Ok {| t_index := t_index t;
          t_columns :=
            merge_sort column_le (combine tuples (map snd (t_columns t))) |}
  else Err ValueError.

Definition build_dff (current_year : Z) (st : collected)
  : result (Table (string * string)) :=
  df_current_year ←
    rename_columns var_dict <$> DataFrame_of_dict (clean (current_year_data st));
  df_10yr_median ←
    rename_columns var_dict <$> DataFrame_of_dict (clean (median_10yr_data st));
  df_2019 ←
    rename_columns var_dict <$> DataFrame_of_dict (clean (data_2019 st));
  let df_current_renamed :=
    add_suffix ("_" ++ py_str current_year)%string df_current_year in
  let df_median_renamed := add_suffix "_10yr_Median" df_10yr_median in
  let df_2019_renamed := add_suffix "_2019" df_2019 in
  dff ← concat_columns [df_current_renamed; df_median_renamed; df_2019_renamed];
  set_multi_index current_year dff.

Definition level0 (dff : Table (string * string)) : list string :=
  map (fun c => fst (fst c)) (t_columns dff).

Definition level1 (dff : Table (string * string)) : list string :=
  map (fun c => snd (fst c)) (t_columns dff).

(** ** Country records *)

Definition tuple_eqb (a b : string * string) : bool :=
  String.eqb (fst a) (fst b) && String.eqb (snd a) (snd b).

Definition count_label (x : string) (l : list string) : nat :=
  length (List.filter (String.eqb x) l).

(** [dff.loc[country_code]]: the row as a series over the column tuples.  A
    label that occurs several times selects a frame instead, on which the
    column selection of [get_country_df] raises. *)
Definition loc_row (dff : Table (string * string)) (country_code : string)
  : result (list ((string * string) * cell)) :=
  match str_index country_code (t_index dff) with
  | Some i =>
      if (count_label country_code (t_index dff) =? 1)%nat
      then Ok (map (fun c => (fst c, nth i (snd c) NaN)) (t_columns dff))
      else Err KeyError
  | None => Err KeyError
  end.

Fixpoint has_duplicates (l : list (string * string)) : bool :=
  match l with
  | [] => false
  | x :: l' => existsb (tuple_eqb x) l' || has_duplicates l'
  end.

Fixpoint row_get (row : list ((string * string) * cell)) (key : string * string) : cell :=
  match row with
  | [] => NaN
  | (k, v) :: row' => if tuple_eqb k key then v else row_get row' key
  end.

(** [Series.unstack()]: indicators become rows and periods columns, both in
    sorted order; a repeated (indicator, period) pair cannot be reshaped. *)
Definition unstack (row : list ((string * string) * cell)) : result (Table string) :=
  if has_duplicates (map fst row) then Err ValueError
  else
    let indicators := sorted_unique (map (fun kv => fst (fst kv)) row) in
    let periods := sorted_unique (map (fun kv => snd (fst kv)) row) in
    Ok {| t_index := indicators;
          t_columns :=
            map (fun p => (p, map (fun i => row_get row (i, p)) indicators))
                periods |}.

(** [numpy.rint]: the nearest integer, halves to even. *)
Definition round_half_even (q : Q) : Z :=
  let f := Qfloor q in
  match Qcompare (q - inject_Z f) (1 # 2) with
  | Lt => f
  | Gt => f + 1
  | Eq => if Z.even f then f else f + 1
  end.

(** The binary exponent of a rational that is not zero: the [e] with
    [2^e <= |q| < 2^(e+1)]. *)
Definition binary_exponent (q : Q) : Z :=
  let e0 := Z.log2 (Z.abs (Qnum q)) - Z.log2 (Zpos (Qden q)) in
  if Qle_bool (Qpower 2 e0) (Qabs q) then e0 else e0 - 1.

(** Rounding to binary64: the float nearest to [q], ties to the even
    significand; 53 bits of significand, subnormal numbers below 2^-1022. *)
Definition fl (q : Q) : Q :=
  if Qeq_bool q 0 then 0%Q
  else
    let e := Z.max (binary_exponent q - 52) (-1074) in
    Qred (inject_Z (round_half_even (q / Qpower 2 e)) * Qpower 2 e).

(** [DataFrame.round(digits)] on one cell, as numpy computes it on a
    float64: the cell is multiplied by [10^digits], rounded to the nearest
    integer and divided by [10^digits], each operation rounding to
    binary64. *)
Definition round_cell (digits : nat) (c : cell) : cell :=
  match c with
  | NaN => NaN
  | Num q =>
      let scale := inject_Z (10 ^ Z.of_nat digits) in
      Num (fl (inject_Z (round_half_even (fl (q * scale))) / scale))
  end.

(** Rounding to [digits] decimals in the words of the specification, on
    binary64: a missing value stays missing and a number stays a number; a
    float [q] whose product with [10^digits] stays in the range of binary64
    becomes the float nearest to [n / 10^digits], where [n] is the integer
    nearest to the float of [q * 10^digits], the even one of the two when it
    lies half way between them ([10^digits] is itself a float up to
    [digits = 22]). *)
Definition spec_rounded (digits : nat) (x v : cell) : Prop :=
  match x with
  | NaN => v = NaN
  | Num q =>
      notna v = true
      /\ ((fl q == q)%Q ->
          (digits <= 22)%nat ->
          (Qabs q * inject_Z (10 ^ Z.of_nat digits) < inject_Z (2 ^ 1023))%Q ->
          exists n : Z,
            v = Num (fl (inject_Z n / inject_Z (10 ^ Z.of_nat digits)))
            /\ (Qabs (fl (q * inject_Z (10 ^ Z.of_nat digits)) - inject_Z n)
                <= 1 # 2)%Q
            /\ ((Qabs (fl (q * inject_Z (10 ^ Z.of_nat digits)) - inject_Z n)
                 == 1 # 2)%Q ->
                Z.even n = true))
  end.

Definition round_table (digits : nat) (t : Table string) : Table string :=
  {| t_index := t_index t;
     t_columns := map (fun c => (fst c, map (round_cell digits) (snd c))) (t_columns t) |}.

(** [t[labels]] *)
Definition getitem_table (t : Table string) (labels : list string)
  : result (Table string) :=
  if forallb (fun label => str_in label (map fst (t_columns t))) labels then
    Ok {| t_index := t_index t;
          t_columns :=
            flat_map (fun label =>
                        List.filter (fun c => String.eqb (fst c) label)
                                    (t_columns t)) labels |}
  else Err KeyError.

(** [t.reindex(labels)] *)
Definition reindex (t : Table string) (labels : list string) : Table string :=
  {| t_index := labels;
     t_columns :=
       map (fun c => (fst c, map (cell_at (t_index t) (snd c)) labels))
           (t_columns t) |}.

Definition get_country_df (dff : Table (string * string)) (country_code : string)
    (round_digits : nat) (sort_order : option (list string))
  : result (Table string) :=
  row ← loc_row dff country_code;
  wide ← unstack row;
  dfz ← getitem_table (round_table round_digits wide)
         ["2025"; "2019"; "10yr_Median"];
  match sort_order with
  | Some sort_order =>
      let available_indicators := t_index dfz in
      let ordered_indicators :=
        List.filter (fun ind => str_in ind available_indicators) sort_order in
      let remaining_indicators :=
        List.filter (fun ind => negb (str_in ind sort_order)) available_indicators in
      let final_order := ordered_indicators ++ remaining_indicators in
      Ok (reindex dfz final_order)
  | None => Ok dfz
  end.

(** The loop over [all_countries]: a country whose projection raises is
    skipped. *)
Definition country_dfs (dff : Table (string * string)) : dict (Table string) :=
  fold_left
    (fun acc country_code =>
       match get_country_df dff country_code 1 (Some logical_order) with
       | Ok t => dict_set country_code t acc
       | Err _ => acc
       end)
    (t_index dff) [].

(** [df.loc[indicator, col]] *)
Definition loc_scalar (df : Table string) (indicator col : string) : cell :=
  match List.find (fun c => String.eqb (fst c) col) (t_columns df) with
  | Some c => cell_at (t_index df) (snd c) indicator
  | None => NaN
  end.

(** [float(x) if pd.notna(x) else None] *)
Definition json_number (c : cell) : option Q :=
  match c with
  | Num q => Some q
  | NaN => None
  end.

Definition indicator_record (df : Table string) (indicator : string) : dict (option Q) :=
  [("2025", json_number (loc_scalar df indicator "2025"));
   ("2019", json_number (loc_scalar df indicator "2019"));
   ("10yr_Median", json_number (loc_scalar df indicator "10yr_Median"))].

Definition country_record (df : Table string) : dict (dict (option Q)) :=
  fold_left (fun acc indicator => dict_set indicator (indicator_record df indicator) acc)
            (t_index df) [].

Definition country_metrics_json (dfs : dict (Table string))
  : dict (dict (dict (option Q))) :=
  fold_left (fun acc kv => dict_set (fst kv) (country_record (snd kv)) acc) dfs [].

(** The script from the collection loop to the embedded data block. *)
Definition run (getc : string -> result DataFrame) (countries : list string)
    (current_year : Z) : result (dict (dict (dict (option Q)))) :=
  dff ← build_dff current_year (collect_all getc countries current_year);
  Ok (country_metrics_json (country_dfs dff)).

(** ** The fallback dataset wrapper [CustomWEO]

    The wrapper the script builds around the raw tab-separated file when
    the [weo] library cannot load it. *)

(** The file as [pd.read_csv] returns it: column names and rows of text
    cells. *)
Record RawTable : Type := mkRawTable {
  raw_columns : list string;
  raw_rows : list (list string)
}.

Definition raw_cell (df : RawTable) (row : list string) (col : string) : string :=
  match str_index col (raw_columns df) with
  | Some pos => nth pos row ""
  | None => ""
  end.

(** [CustomWEO.__init__]: the first known name of the country column. *)
Definition CustomWEO_country_col (df : RawTable) : result string :=
  match List.find (fun col => str_in col (raw_columns df))
                  ["ISO"; "WEO Country Code"; "Country Code"; "ISO3"] with
  | Some col => Ok col
  | None => Err ValueError
  end.

(** [str.isdigit] on ASCII text. *)
Definition isdigit (s : string) : bool :=
  match list_ascii_of_string s with
  | [] => false
  | cs => forallb (fun c => bool_decide (is_Some (digit_of_ascii c))) cs
  end.

(** [result.columns.astype(int)] on one column name: [int] of the text,
    then the conversion to int64, which overflows from 2^63 on. *)
Definition int64_of_text (col : string) : result Z :=
  match py_int col with
  | Some z =>
      if (- 2 ^ 63 <=? z) && (z <? 2 ^ 63) then Ok z else Err OverflowError
  | None => Err ValueError
  end.

(** The conversion of the column names in order: the first name that does
    not convert raises. *)
Fixpoint astype_int (cols : list string) : result (list Z) :=
  match cols with
  | [] => Ok []
  | col :: cols' =>
      z ← int64_of_text col;
      zs ← astype_int cols';
      Ok (z :: zs)
  end.

Section CustomWEO.
(** [pd.to_numeric(errors='coerce')] on one cell: the number the text
    denotes, or NaN. *)
Variable to_numeric : string -> cell.

(** [CustomWEO.getc]: the rows of the variable, the year columns as an
    integer index, the countries as columns. *)
Definition CustomWEO_getc (df : RawTable) (country_col : string)
    (variable_code : string) : result DataFrame :=
  if negb (str_in "WEO Subject Code" (raw_columns df)) then Err KeyError
  else
    let var_data :=
      List.filter (fun row => String.eqb (raw_cell df row "WEO Subject Code")
                                         variable_code)
                  (raw_rows df) in
    match var_data with
    | [] => Err ValueError
    | _ =>
        let year_cols := List.filter isdigit (raw_columns df) in
        if negb (str_in country_col (raw_columns df)) then Err KeyError
        else
          years ← astype_int year_cols;
          Ok {| df_index := map IntLabel years;
                df_columns :=
                  map (fun row =>
                         (raw_cell df row country_col,
                          map (fun col => to_numeric (raw_cell df row col))
                              year_cols))
                      var_data |}
    end.
End CustomWEO.

(** ** The download loop *)

Definition download_attempts : list (Z * Z) :=
  [(2025, 2); (2025, 1); (2024, 2); (2024, 1); (2023, 2)].

(** [str.lower] on the ASCII letters; the other characters of the two tags
    the script looks for are no letters, and no other character lowers to
    one of theirs. *)
Definition ascii_lower (c : ascii) : ascii :=
  let n := nat_of_ascii c in
  if ((65 <=? n) && (n <=? 90))%nat then ascii_of_nat (n + 32) else c.

Fixpoint py_lower (s : string) : string :=
  match s with
  | EmptyString => EmptyString
  | String c s' => String (ascii_lower c) (py_lower s')
  end.

(** [sub in s] *)
Fixpoint py_contains (sub s : string) : bool :=
  match s with
  | EmptyString => String.prefix sub EmptyString
  | String _ s' => String.prefix sub s || py_contains sub s'
  end.

Definition is_html (first_line : string) : bool :=
  py_contains "<html>" (py_lower first_line)
  || py_contains "<head>" (py_lower first_line).

Section Download.
(** [weo.download] of a release, [open] and [f.readline()]: the first line
    of the file as the text stream decodes it, or [None] when one of the
    three raises (a failed download, a chunk of the file that is no UTF-8),
    which the [except] branch catches. *)
Variable first_line_of : Z * Z -> option string.

(** One pass through the body of the loop: [true] when it reaches
    [break]. *)
Definition attempt_succeeds (release : Z * Z) : bool :=
  match first_line_of release with
  | Some first_line => negb (is_html first_line)
  | None => false
  end.

(** The loop over the releases: the release at which it breaks, or [None]
    when it runs to its end and the script raises [RuntimeError]. *)
Fixpoint download_loop (attempts : list (Z * Z)) : option (Z * Z) :=
  match attempts with
  | [] => None
  | release :: rest =>
      if attempt_succeeds release then Some release else download_loop rest
  end.
End Download.

(** ** The holdings file *)

(** [df['Location'].dropna().unique()]: the cells of the column, a missing
    one as [None]. *)
Definition holdings_countries (location : list (option string)) : list string :=
  unique (omap id location).

(** ** Sample inputs *)

Definition demo_frame : DataFrame :=
  {| df_index := [Period 2024; Period 2025; Period 2025];
     df_columns := [("ARG", [Num (1#1); Num (5#1); Num (7#1)]);
                    ("BRA", [Num (2#1); Num (1#1); Num (8#1)]);
                    ("CHL", [Num (3#1); NaN; Num (9#1)])] |}.

(** Data that spans 2015-2028. *)
Definition frame_2015_2028 : DataFrame :=
  {| df_index := map Period [2015; 2016; 2017; 2018; 2019; 2020; 2021; 2022;
                             2023; 2024; 2025; 2026; 2027; 2028];
     df_columns :=
       [("BRA", map (fun z => Num (inject_Z z))
                    [15; 16; 17; 18; 19; 20; 21; 22; 23; 24; 25; 26; 27; 28])] |}.

(** A dataset as the [weo] library returns it: an ascending annual
    [PeriodIndex], one column per country. *)
Definition demo_weo : DataFrame :=
  {| df_index := map Period [2015; 2016; 2017; 2018; 2019; 2020; 2021; 2022;
                             2023; 2024; 2025; 2026];
     df_columns :=
       [("ARG", map (fun z => Num (inject_Z z)) [1; 2; 3; 4; 5; 6; 7; 8; 9; 10; 11; 12]);
        ("BRA", map (fun z => Num (z # 4)) [90; 80; 70; 60; 50; 41; 30; 20; 10; 5; 3; 1]);
        ("USA", map (fun z => Num (inject_Z z)) [0; 0; 0; 0; 0; 0; 0; 0; 0; 0; 0; 0])] |}.

(** Two subjects are in the dataset, the other ten are not. *)
Definition demo_getc (var : string) : result DataFrame :=
  if String.eqb var "NGDPD" then Ok demo_weo
  else if String.eqb var "LP" then Ok demo_weo
  else Err ValueError.

Definition demo_countries : list string := ["Brazil"; "Onlyinholdings"; "Argentina"].

(** A raw file with two subjects and three countries. *)
Definition demo_raw : RawTable :=
  {| raw_columns := ["WEO Subject Code"; "ISO"; "Country"; "2024"; "2025"; "2026"];
     raw_rows :=
       [["NGDPD"; "ARG"; "Argentina"; "10"; "11"; "12"];
        ["NGDPD"; "BRA"; "Brazil"; "5"; "n/a"; "1"];
        ["LP"; "ARG"; "Argentina"; "45"; "46"; "47"];
        ["NGDPD"; "USA"; "United States"; "0"; "0"; "0"]] |}.

Definition demo_to_numeric (s : string) : cell :=
  match py_int s with
  | Some z => Num (inject_Z z)
  | None => NaN
  end.

(** The wrapper over the raw file, with the country column its
    constructor finds. *)
Definition custom_getc : string -> result DataFrame :=
  CustomWEO_getc demo_to_numeric demo_raw "ISO".

(** The frame the wrapper returns for GDP. *)
Definition demo_custom_frame : DataFrame :=
  {| df_index := map IntLabel [2024; 2025; 2026];
     df_columns :=
       [("ARG", map (fun z => Num (inject_Z z)) [10; 11; 12]);
        ("BRA", [Num (inject_Z 5); NaN; Num (inject_Z 1)]);
        ("USA", map (fun z => Num (inject_Z z)) [0; 0; 0])] |}.

(** The three views of GDP in a 2025 run. *)
Definition demo_views : Series * Series * Series :=
  match collect_var demo_getc demo_countries 2025 "NGDPD" with
  | Ok views => views
  | Err _ => ([], [], [])
  end.

(** A series indexed by text: the first label starts with the separator
    0x1C and is no year for [int]. *)
Definition frame_text_years : DataFrame :=
  {| df_index := [StrLabel (String "028" "2025"); StrLabel "2024";
                  StrLabel "2025"];
     df_columns := [("ARG", [Num (1#1); Num (2#1); Num (7#1)]);
                    ("BRA", [Num (9#1); Num (8#1); Num (3#1)])] |}.

(** A series whose labels are no years at all. *)
Definition frame_no_years : DataFrame :=
  {| df_index := [StrLabel "Estimate"; StrLabel "Projection"];
     df_columns := [("ARG", [Num (1#1); Num (4#1)]);
                    ("BRA", [Num (2#1); Num (3#1)])] |}.

(** 2019 and 2021 are equally far from 2020. *)
Definition frame_tie : DataFrame :=
  {| df_index := [Period 2017; Period 2021; Period 2019];
     df_columns := [("ARG", [Num (1#1); Num (4#1); Num (6#1)])] |}.

(** The merged table of the sample run and the table of one country. *)
Definition demo_dff : Table (string * string) :=
  match build_dff 2025 (collect_all demo_getc demo_countries 2025) with
  | Ok dff => dff
  | Err _ => mkTable [] []
  end.

Definition demo_country_table : Table string :=
  match get_country_df demo_dff "BRA" 1 (Some logical_order) with
  | Ok t => t
  | Err _ => mkTable [] []
  end.

(** The data block of the sample run. *)
Definition demo_js : dict (dict (dict (option Q))) :=
  match run demo_getc demo_countries 2025 with
  | Ok js => js
  | Err _ => []
  end.

Definition demo_record : dict (dict (option Q)) :=
  default [] (dict_get "BRA" demo_js).

Definition demo_entry : dict (option Q) :=
  default [] (dict_get "Population" demo_record).

(** * Properties *)

(** ** Runs on the sample inputs *)

Example demo_exact :
  get_year_data demo_frame 2025
  = Ok ([("BRA", Num (1#1)); ("ARG", Num (5#1)); ("CHL", NaN)], YInt 2025).
Proof. vm_compute. reflexivity. Qed.

Example demo_closest :
  get_year_data demo_frame 2030
  = Ok ([("BRA", Num (1#1)); ("ARG", Num (5#1)); ("CHL", NaN)], YInt 2025).
Proof. vm_compute. reflexivity. Qed.

Example demo_py_int :
  py_int " 2_019 " = Some 2019 /\ py_int "-12" = Some (-12)
  /\ py_int "2019a" = None /\ py_int "1__0" = None /\ py_int "" = None.
Proof. vm_compute. repeat split. Qed.

Example demo_raw_country_col : CustomWEO_country_col demo_raw = Ok "ISO".
Proof. reflexivity. Qed.

(** ** Sorting by value *)

Lemma cell_leb_total (a b : cell) : cell_leb a b = true \/ cell_leb b a = true.
Proof.
  destruct a as [|x], b as [|y]; simpl; auto.
  destruct (Qlt_le_dec x y) as [H|H].
  - left. apply Qle_bool_iff, Qlt_le_weak, H.
  - right. apply Qle_bool_iff, H.
Qed.

Lemma cell_leb_trans (a b c : cell) :
  cell_leb a b = true -> cell_leb b c = true -> cell_leb a c = true.
Proof.
  destruct a as [|x], b as [|y], c as [|z]; simpl; auto; try discriminate.
  rewrite !Qle_bool_iff. apply Qle_trans.
Qed.

Global Instance value_le_total : Total value_le.
Proof. intros a b. apply cell_leb_total. Qed.

Global Instance value_le_trans : Transitive value_le.
Proof. intros a b c. apply cell_leb_trans. Qed.

Lemma filter_split_Permutation {A : Type} (f : A -> bool) (l : list A) :
  Permutation (List.filter f l ++ List.filter (fun x => negb (f x)) l) l.
Proof.
  induction l as [|x l IH]; simpl; [constructor|].
  destruct (f x); simpl.
  - now constructor.
  - etransitivity; [symmetry; apply Permutation_middle|]. now constructor.
Qed.

Lemma Sorted_all_nan (l : Series) :
  Forall (fun p => isna (snd p) = true) l -> Sorted value_le l.
Proof.
  induction 1 as [|p l Hp Hl IH]; constructor; auto.
  destruct Hl as [|q l Hq _]; constructor.
  unfold value_le. destruct (snd q); [|discriminate Hq].
  now destruct (snd p).
Qed.

Lemma Sorted_app_nan (l1 l2 : Series) :
  Sorted value_le l1 ->
  Forall (fun p => isna (snd p) = true) l2 ->
  Sorted value_le (l1 ++ l2).
Proof.
  intros H1 H2. induction H1 as [|p l1 Hs IH Hhd]; simpl.
  - now apply Sorted_all_nan.
  - constructor; [exact IH|].
    destruct Hhd as [|q l1' Hpq]; simpl.
    + destruct H2 as [|q l2 Hq _]; constructor.
      unfold value_le. destruct (snd q); [|discriminate Hq].
      now destruct (snd p).
    + now constructor.
Qed.

Lemma sort_values_Permutation (s : Series) : Permutation (sort_values s) s.
Proof.
  unfold sort_values. rewrite merge_sort_Permutation.
  apply (filter_split_Permutation (fun p => notna (snd p))).
Qed.

Lemma sort_values_Sorted (s : Series) : Sorted value_le (sort_values s).
Proof.
  unfold sort_values. apply Sorted_app_nan.
  - apply (Sorted_merge_sort value_le).
  - apply List.Forall_forall. intros p Hp. now apply filter_In in Hp.
Qed.

(** ** Python list search *)

Lemma py_in_In (x : year_key) (l : list year_key) : py_in x l = true <-> In x l.
Proof.
  unfold py_in. rewrite existsb_exists. split.
  - intros (y & Hy & E). apply bool_decide_eq_true in E. now subst.
  - intros H. exists x. split; [exact H|]. now apply bool_decide_eq_true.
Qed.

Lemma py_index_Some (x : year_key) (l : list year_key) :
  In x l -> exists pos, py_index x l = Some pos.
Proof.
  induction l as [|y l IH]; simpl; [tauto|]. intros H.
  destruct (bool_decide (y = x)) eqn:E; [eauto|].
  apply bool_decide_eq_false in E.
  destruct H as [H|H]; [contradiction|].
  destruct (IH H) as [pos ->]. simpl. eauto.
Qed.

(** [l.index(x)] is the first position that holds [x]. *)
Lemma py_index_first (x : year_key) (l : list year_key) (pos : nat) :
  py_index x l = Some pos ->
  l !! pos = Some x /\ forall j, (j < pos)%nat -> l !! j <> Some x.
Proof.
  revert pos. induction l as [|y l IH]; simpl; intros pos H; [discriminate|].
  destruct (bool_decide (y = x)) eqn:E.
  - apply bool_decide_eq_true in E. injection H as <-. subst y.
    split; [reflexivity|]. intros j Hj. lia.
  - apply bool_decide_eq_false in E.
    destruct (py_index x l) as [p|]; [|discriminate].
    injection H as <-. destruct (IH p eq_refl) as [H1 H2].
    split; [exact H1|]. intros [|j] Hj; simpl.
    + congruence.
    + apply H2. lia.
Qed.

Lemma py_index_lt (x : year_key) (l : list year_key) (pos : nat) :
  py_index x l = Some pos -> (pos < length l)%nat.
Proof.
  intros H. apply py_index_first in H as [H _].
  now apply lookup_lt_Some in H.
Qed.

Lemma iloc_row (df : DataFrame) (pos : nat) :
  (pos < length (df_index df))%nat -> iloc df pos = Ok (row_at df pos).
Proof.
  intros H. unfold iloc. apply Nat.ltb_lt in H. now rewrite H.
Qed.

(** ** The minimum search *)

Lemma py_min_by_spec (key : Z -> Z) (best : Z) (l : list Z) :
  In (py_min_by key best l) (best :: l)
  /\ forall x, In x (best :: l) -> key (py_min_by key best l) <= key x.
Proof.
  revert best. induction l as [|x l IH]; intros best; simpl.
  - split; [auto|]. intros x [<-|[]]. lia.
  - destruct (IH (if key x <? key best then x else best)) as [Hin Hmin].
    split.
    + destruct Hin as [Hin|Hin]; [|auto].
      rewrite <- Hin. destruct (key x <? key best); auto.
    + intros y Hy.
      assert (Hb : key (if key x <? key best then x else best) <= key best
                   /\ key (if key x <? key best then x else best) <= key x).
      { destruct (key x <? key best) eqn:E;
          [apply Z.ltb_lt in E|apply Z.ltb_ge in E]; lia. }
      pose proof (Hmin _ (or_introl eq_refl)) as H0.
      destruct Hy as [<-|[<-|Hy]]; [lia|lia|].
      apply Hmin. now right.
Qed.

Lemma numeric_years_In (index_years : list year_key) (y : Z) :
  In y (numeric_years_of index_years) <-> In (YInt y) index_years.
Proof.
  unfold numeric_years_of. rewrite in_flat_map. split.
  - intros ([z|s] & Hin & Hy); simpl in Hy; [|tauto].
    destruct Hy as [<-|[]]. exact Hin.
  - intros H. exists (YInt y). simpl. auto.
Qed.

Lemma index_years_length (series_data : DataFrame) :
  length (index_years series_data) = length (df_index series_data).
Proof. apply length_map. Qed.

(** The exact-year branch. *)
Lemma get_year_data_exact (series_data : DataFrame) (target_year : Z) :
  In (YInt target_year) (index_years series_data) ->
  exists year_pos,
    py_index (YInt target_year) (index_years series_data) = Some year_pos
    /\ get_year_data series_data target_year
       = Ok (sort_values (row_at series_data year_pos), YInt target_year).
Proof.
  intros Hin. destruct (py_index_Some _ _ Hin) as [pos Hpos].
  exists pos. split; [exact Hpos|].
  unfold get_year_data. fold (index_years series_data).
  apply py_in_In in Hin. rewrite Hin, Hpos.
  rewrite iloc_row; [reflexivity|].
  rewrite <- index_years_length. eapply py_index_lt, Hpos.
Qed.

(** The closest-year branch. *)
Lemma get_year_data_closest (series_data : DataFrame) (target_year : Z) :
  ~ In (YInt target_year) (index_years series_data) ->
  (exists y0, In (YInt y0) (index_years series_data)) ->
  exists closest_year year_pos,
    py_index (YInt closest_year) (index_years series_data) = Some year_pos
    /\ (forall y, In (YInt y) (index_years series_data) ->
                  Z.abs (closest_year - target_year) <= Z.abs (y - target_year))
    /\ get_year_data series_data target_year
       = Ok (sort_values (row_at series_data year_pos), YInt closest_year).
Proof.
  intros Hnot [y0 Hy0].
  unfold get_year_data. fold (index_years series_data).
  destruct (py_in (YInt target_year) (index_years series_data)) eqn:E.
  { apply py_in_In in E. contradiction. }
  apply numeric_years_In in Hy0.
  destruct (numeric_years_of (index_years series_data)) as [|y1 rest] eqn:En;
    [destruct Hy0|].
  set (key := fun x => Z.abs (x - target_year)).
  destruct (py_min_by_spec key y1 rest) as [Hin Hmin].
  set (closest := py_min_by key y1 rest) in *.
  rewrite <- En in Hin, Hmin.
  apply numeric_years_In in Hin.
  destruct (py_index_Some _ _ Hin) as [pos Hpos].
  exists closest, pos. split; [exact Hpos|]. split.
  - intros y Hy. apply (Hmin y). now apply numeric_years_In.
  - rewrite Hpos. rewrite iloc_row; [reflexivity|].
    rewrite <- index_years_length. eapply py_index_lt, Hpos.
Qed.

(** ** Year resolution: the claims *)

(** The normalized index and the labels of the frame: an entry of
    [index_years] is the integer [y] exactly when the label at its position
    stands for the year [y]. *)
Lemma extract_year_spec (label : index_entry) (y : Z) :
  extract_year_from_index label = YInt y <-> spec_label_year label y.
Proof.
  destruct label as [p|i|s]; simpl; [split; congruence..|].
  destruct (py_int s) as [z|]; split; congruence.
Qed.

Lemma index_years_lookup_label (series_data : DataFrame) (pos : nat) (y : Z) :
  index_years series_data !! pos = Some (YInt y)
  <-> exists label,
        df_index series_data !! pos = Some label /\ spec_label_year label y.
Proof.
  unfold index_years. rewrite list_lookup_fmap. split.
  - destruct (df_index series_data !! pos) as [label|]; [|discriminate].
    intros [= H]. exists label. split; [reflexivity|]. now apply extract_year_spec.
  - intros (label & -> & H). apply extract_year_spec in H. simpl. now rewrite H.
Qed.

Lemma index_years_In_label (series_data : DataFrame) (y : Z) :
  In (YInt y) (index_years series_data)
  <-> exists label, In label (df_index series_data) /\ spec_label_year label y.
Proof.
  unfold index_years. rewrite in_map_iff. split.
  - intros (label & H & Hin). exists label. split; [exact Hin|].
    now apply extract_year_spec.
  - intros (label & Hin & H). exists label. split; [|exact Hin].
    now apply extract_year_spec.
Qed.

(** The series returned for a position: the cell of every column at that
    position, under the column's label, reordered by value. *)
Lemma sort_values_row (series_data : DataFrame) (pos : nat) :
  Permutation (sort_values (row_at series_data pos))
              (map (fun c => (fst c, nth pos (snd c) NaN)) (df_columns series_data)).
Proof. unfold row_at. apply sort_values_Permutation. Qed.

(** C3: when a label of the time index stands for the target year (the
    year of a period, an integer, the integer a text denotes),
    [get_year_data] returns the values stored at such a label (for every
    country column its cell at the position of the label, under the country's
    code) and reports the target year as the year used. *)
Theorem C3_exact_year_values (series_data : DataFrame) (target_year : Z) :
  ascii_labels (df_index series_data) ->
  (exists label,
      In label (df_index series_data) /\ spec_label_year label target_year) ->
  exists year_pos label values,
    get_year_data series_data target_year = Ok (values, YInt target_year)
    /\ df_index series_data !! year_pos = Some label
    /\ spec_label_year label target_year
    /\ Permutation values
         (map (fun c => (fst c, nth year_pos (snd c) NaN))
              (df_columns series_data)).
Proof.
  intros _ Hin. apply index_years_In_label in Hin.
  destruct (get_year_data_exact _ _ Hin) as (pos & Hpos & Hget).
  apply py_index_first in Hpos as [Hat _].
  apply index_years_lookup_label in Hat as (label & Hlabel & Hyear).
  exists pos, label, (sort_values (row_at series_data pos)).
  split; [exact Hget|]. split; [exact Hlabel|]. split; [exact Hyear|].
  apply sort_values_row.
Qed.

Lemma C3_exact_year_values_witness :
  exists year_pos label values,
    get_year_data demo_frame 2025 = Ok (values, YInt 2025)
    /\ df_index demo_frame !! year_pos = Some label
    /\ spec_label_year label 2025
    /\ Permutation values
         (map (fun c => (fst c, nth year_pos (snd c) NaN)) (df_columns demo_frame)).
Proof.
  apply (C3_exact_year_values demo_frame 2025).
  - intros s H. simpl in H. repeat (destruct H as [H|H]; [discriminate H|]).
    destruct H.
  - exists (Period 2025). split; [simpl; auto|reflexivity].
Defined.

(** The exact year of the sample frame: the cells of its first row labelled
    2025, by value. *)
Example exact_2025_values :
  get_year_data demo_frame 2025
  = Ok ([("BRA", Num (1#1)); ("ARG", Num (5#1)); ("CHL", NaN)], YInt 2025).
Proof. vm_compute. reflexivity. Qed.

(** C4: when no label of the time index stands for the target year but
    some label stands for an integer year, [get_year_data] returns the values
    stored at a label whose year has minimum absolute difference from the
    target year among all the years of the index, and reports that year as
    the year used. *)
Theorem C4_closest_year_values (series_data : DataFrame) (target_year : Z) :
  ascii_labels (df_index series_data) ->
  (forall label,
      In label (df_index series_data) -> ~ spec_label_year label target_year) ->
  (exists label y0,
      In label (df_index series_data) /\ spec_label_year label y0) ->
  exists closest_year year_pos label values,
    get_year_data series_data target_year = Ok (values, YInt closest_year)
    /\ df_index series_data !! year_pos = Some label
    /\ spec_label_year label closest_year
    /\ Permutation values
         (map (fun c => (fst c, nth year_pos (snd c) NaN))
              (df_columns series_data))
    /\ forall label' y,
         In label' (df_index series_data) ->
         spec_label_year label' y ->
         Z.abs (closest_year - target_year) <= Z.abs (y - target_year).
Proof.
  intros _ Hnot (label0 & y0 & Hin0 & Hy0).
  assert (Hnot' : ~ In (YInt target_year) (index_years series_data)).
  { intros H. apply index_years_In_label in H as (label & Hin & Hy).
    exact (Hnot label Hin Hy). }
  assert (Hex : exists y0, In (YInt y0) (index_years series_data)).
  { exists y0. apply index_years_In_label. eauto. }
  destruct (get_year_data_closest _ _ Hnot' Hex) as (y & pos & Hpos & Hmin & Hget).
  apply py_index_first in Hpos as [Hat _].
  apply index_years_lookup_label in Hat as (label & Hlabel & Hyear).
  exists y, pos, label, (sort_values (row_at series_data pos)).
  split; [exact Hget|]. split; [exact Hlabel|]. split; [exact Hyear|].
  split; [apply sort_values_row|].
  intros label' y' Hin' Hy'. apply Hmin, index_years_In_label. eauto.
Qed.

Lemma C4_closest_year_values_witness :
  exists closest_year year_pos label values,
    get_year_data frame_2015_2028 2030 = Ok (values, YInt closest_year)
    /\ df_index frame_2015_2028 !! year_pos = Some label
    /\ spec_label_year label closest_year
    /\ Permutation values
         (map (fun c => (fst c, nth year_pos (snd c) NaN))
              (df_columns frame_2015_2028))
    /\ forall label' y,
         In label' (df_index frame_2015_2028) ->
         spec_label_year label' y ->
         Z.abs (closest_year - 2030) <= Z.abs (y - 2030).
Proof.
  apply (C4_closest_year_values frame_2015_2028 2030).
  - intros s H. vm_compute in H.
    repeat (destruct H as [H|H]; [discriminate H|]). destruct H.
  - intros label H. vm_compute in H.
    repeat (destruct H as [<-|H]; [simpl; lia|]). destruct H.
  - exists (Period 2015), 2015. split; [simpl; auto|reflexivity].
Defined.

(** Target 2030 over data spanning 2015-2028 resolves to 2028. *)
Example closest_2030_is_2028 :
  get_year_data frame_2015_2028 2030 = Ok ([("BRA", Num (inject_Z 28))], YInt 2028).
Proof. vm_compute. reflexivity. Qed.

(** C10: when the year that is used (the target year when a label of the
    index stands for it, else the closest year) is the year of several labels
    of the index, [get_year_data] returns the values stored at the first of
    them: no label at an earlier position stands for the year used. *)
Theorem C10_first_position (series_data : DataFrame) (target_year : Z) :
  ascii_labels (df_index series_data) ->
  (exists label y0,
      In label (df_index series_data) /\ spec_label_year label y0) ->
  exists used_year year_pos label values,
    get_year_data series_data target_year = Ok (values, YInt used_year)
    /\ Permutation values
         (map (fun c => (fst c, nth year_pos (snd c) NaN))
              (df_columns series_data))
    /\ ((exists label',
            In label' (df_index series_data)
            /\ spec_label_year label' target_year) ->
        used_year = target_year)
    /\ df_index series_data !! year_pos = Some label
    /\ spec_label_year label used_year
    /\ forall pos label',
         df_index series_data !! pos = Some label' ->
         spec_label_year label' used_year ->
         (year_pos <= pos)%nat.
Proof.
  intros _ (label0 & y0 & Hin0 & Hy0).
  assert (Hex : exists y0, In (YInt y0) (index_years series_data)).
  { exists y0. apply index_years_In_label. eauto. }
  assert (Hfirst : forall y pos,
             py_index (YInt y) (index_years series_data) = Some pos ->
             (exists label,
                 df_index series_data !! pos = Some label
                 /\ spec_label_year label y)
             /\ forall p label',
                  df_index series_data !! p = Some label' ->
                  spec_label_year label' y ->
                  (pos <= p)%nat).
  { intros y pos Hpos. apply py_index_first in Hpos as [H1 H2]. split.
    - now apply index_years_lookup_label.
    - intros p label' Hp Hy.
      destruct (Nat.le_gt_cases pos p) as [Hle|Hlt]; [exact Hle|].
      exfalso. apply (H2 p Hlt). apply index_years_lookup_label. eauto. }
  destruct (in_dec (decide_rel eq) (YInt target_year) (index_years series_data))
    as [Hin|Hnot].
  - destruct (get_year_data_exact _ _ Hin) as (pos & Hpos & Hget).
    destruct (Hfirst _ _ Hpos) as [(label & Hlabel & Hyear) Hmin].
    exists target_year, pos, label, (sort_values (row_at series_data pos)).
    split; [exact Hget|]. split; [apply sort_values_row|].
    split; [reflexivity|]. split; [exact Hlabel|]. split; [exact Hyear|exact Hmin].
  - destruct (get_year_data_closest _ _ Hnot Hex) as (y & pos & Hpos & _ & Hget).
    destruct (Hfirst _ _ Hpos) as [(label & Hlabel & Hyear) Hmin].
    exists y, pos, label, (sort_values (row_at series_data pos)).
    split; [exact Hget|]. split; [apply sort_values_row|].
    split; [|split; [exact Hlabel|split; [exact Hyear|exact Hmin]]].
    intros Hin. exfalso. apply Hnot. now apply index_years_In_label.
Qed.

Lemma C10_first_position_witness :
  exists used_year year_pos label values,
    get_year_data demo_frame 2025 = Ok (values, YInt used_year)
    /\ Permutation values
         (map (fun c => (fst c, nth year_pos (snd c) NaN)) (df_columns demo_frame))
    /\ ((exists label',
            In label' (df_index demo_frame) /\ spec_label_year label' 2025) ->
        used_year = 2025)
    /\ df_index demo_frame !! year_pos = Some label
    /\ spec_label_year label used_year
    /\ forall pos label',
         df_index demo_frame !! pos = Some label' ->
         spec_label_year label' used_year ->
         (year_pos <= pos)%nat.
Proof.
  apply (C10_first_position demo_frame 2025).
  - intros s H. simpl in H. repeat (destruct H as [H|H]; [discriminate H|]).
    destruct H.
  - exists (Period 2024), 2024. split; [simpl; auto|reflexivity].
Defined.

(** Two entries normalize to 2025; the row of the first one is returned. *)
Example duplicate_year_first_row :
  get_year_data demo_frame 2025
  = Ok (sort_values (row_at demo_frame 1), YInt 2025).
Proof. vm_compute. reflexivity. Qed.

Lemma get_year_data_total (series_data : DataFrame) (target_year : Z) :
  df_index series_data <> [] ->
  exists year_pos used,
    (year_pos < length (df_index series_data))%nat
    /\ get_year_data series_data target_year
       = Ok (sort_values (row_at series_data year_pos), used).
Proof.
  intros Hne.
  destruct (in_dec (decide_rel eq) (YInt target_year) (index_years series_data))
    as [Hin|Hnot].
  - destruct (get_year_data_exact _ _ Hin) as (pos & Hpos & Hget).
    exists pos, (YInt target_year). split; [|exact Hget].
    rewrite <- index_years_length. eapply py_index_lt, Hpos.
  - destruct (numeric_years_of (index_years series_data)) as [|y1 rest] eqn:En.
    + unfold get_year_data. fold (index_years series_data).
      destruct (py_in (YInt target_year) (index_years series_data)) eqn:E.
      { apply py_in_In in E. contradiction. }
      rewrite En. unfold iloc_last.
      destruct (df_index series_data) as [|e idx] eqn:Ei; [contradiction|].
      simpl length. exists (length idx), last_available.
      split; [lia|reflexivity].
    + assert (Hex : exists y0, In (YInt y0) (index_years series_data)).
      { exists y1. apply numeric_years_In. rewrite En. now left. }
      destruct (get_year_data_closest _ _ Hnot Hex) as (y & pos & Hpos & _ & Hget).
      exists pos, (YInt y). split; [|exact Hget].
      rewrite <- index_years_length. eapply py_index_lt, Hpos.
Qed.

(** C2 (as the code has it): on every branch (exact year, closest year, last
    available) the series that [get_year_data] returns for a frame with a
    non-empty index is a row of the frame reordered by ascending value, NaN
    entries last; it is ordered by value, not by country code. *)
Theorem C2_sorted_by_value (series_data : DataFrame) (target_year : Z) :
  df_index series_data <> [] ->
  exists values used year_pos,
    get_year_data series_data target_year = Ok (values, used)
    /\ Sorted value_le values
    /\ (year_pos < length (df_index series_data))%nat
    /\ Permutation values (row_at series_data year_pos).
Proof.
  intros Hne.
  destruct (get_year_data_total _ target_year Hne) as (pos & used & Hlt & Hget).
  exists (sort_values (row_at series_data pos)), used, pos.
  split; [exact Hget|]. split; [apply sort_values_Sorted|].
  split; [exact Hlt|apply sort_values_Permutation].
Qed.

Lemma C2_sorted_by_value_witness :
  exists values used year_pos,
    get_year_data demo_frame 2030 = Ok (values, used)
    /\ Sorted value_le values
    /\ (year_pos < length (df_index demo_frame))%nat
    /\ Permutation values (row_at demo_frame year_pos).
Proof.
  apply (C2_sorted_by_value demo_frame 2030). discriminate.
Defined.

(** The claim as stated fails: the row for 2025 comes back as BRA, ARG, CHL
    (values 1, 5, NaN), which is not in ascending code order. *)
Lemma C2_counterexample :
  ~ (forall series_data target_year values used,
        get_year_data series_data target_year = Ok (values, used) ->
        Sorted str_le (map fst values)).
Proof.
  intros H. specialize (H demo_frame 2025 _ _ demo_exact).
  simpl in H. inversion H as [|a l Hs Hhd]; subst.
  inversion Hhd as [|b l' Hle]; subst.
  vm_compute in Hle. discriminate Hle.
Qed.

(** ** Country resolution *)

Section Resolution.
Variable table : gmap string string.

Lemma resolve_omap (countries : list string) :
  flat_map (fun country =>
              if bool_decide (is_Some (table !! country))
              then [default country (table !! country)]
              else []) countries
  = omap (fun name => table !! name) countries.
Proof.
  induction countries as [|c l IH]; [reflexivity|].
  simpl. rewrite IH. destruct (table !! c) as [code|] eqn:E.
  - rewrite bool_decide_eq_true_2 by eauto. reflexivity.
  - rewrite bool_decide_eq_false_2; [reflexivity|].
    intros [x Hx]. discriminate Hx.
Qed.

Lemma omap_absent (name : string) (before after : list string) :
  table !! name = None ->
  omap (fun name => table !! name) (before ++ name :: after)
  = omap (fun name => table !! name) (before ++ after).
Proof.
  intros Hnone. rewrite !omap_app. simpl. now rewrite Hnone.
Qed.
End Resolution.

Lemma embi_countries_omap (countries : list string) :
  embi_countries countries = omap (fun name => country_mapping !! name) countries.
Proof. apply resolve_omap. Qed.

(** C7: the resolved list is exactly the table's codes of the names that the
    table holds, in input order; a name that is not a key of the table adds
    nothing, wherever it stands (no partial match, no error). *)
Theorem C7_country_resolution (countries : list string) :
  embi_countries countries = omap (fun name => country_mapping !! name) countries
  /\ forall name before after,
       country_mapping !! name = None ->
       embi_countries (before ++ name :: after) = embi_countries (before ++ after).
Proof.
  split; [apply embi_countries_omap|].
  intros name before after Hnone.
  rewrite !embi_countries_omap. now apply omap_absent.
Qed.

Lemma C7_country_resolution_witness :
  embi_countries (["Brazil"] ++ "Onlyinholdings" :: ["Chile"])
  = embi_countries (["Brazil"] ++ ["Chile"]).
Proof.
  apply (C7_country_resolution []). vm_compute. reflexivity.
Defined.

Example onlyinholdings_dropped :
  embi_countries ["Brazil"; "Onlyinholdings"] = ["BRA"].
Proof. vm_compute. reflexivity. Qed.

Lemma NoDup_snd_inj {A B : Type} (l : list (A * B)) (a1 a2 : A) (b : B) :
  NoDup (map snd l) -> In (a1, b) l -> In (a2, b) l -> a1 = a2.
Proof.
  induction l as [|[a c] l IH]; simpl; intros Hnd H1 H2; [tauto|].
  apply NoDup_cons in Hnd as [Hnotin Hnd].
  destruct H1 as [H1|H1], H2 as [H2|H2].
  - congruence.
  - injection H1 as -> ->. exfalso. apply Hnotin.
    apply list_elem_of_In. apply (in_map snd) in H2. exact H2.
  - injection H2 as -> ->. exfalso. apply Hnotin.
    apply list_elem_of_In. apply (in_map snd) in H1. exact H1.
  - now apply IH.
Qed.

Lemma country_codes_NoDup : NoDup (map snd country_mapping_items).
Proof. apply (bool_decide_unpack _). vm_compute. exact I. Qed.

(** C9: the static name-to-code table is injective: two distinct names of
    the table have distinct codes. *)
Theorem C9_country_mapping_injective (name1 name2 code1 code2 : string) :
  name1 <> name2 ->
  country_mapping !! name1 = Some code1 ->
  country_mapping !! name2 = Some code2 ->
  code1 <> code2.
Proof.
  intros Hne H1 H2 Heq. subst code2. apply Hne.
  apply elem_of_list_to_map_2, list_elem_of_In in H1.
  apply elem_of_list_to_map_2, list_elem_of_In in H2.
  exact (NoDup_snd_inj _ _ _ _ country_codes_NoDup H1 H2).
Qed.

Lemma C9_country_mapping_injective_witness : "BRA" <> "CHL".
Proof.
  apply (C9_country_mapping_injective "Brazil" "Chile" "BRA" "CHL").
  - discriminate.
  - vm_compute. reflexivity.
  - vm_compute. reflexivity.
Defined.

(** ** The three views of one indicator *)

Arguments country_mapping : simpl never.
Arguments embi_countries : simpl never.

Lemma getitem_columns_inv (df : DataFrame) (labels : list string) (sd : DataFrame) :
  getitem_columns df labels = Ok sd ->
  df_index sd = df_index df
  /\ (forall c, In c (map fst (df_columns sd)) <-> In c labels)
  /\ (forall col, In col (df_columns sd) -> In col (df_columns df)).
Proof.
  unfold getitem_columns. destruct (forallb (has_column df) labels) eqn:E;
    [|discriminate]. intros [= <-]. simpl.
  split; [reflexivity|]. split.
  - intros c. rewrite in_map_iff. split.
    + intros (col & <- & Hin). apply in_flat_map in Hin as (label & Hl & Hf).
      apply filter_In in Hf as [_ Hf]. apply String.eqb_eq in Hf.
      now rewrite Hf.
    + intros Hc. rewrite forallb_forall in E. specialize (E c Hc).
      unfold has_column in E. apply existsb_exists in E as (col & Hcol & He).
      exists col. split; [now apply String.eqb_eq|].
      apply in_flat_map. exists c. split; [exact Hc|].
      apply filter_In. split; assumption.
  - intros col Hin. apply in_flat_map in Hin as (label & _ & Hf).
    now apply filter_In in Hf.
Qed.

Lemma row_at_codes (df : DataFrame) (pos : nat) :
  map fst (row_at df pos) = map fst (df_columns df).
Proof. unfold row_at. rewrite map_map. reflexivity. Qed.


Lemma get_year_data_inv (sd : DataFrame) (t : Z) (values : Series) (used : year_key) :
  get_year_data sd t = Ok (values, used) ->
  exists pos, (pos < length (df_index sd))%nat /\ values = sort_values (row_at sd pos).
Proof.
  intros H. destruct (df_index sd) as [|e idx] eqn:Ei.
  - unfold get_year_data, iloc_last in H. rewrite Ei in H. discriminate H.
  - assert (Hne : df_index sd <> []) by (rewrite Ei; discriminate).
    destruct (get_year_data_total sd t Hne) as (pos & u & Hlt & Hget).
    rewrite Hget in H. injection H as <- <-.
    exists pos. rewrite <- Ei. split; [exact Hlt|reflexivity].
Qed.


Lemma loc_period_slice_inv (df : DataFrame) (lo hi : Z) (w : DataFrame) :
  loc_period_slice df lo hi = Ok w ->
  exists start stop,
    get_slice_bound (df_index df) lo Left = Ok start
    /\ get_slice_bound (df_index df) hi Right = Ok stop
    /\ w = {| df_index := slice start stop (df_index df);
              df_columns :=
                map (fun c => (fst c, slice start stop (snd c))) (df_columns df) |}.
Proof.
  unfold loc_period_slice.
  destruct (get_slice_bound (df_index df) lo Left) as [start|] eqn:E1;
    [|discriminate].
  destruct (get_slice_bound (df_index df) hi Right) as [stop|] eqn:E2;
    [|discriminate].
  intros [= <-]. exists start, stop. auto.
Qed.



Lemma median_codes (df : DataFrame) :
  map fst (median df) = map fst (df_columns df).
Proof. unfold median. rewrite map_map. reflexivity. Qed.


Lemma sort_values_In (s : Series) (x : string * cell) :
  In x (sort_values s) <-> In x s.
Proof.
  split; apply Permutation_in.
  - apply sort_values_Permutation.
  - symmetry. apply sort_values_Permutation.
Qed.

Lemma sort_values_nan_series (labels : list string) :
  sort_values (nan_series labels) = nan_series labels.
Proof.
  unfold sort_values.
  assert (H1 : List.filter (fun p : string * cell => notna (snd p)) (nan_series labels) = []).
  { induction labels as [|c l IH]; [reflexivity|exact IH]. }
  assert (H2 : List.filter (fun p : string * cell => isna (snd p)) (nan_series labels)
               = nan_series labels).
  { induction labels as [|c l IH]; [reflexivity|]. simpl. now rewrite IH. }
  rewrite H1, H2. reflexivity.
Qed.

Lemma nan_series_codes (labels : list string) : map fst (nan_series labels) = labels.
Proof. unfold nan_series. rewrite map_map. apply map_id. Qed.


Section Views.
Variable getc : string -> result DataFrame.
Variable countries : list string.
Variable current_year : Z.

Lemma collect_var_inv (var : string) (cur med y19 : Series) :
  collect_var getc countries current_year var = Ok (cur, med, y19) ->
  exists full series_data used window,
    getc var = Ok full
    /\ getitem_columns full (embi_countries countries) = Ok series_data
    /\ get_year_data series_data current_year = Ok (cur, used)
    /\ loc_period_slice series_data (current_year - 9) current_year = Ok window
    /\ med = sort_values (median window)
    /\ y19 = values_2019_of countries series_data.
Proof.
  unfold collect_var. destruct (getc var) as [full|] eqn:E1;
    cbn [mbind result_bind]; [|discriminate].
  destruct (getitem_columns full (embi_countries countries)) as [sd|] eqn:E2;
    cbn [mbind result_bind]; [|discriminate].
  destruct (get_year_data sd current_year) as [[cv used]|] eqn:E3;
    cbn [mbind result_bind]; [|discriminate].
  destruct (loc_period_slice sd (current_year - 9) current_year) as [w|] eqn:E4;
    cbn [mbind result_bind]; [|discriminate].
  intros [= <- <- <-]. exists full, sd, used, w. auto 10.
Qed.

End Views.



(** Brazil and Argentina are resolved, the unmapped name is not; the three
    views of GDP hold exactly these two codes. *)
Example demo_views_value :
  demo_views
  = ([("BRA", Num (3 # 4)); ("ARG", Num (inject_Z 11))],
     [("ARG", Num (13 # 2)); ("BRA", Num (71 # 8))],
     [("ARG", Num (inject_Z 5)); ("BRA", Num (50 # 4))]).
Proof. vm_compute. reflexivity. Qed.

(** ** Dictionaries *)

Lemma dict_get_set_eq {V : Type} (k : string) (v : V) (d : dict V) :
  dict_get k (dict_set k v d) = Some v.
Proof.
  induction d as [|[k' v'] d IH]; simpl.
  - now rewrite String.eqb_refl.
  - destruct (String.eqb k' k) eqn:E; simpl.
    + now rewrite String.eqb_refl.
    + now rewrite E.
Qed.

Lemma dict_get_set_ne {V : Type} (k k' : string) (v : V) (d : dict V) :
  k <> k' -> dict_get k (dict_set k' v d) = dict_get k d.
Proof.
  intros Hne. induction d as [|[k0 v0] d IH]; simpl.
  - destruct (String.eqb_spec k' k); [congruence|reflexivity].
  - destruct (String.eqb_spec k0 k') as [->|Hn]; simpl.
    + destruct (String.eqb_spec k' k); [congruence|reflexivity].
    + destruct (String.eqb_spec k0 k); [reflexivity|exact IH].
Qed.

Lemma dict_set_In {V : Type} (k : string) (v : V) (d : dict V) (x : string) (w : V) :
  In (x, w) (dict_set k v d) -> (x = k /\ w = v) \/ In (x, w) d.
Proof.
  induction d as [|[k0 v0] d IH]; simpl.
  - intros [[= <- <-]|[]]. now left.
  - destruct (String.eqb k0 k); simpl.
    + intros [[= <- <-]|H]; [now left|right; now right].
    + intros [H|H]; [right; now left|].
      destruct (IH H) as [H'|H']; [now left|right; now right].
Qed.

Lemma dict_get_In {V : Type} (k : string) (v : V) (d : dict V) :
  dict_get k d = Some v -> In (k, v) d.
Proof.
  induction d as [|[k0 v0] d IH]; simpl; [discriminate|].
  destruct (String.eqb_spec k0 k) as [->|Hn].
  - intros [= ->]. now left.
  - intros H. right. now apply IH.
Qed.

Lemma clean_In {V : Type} (d : dict (option V)) (k : string) (v : V) :
  In (k, v) (clean d) <-> In (k, Some v) d.
Proof.
  unfold clean. rewrite in_flat_map. split.
  - intros ([k' [v'|]] & Hin & Hx); simpl in Hx; [|tauto].
    destruct Hx as [[= -> ->]|[]]. exact Hin.
  - intros H. exists (k, Some v). split; [exact H|]. now left.
Qed.

(** ** The collection loop: what each dictionary holds *)

Lemma DataFrame_of_dict_inv (d : dict Series) (t : Table string) :
  DataFrame_of_dict d = Ok t -> t = frame_of_dict d.
Proof.
  unfold DataFrame_of_dict. destruct (forallb _ _); [|discriminate].
  now intros [= <-].
Qed.

Lemma frame_columns (d : dict Series) :
  map fst (t_columns (rename_columns var_dict (frame_of_dict d)))
  = map display (keys d).
Proof.
  unfold rename_columns, frame_of_dict, keys. simpl.
  rewrite !map_map. reflexivity.
Qed.

Lemma display_injective (k1 k2 : string) :
  In k1 (keys var_dict) -> In k2 (keys var_dict) ->
  display k1 = display k2 -> k1 = k2.
Proof.
  assert (H : Forall (fun a => Forall (fun b => display a = display b -> a = b)
                                      (keys var_dict)) (keys var_dict)).
  { apply (bool_decide_unpack _). vm_compute. exact I. }
  intros H1 H2. rewrite List.Forall_forall in H. specialize (H k1 H1).
  rewrite List.Forall_forall in H. exact (H k2 H2).
Qed.

Section Loop.
Variable getc : string -> result DataFrame.
Variable countries : list string.
Variable current_year : Z.

Lemma collect_step_data (st : collected) (var : string) :
  let st' := collect_step getc countries current_year st var in
  current_year_data st'
  = dict_set var (stored_current getc countries current_year var)
             (current_year_data st)
  /\ median_10yr_data st'
     = dict_set var (stored_median getc countries current_year var)
                (median_10yr_data st)
  /\ data_2019 st'
     = dict_set var (stored_2019 getc countries current_year var) (data_2019 st).
Proof.
  unfold collect_step, stored_current, stored_median, stored_2019.
  destruct (collect_var getc countries current_year var) as [[[c m] y]|e];
    simpl; auto.
Qed.

Lemma collect_step_invariant (vars : list string) (st : collected) (var : string) :
  In var vars ->
  loop_invariant getc countries current_year vars st ->
  loop_invariant getc countries current_year vars
                 (collect_step getc countries current_year st var).
Proof.
  intros Hvar (H1 & H2 & H3). unfold loop_invariant.
  destruct (collect_step_data st var) as (-> & -> & ->).
  split; [|split]; intros k v Hin;
    apply dict_set_In in Hin as [[-> ->]|Hin]; auto.
Qed.

Lemma collect_from_invariant (all vars : list string) (st : collected) :
  (forall v, In v vars -> In v all) ->
  loop_invariant getc countries current_year all st ->
  loop_invariant getc countries current_year all
                 (collect_from getc countries current_year st vars).
Proof.
  revert st. induction vars as [|v vars IH]; intros st Hsub Hinv; [exact Hinv|].
  simpl. apply IH.
  - intros x Hx. apply Hsub. now right.
  - apply collect_step_invariant; [apply Hsub; now left|exact Hinv].
Qed.

(** Later iterations for other variables leave the entries of [var] as
    they are. *)
Lemma collect_from_keeps (var : string) (vars : list string) (st : collected) :
  holds_outcome getc countries current_year st var ->
  holds_outcome getc countries current_year
                (collect_from getc countries current_year st vars) var.
Proof.
  revert st. induction vars as [|v vars IH]; intros st H; [exact H|].
  simpl. apply IH. unfold holds_outcome in *.
  destruct (collect_step_data st v) as (-> & -> & ->).
  destruct (String.eqb_spec var v) as [->|Hne].
  - rewrite !dict_get_set_eq. auto.
  - rewrite !dict_get_set_ne by exact Hne. exact H.
Qed.

Lemma collect_from_stores (var : string) (vars : list string) (st : collected) :
  In var vars ->
  holds_outcome getc countries current_year
                (collect_from getc countries current_year st vars) var.
Proof.
  revert st. induction vars as [|v vars IH]; intros st Hin; [destruct Hin|].
  simpl. destruct (in_dec string_dec var vars) as [Hrest|Hrest].
  - now apply IH.
  - destruct Hin as [->|Hin]; [|contradiction].
    apply collect_from_keeps. unfold holds_outcome.
    destruct (collect_step_data st var) as (-> & -> & ->).
    rewrite !dict_get_set_eq. auto.
Qed.

Lemma collect_all_invariant :
  loop_invariant getc countries current_year (keys var_dict)
                 (collect_all getc countries current_year).
Proof.
  apply collect_from_invariant; [auto|].
  split; [|split]; intros k v [].
Qed.
End Loop.

(** ** Column labels of the merged table *)

Lemma str_in_In (x : string) (l : list string) : str_in x l = true <-> In x l.
Proof.
  unfold str_in. rewrite existsb_exists. split.
  - intros (y & Hy & E). apply String.eqb_eq in E. now subst.
  - intros H. exists x. split; [exact H|apply String.eqb_refl].
Qed.

Lemma unique_from_In (x : string) (seen l : list string) :
  In x (unique_from seen l) <-> In x l /\ ~ In x seen.
Proof.
  revert seen. induction l as [|y l IH]; intros seen; simpl; [tauto|].
  destruct (str_in y seen) eqn:E.
  - apply str_in_In in E. rewrite IH. split.
    + intros [H1 H2]. auto.
    + intros [[->|H1] H2]; [contradiction|auto].
  - assert (Hy : ~ In y seen).
    { intros H. apply str_in_In in H. congruence. }
    simpl. rewrite IH. simpl. split.
    + intros [->|[H1 H2]]; [auto|]. split; [auto|]. intros H. apply H2. now right.
    + intros [[->|H1] H2]; [now left|].
      destruct (string_dec y x) as [->|Hne]; [now left|].
      right. split; [exact H1|]. intros [H|H]; [contradiction|contradiction].
Qed.

Lemma sorted_unique_In (x : string) (l : list string) :
  In x (sorted_unique l) <-> In x l.
Proof.
  unfold sorted_unique. rewrite <- !list_elem_of_In.
  rewrite merge_sort_Permutation. rewrite !list_elem_of_In.
  unfold unique. rewrite unique_from_In. simpl. tauto.
Qed.

Lemma py_str_2025 (current_year : Z) : py_str current_year = "2025" -> current_year = 2025.
Proof.
  unfold py_str. intros H.
  assert (Hi : NilZero.int_of_string (NilZero.string_of_int (Z.to_int current_year))
               = Some (Z.to_int current_year)).
  { apply NilZero.isi; destruct current_year; simpl; try discriminate;
      intros [= E]; exact (DecimalPos.Unsigned.to_uint_nonnil _ E). }
  rewrite H in Hi. apply DecimalZ.to_int_inj.
  change (Some (Z.to_int 2025) = Some (Z.to_int current_year)) in Hi.
  now injection Hi.
Qed.

Lemma column_tuple_period (current_year : Z) (col : string) (tup : string * string) :
  In tup (column_tuple current_year col) ->
  snd tup = py_str current_year \/ snd tup = "10yr_Median" \/ snd tup = "2019".
Proof.
  unfold column_tuple.
  destruct (endswith col ("_" ++ py_str current_year)).
  { intros [<-|[]]. now left. }
  destruct (endswith col "_10yr_Median").
  { intros [<-|[]]. right. now left. }
  destruct (endswith col "_2019").
  { intros [<-|[]]. right. now right. }
  intros [].
Qed.

Lemma set_multi_index_keys (current_year : Z) (t : Table string)
    (dff : Table (string * string)) (key : string * string) :
  set_multi_index current_year t = Ok dff ->
  In key (map fst (t_columns dff)) ->
  In key (columns_tuples current_year (map fst (t_columns t))).
Proof.
  unfold set_multi_index.
  destruct (length _ =? length _)%nat; [|discriminate].
  intros [= <-]. simpl. rewrite in_map_iff. intros ([k data] & <- & Hin).
  apply list_elem_of_In in Hin. rewrite merge_sort_Permutation in Hin.
  apply list_elem_of_In in Hin. eapply in_combine_l, Hin.
Qed.

(** A country record exists only when the merged table has a period
    labelled "2025"; its indicators are level-0 labels of the table. *)
Lemma get_country_df_inv (dff : Table (string * string)) (country_code : string)
    (round_digits : nat) (sort_order : list string) (t : Table string) :
  get_country_df dff country_code round_digits (Some sort_order) = Ok t ->
  In "2025" (level1 dff)
  /\ (forall ind, In ind (t_index t) -> In ind (level0 dff)).
Proof.
  unfold get_country_df, loc_row.
  destruct (str_index country_code (t_index dff)) as [i|];
    cbn [mbind result_bind]; [|discriminate].
  destruct (count_label country_code (t_index dff) =? 1)%nat;
    cbn [mbind result_bind]; [|discriminate].
  set (row := map (fun c => (fst c, nth i (snd c) NaN)) (t_columns dff)).
  unfold unstack. destruct (has_duplicates (map fst row));
    cbn [mbind result_bind]; [discriminate|].
  set (wide := round_table _ _).
  unfold getitem_table.
  destruct (forallb _ _) eqn:E; cbn [mbind result_bind]; [|discriminate].
  intros [= <-]. cbn [t_index t_columns reindex].
  assert (Hrow1 : map (fun kv => snd (fst kv)) row = level1 dff).
  { unfold row, level1. rewrite map_map. reflexivity. }
  assert (Hrow0 : map (fun kv => fst (fst kv)) row = level0 dff).
  { unfold row, level0. rewrite map_map. reflexivity. }
  assert (Hcols : map fst (t_columns wide)
                  = sorted_unique (map (fun kv => snd (fst kv)) row)).
  { unfold wide, round_table. cbn [t_columns]. rewrite !map_map. simpl.
    apply map_id. }
  split.
  - rewrite forallb_forall in E. specialize (E "2025" (or_introl eq_refl)).
    apply (proj1 (str_in_In _ _)) in E. rewrite Hcols in E.
    apply (proj1 (sorted_unique_In _ _)) in E. now rewrite Hrow1 in E.
  - intros ind Hin. rewrite <- Hrow0. apply sorted_unique_In.
    apply in_app_or in Hin as [Hin|Hin]; apply filter_In in Hin as [H1 H2].
    + now apply (proj1 (str_in_In _ _)) in H2.
    + exact H1.
Qed.

Lemma concat_columns_inv (frames : list (Table string)) (t : Table string) :
  concat_columns frames = Ok t -> t = concat_frames frames.
Proof.
  unfold concat_columns. destruct (forallb _ _); [|discriminate].
  now intros [= <-].
Qed.

Lemma concat_columns_labels (frames : list (Table string)) :
  map fst (t_columns (concat_frames frames))
  = flat_map (fun t => map fst (t_columns t)) frames.
Proof.
  unfold concat_frames. cbn [t_columns].
  generalize (union_indexes false (map t_index frames)) as idx. intros idx.
  induction frames as [|t frames IH]; [reflexivity|].
  simpl. rewrite map_app, IH, map_map. reflexivity.
Qed.

Lemma suffixed_labels (suffix : string) (d : dict Series) :
  map fst (t_columns (add_suffix suffix (rename_columns var_dict (frame_of_dict d))))
  = map (fun k => (display k ++ suffix)%string) (keys d).
Proof.
  unfold add_suffix, rename_columns, frame_of_dict, keys. cbn [t_columns].
  rewrite !map_map. reflexivity.
Qed.

Lemma build_dff_inv (current_year : Z) (st : collected)
    (dff : Table (string * string)) :
  build_dff current_year st = Ok dff ->
  set_multi_index current_year
    (concat_frames
       [add_suffix ("_" ++ py_str current_year)
          (rename_columns var_dict (frame_of_dict (clean (current_year_data st))));
        add_suffix "_10yr_Median"
          (rename_columns var_dict (frame_of_dict (clean (median_10yr_data st))));
        add_suffix "_2019"
          (rename_columns var_dict (frame_of_dict (clean (data_2019 st))))])
  = Ok dff.
Proof.
  unfold build_dff.
  destruct (DataFrame_of_dict (clean (current_year_data st))) as [t1|] eqn:E1;
    cbn [mbind fmap result_bind result_fmap]; [|discriminate].
  destruct (DataFrame_of_dict (clean (median_10yr_data st))) as [t2|] eqn:E2;
    cbn [mbind fmap result_bind result_fmap]; [|discriminate].
  destruct (DataFrame_of_dict (clean (data_2019 st))) as [t3|] eqn:E3;
    cbn [mbind fmap result_bind result_fmap]; [|discriminate].
  apply DataFrame_of_dict_inv in E1, E2, E3. subst t1 t2 t3.
  destruct (concat_columns _) as [t|] eqn:Ec;
    cbn [mbind result_bind]; [|discriminate].
  apply concat_columns_inv in Ec. now subst t.
Qed.

Lemma build_dff_labels (current_year : Z) (st : collected)
    (dff : Table (string * string)) (key : string * string) :
  build_dff current_year st = Ok dff ->
  In key (map fst (t_columns dff)) ->
  exists d suffix k,
    In (d, suffix) [(current_year_data st, ("_" ++ py_str current_year)%string);
                    (median_10yr_data st, "_10yr_Median");
                    (data_2019 st, "_2019")]
    /\ In k (keys (clean d))
    /\ In key (column_tuple current_year (display k ++ suffix)).
Proof.
  intros Hb Hkey. apply build_dff_inv in Hb.
  apply (set_multi_index_keys _ _ _ _ Hb) in Hkey.
  rewrite concat_columns_labels in Hkey. cbn [flat_map] in Hkey.
  rewrite !suffixed_labels, app_nil_r in Hkey.
  unfold columns_tuples in Hkey. apply in_flat_map in Hkey as (col & Hcol & Hkey).
  apply in_app_or in Hcol as [Hcol|Hcol];
    [|apply in_app_or in Hcol as [Hcol|Hcol]];
    apply in_map_iff in Hcol as (k & <- & Hk);
    eexists _, _, k; (split; [|split; [exact Hk|exact Hkey]]); simpl; auto.
Qed.

Lemma build_dff_level1 (current_year : Z) (st : collected)
    (dff : Table (string * string)) (p : string) :
  build_dff current_year st = Ok dff ->
  In p (level1 dff) ->
  p = py_str current_year \/ p = "10yr_Median" \/ p = "2019".
Proof.
  unfold level1. intros Hb Hp. apply build_dff_inv in Hb.
  apply in_map_iff in Hp as (c & <- & Hc).
  apply (in_map fst) in Hc.
  apply (set_multi_index_keys _ _ _ _ Hb) in Hc.
  unfold columns_tuples in Hc. apply in_flat_map in Hc as (col & _ & Hc).
  eapply column_tuple_period, Hc.
Qed.

Lemma column_tuple_2025 :
  Forall (fun k =>
            column_tuple 2025 (display k ++ "_2025") = [(display k, "2025")]
            /\ column_tuple 2025 (display k ++ "_10yr_Median")
               = [(display k, "10yr_Median")]
            /\ column_tuple 2025 (display k ++ "_2019") = [(display k, "2019")])
         (keys var_dict).
Proof. apply (bool_decide_unpack _). vm_compute. exact I. Qed.

(** In a 2025 run the level-0 labels are the display names of the variables
    kept by [clean]. *)
Lemma build_dff_level0_2025 (st : collected) (dff : Table (string * string))
    (ind : string) :
  (forall d, In d [current_year_data st; median_10yr_data st; data_2019 st] ->
             forall k, In k (keys (clean d)) -> In k (keys var_dict)) ->
  build_dff 2025 st = Ok dff ->
  In ind (level0 dff) ->
  exists d k,
    In d [current_year_data st; median_10yr_data st; data_2019 st]
    /\ In k (keys (clean d)) /\ ind = display k.
Proof.
  intros Hkeys Hb Hind. unfold level0 in Hind.
  apply in_map_iff in Hind as (c & <- & Hc). apply (in_map fst) in Hc.
  destruct (build_dff_labels _ _ _ _ Hb Hc) as (d & suffix & k & Hd & Hk & Htup).
  pose proof column_tuple_2025 as Hcomp. rewrite List.Forall_forall in Hcomp.
  exists d, k.
  assert (Hd' : In d [current_year_data st; median_10yr_data st; data_2019 st]).
  { destruct Hd as [[= <- _]|[[= <- _]|[[= <- _]|[]]]]; simpl; auto. }
  split; [exact Hd'|]. split; [exact Hk|].
  destruct (Hcomp k (Hkeys d Hd' k Hk)) as (H1 & H2 & H3).
  change ("_" ++ py_str 2025)%string with "_2025" in Hd.
  destruct Hd as [[= _ <-]|[[= _ <-]|[[= _ <-]|[]]]];
    [rewrite H1 in Htup|rewrite H2 in Htup|rewrite H3 in Htup];
    destruct Htup as [<-|[]]; reflexivity.
Qed.

(** ** Country records and the data block *)

Lemma country_dfs_fold_In (dff : Table (string * string)) (codes : list string)
    (acc : dict (Table string)) (code : string) (t : Table string) :
  In (code, t)
     (fold_left
        (fun acc country_code =>
           match get_country_df dff country_code 1 (Some logical_order) with
           | Ok t => dict_set country_code t acc
           | Err _ => acc
           end) codes acc) ->
  In (code, t) acc \/ get_country_df dff code 1 (Some logical_order) = Ok t.
Proof.
  revert acc. induction codes as [|c codes IH]; intros acc H; [now left|].
  simpl in H. apply IH in H as [H|H]; [|now right].
  destruct (get_country_df dff c 1 (Some logical_order)) as [t'|] eqn:E;
    [|now left].
  apply dict_set_In in H as [[-> ->]|H]; [now right|now left].
Qed.

Lemma country_dfs_In (dff : Table (string * string)) (code : string) (t : Table string) :
  In (code, t) (country_dfs dff) ->
  get_country_df dff code 1 (Some logical_order) = Ok t.
Proof.
  intros H. apply country_dfs_fold_In in H as [[]|H]. exact H.
Qed.

Lemma country_record_fold_In (df : Table string) (inds : list string)
    (acc : dict (dict (option Q))) (ind : string) (r : dict (option Q)) :
  In (ind, r)
     (fold_left (fun acc indicator =>
                   dict_set indicator (indicator_record df indicator) acc)
                inds acc) ->
  In (ind, r) acc \/ (In ind inds /\ r = indicator_record df ind).
Proof.
  revert acc. induction inds as [|i inds IH]; intros acc H; [now left|].
  simpl in H. apply IH in H as [H|[H1 H2]].
  - apply dict_set_In in H as [[-> ->]|H]; [right; split; [now left|reflexivity]|now left].
  - right. split; [now right|exact H2].
Qed.

Lemma country_record_In (df : Table string) (ind : string) (r : dict (option Q)) :
  In (ind, r) (country_record df) ->
  In ind (t_index df) /\ r = indicator_record df ind.
Proof.
  intros H. apply country_record_fold_In in H as [[]|H]. exact H.
Qed.

Lemma country_metrics_json_fold_In (dfs : dict (Table string))
    (acc : dict (dict (dict (option Q)))) (code : string)
    (rec : dict (dict (option Q))) :
  In (code, rec)
     (fold_left (fun acc kv => dict_set (fst kv) (country_record (snd kv)) acc)
                dfs acc) ->
  In (code, rec) acc \/ exists t, In (code, t) dfs /\ rec = country_record t.
Proof.
  revert acc. induction dfs as [|[c t] dfs IH]; intros acc H; [now left|].
  simpl in H. apply IH in H as [H|(t' & H1 & H2)].
  - apply dict_set_In in H as [[-> ->]|H]; [|now left].
    right. exists t. split; [now left|reflexivity].
  - right. exists t'. split; [now right|exact H2].
Qed.

Lemma country_metrics_json_In (dfs : dict (Table string)) (code : string)
    (rec : dict (dict (option Q))) :
  In (code, rec) (country_metrics_json dfs) ->
  exists t, In (code, t) dfs /\ rec = country_record t.
Proof.
  intros H. apply country_metrics_json_fold_In in H as [[]|H]. exact H.
Qed.

(** Every record of the data block comes from a country projection that
    succeeded. *)
Lemma run_record (getc : string -> result DataFrame) (countries : list string)
    (current_year : Z) (js : dict (dict (dict (option Q)))) (code : string)
    (rec : dict (dict (option Q))) :
  run getc countries current_year = Ok js ->
  In (code, rec) js ->
  exists dff t,
    build_dff current_year (collect_all getc countries current_year) = Ok dff
    /\ get_country_df dff code 1 (Some logical_order) = Ok t
    /\ rec = country_record t.
Proof.
  unfold run.
  destruct (build_dff current_year (collect_all getc countries current_year))
    as [dff|] eqn:Eb; cbn [mbind result_bind]; [|discriminate].
  intros [= <-] Hin. apply country_metrics_json_In in Hin as (t & Ht & ->).
  exists dff, t. split; [reflexivity|]. split; [|reflexivity].
  now apply country_dfs_In.
Qed.

(** A record exists only in a 2025 run. *)
Lemma run_record_2025 (getc : string -> result DataFrame) (countries : list string)
    (current_year : Z) (js : dict (dict (dict (option Q)))) (code : string)
    (rec : dict (dict (option Q))) :
  run getc countries current_year = Ok js ->
  In (code, rec) js ->
  current_year = 2025.
Proof.
  intros Hrun Hin.
  destruct (run_record _ _ _ _ _ _ Hrun Hin) as (dff & t & Hb & Hg & _).
  apply get_country_df_inv in Hg as [H2025 _].
  destruct (build_dff_level1 _ _ _ _ Hb H2025) as [H|[H|H]];
    [|discriminate H|discriminate H].
  apply py_str_2025. now symmetry.
Qed.

(** ** The column labels of the merged table are always accepted *)

Lemma append_nil_l (b : string) : ("" ++ b)%string = b.
Proof. reflexivity. Qed.

Lemma append_cons (c : ascii) (a b : string) :
  (String c a ++ b)%string = String c (a ++ b).
Proof. reflexivity. Qed.

Lemma substring_0_all (b : string) : substring 0 (String.length b) b = b.
Proof. induction b as [|c b IH]; simpl; [reflexivity|]. now rewrite IH. Qed.

Lemma substring_app (a b : string) :
  substring (String.length a) (String.length b) (a ++ b) = b.
Proof.
  induction a as [|c a IH].
  - rewrite append_nil_l. apply substring_0_all.
  - rewrite append_cons. simpl. exact IH.
Qed.

Lemma string_length_app (a b : string) :
  String.length (a ++ b) = (String.length a + String.length b)%nat.
Proof.
  induction a as [|c a IH]; [reflexivity|].
  rewrite append_cons. simpl. now rewrite IH.
Qed.

Lemma endswith_app (a b : string) : endswith (a ++ b) b = true.
Proof.
  unfold endswith. rewrite string_length_app.
  replace (String.length a + String.length b - String.length b)%nat
    with (String.length a) by lia.
  rewrite substring_app, String.eqb_refl.
  apply andb_true_intro. split; [apply Nat.leb_le; lia|reflexivity].
Qed.

Lemma column_tuple_one (current_year : Z) (name suffix : string) :
  In suffix [("_" ++ py_str current_year)%string; "_10yr_Median"; "_2019"] ->
  exists tup, column_tuple current_year (name ++ suffix) = [tup].
Proof.
  intros Hs. unfold column_tuple.
  destruct (endswith (name ++ suffix) ("_" ++ py_str current_year)) eqn:E1; [eauto|].
  destruct Hs as [<-|[<-|[<-|[]]]].
  - rewrite endswith_app in E1. discriminate E1.
  - rewrite endswith_app. eauto.
  - destruct (endswith (name ++ "_2019") "_10yr_Median"); [eauto|].
    rewrite endswith_app. eauto.
Qed.

Lemma columns_tuples_length (current_year : Z) (cols : list string) :
  (forall col, In col cols -> exists tup, column_tuple current_year col = [tup]) ->
  length (columns_tuples current_year cols) = length cols.
Proof.
  unfold columns_tuples. induction cols as [|c cols IH]; intros H; [reflexivity|].
  simpl. destruct (H c (or_introl eq_refl)) as [tup ->]. simpl.
  f_equal. apply IH. intros col Hcol. apply H. now right.
Qed.

(** Assigning the tuples as column labels always succeeds: every column of
    the concatenated table carries one of the three suffixes. *)
Lemma set_multi_index_ok (current_year : Z) (st : collected) :
  exists dff,
    set_multi_index current_year
      (concat_frames
         [add_suffix ("_" ++ py_str current_year)
            (rename_columns var_dict (frame_of_dict (clean (current_year_data st))));
          add_suffix "_10yr_Median"
            (rename_columns var_dict (frame_of_dict (clean (median_10yr_data st))));
          add_suffix "_2019"
            (rename_columns var_dict (frame_of_dict (clean (data_2019 st))))])
    = Ok dff.
Proof.
  unfold set_multi_index.
  rewrite columns_tuples_length.
  - rewrite length_map, Nat.eqb_refl. eauto.
  - intros col Hcol. rewrite concat_columns_labels in Hcol.
    cbn [flat_map] in Hcol. rewrite !suffixed_labels, app_nil_r in Hcol.
    apply in_app_or in Hcol as [Hcol|Hcol];
      [|apply in_app_or in Hcol as [Hcol|Hcol]];
      apply in_map_iff in Hcol as (k & <- & _);
      apply column_tuple_one; simpl; auto.
Qed.

(** ** The script reaches the data block when labels are distinct

    pandas refuses to align data with repeated labels.  When the holdings
    names are distinct (they come from [unique()]) and every frame of the
    dataset has one column per country, no such label is ever built and the
    script runs through to the data block. *)

Section UniqueLabels.
Variable table : gmap string string.
Hypothesis table_inj :
  forall n1 n2 code, table !! n1 = Some code -> table !! n2 = Some code -> n1 = n2.

Lemma omap_lookup_NoDup (names : list string) :
  NoDup names -> NoDup (omap (fun name => table !! name) names).
Proof.
  induction 1 as [|n names Hn Hnd IH]; [constructor|].
  simpl. destruct (table !! n) as [code|] eqn:E; [|exact IH].
  constructor; [|exact IH].
  intros Hin. apply list_elem_of_omap in Hin as (n' & Hn' & E').
  assert (n' = n) by (eapply table_inj; eassumption). subst n'. contradiction.
Qed.
End UniqueLabels.

Lemma country_mapping_inj (n1 n2 code : string) :
  country_mapping !! n1 = Some code -> country_mapping !! n2 = Some code -> n1 = n2.
Proof.
  intros H1 H2.
  apply elem_of_list_to_map_2, list_elem_of_In in H1.
  apply elem_of_list_to_map_2, list_elem_of_In in H2.
  exact (NoDup_snd_inj _ _ _ _ country_codes_NoDup H1 H2).
Qed.

Lemma embi_countries_NoDup (countries : list string) :
  NoDup countries -> NoDup (embi_countries countries).
Proof.
  intros H. rewrite embi_countries_omap.
  apply omap_lookup_NoDup; [apply country_mapping_inj|exact H].
Qed.

Lemma filter_label_absent (label : string) (cols : list (string * list cell)) :
  ~ In label (map fst cols) ->
  List.filter (fun c => String.eqb (fst c) label) cols = [].
Proof.
  induction cols as [|[c col] cols IH]; [reflexivity|]. simpl. intros H.
  destruct (String.eqb_spec c label) as [->|Hne]; [tauto|]. apply IH. tauto.
Qed.

Lemma filter_label_unique (label : string) (cols : list (string * list cell)) :
  NoDup (map fst cols) ->
  In label (map fst cols) ->
  map fst (List.filter (fun c => String.eqb (fst c) label) cols) = [label].
Proof.
  induction cols as [|[c col] cols IH]; simpl; [tauto|]. intros Hnd Hin.
  apply NoDup_cons in Hnd as [Hc Hnd]. rewrite list_elem_of_In in Hc.
  destruct (String.eqb_spec c label) as [->|Hne].
  - simpl. now rewrite filter_label_absent.
  - destruct Hin as [Hin|Hin]; [contradiction|]. now apply IH.
Qed.

Lemma getitem_columns_labels (full : DataFrame) (labels : list string)
    (sd : DataFrame) :
  NoDup (map fst (df_columns full)) ->
  getitem_columns full labels = Ok sd ->
  map fst (df_columns sd) = labels.
Proof.
  unfold getitem_columns. intros Hnd.
  destruct (forallb (has_column full) labels) eqn:E; [|discriminate].
  intros [= <-]. cbn [df_columns]. rewrite forallb_forall in E.
  induction labels as [|label labels IH]; [reflexivity|].
  cbn [flat_map]. rewrite map_app, IH by (intros x Hx; apply E; now right).
  rewrite filter_label_unique; [reflexivity|exact Hnd|].
  specialize (E label (or_introl eq_refl)). unfold has_column in E.
  apply existsb_exists in E as (c & Hc & He). apply String.eqb_eq in He.
  subst label. now apply in_map.
Qed.

Lemma sort_values_labels (s : Series) :
  Permutation (map fst (sort_values s)) (map fst s).
Proof. apply Permutation_map, sort_values_Permutation. Qed.

(** With distinct labels each view holds every resolved code once. *)
Lemma collect_var_labels (getc : string -> result DataFrame)
    (countries : list string) (current_year : Z) (var : string)
    (cur med y19 : Series) :
  (forall full, getc var = Ok full -> NoDup (map fst (df_columns full))) ->
  collect_var getc countries current_year var = Ok (cur, med, y19) ->
  Permutation (map fst cur) (embi_countries countries)
  /\ Permutation (map fst med) (embi_countries countries)
  /\ Permutation (map fst y19) (embi_countries countries).
Proof.
  intros Hnd H.
  apply collect_var_inv in H
    as (full & sd & used & w & Hfull & Hsel & Hcur & Hwin & -> & ->).
  apply (getitem_columns_labels _ _ _ (Hnd full Hfull)) in Hsel.
  apply get_year_data_inv in Hcur as (pos & _ & ->).
  apply loc_period_slice_inv in Hwin as (start & stop & _ & _ & ->).
  split; [|split].
  - rewrite sort_values_labels, row_at_codes. now rewrite Hsel.
  - rewrite sort_values_labels, median_codes. cbn [df_columns].
    rewrite map_map, <- Hsel. reflexivity.
  - unfold values_2019_of.
    destruct (get_year_data sd 2019) as [[v u]|e] eqn:E19.
    + apply get_year_data_inv in E19 as (p & _ & ->).
      rewrite sort_values_labels, row_at_codes. now rewrite Hsel.
    + rewrite sort_values_nan_series, nan_series_codes. reflexivity.
Qed.

Lemma unique_from_NoDup (seen l : list string) : NoDup (unique_from seen l).
Proof.
  revert seen. induction l as [|x l IH]; intros seen; simpl; [constructor|].
  destruct (str_in x seen); [apply IH|].
  constructor; [|apply IH].
  rewrite list_elem_of_In, unique_from_In. simpl. tauto.
Qed.

Lemma union_indexes_NoDup (sort : bool) (indexes : list (list string)) :
  Forall (fun i => NoDup i) indexes -> NoDup (union_indexes sort indexes).
Proof.
  intros H. destruct H as [|i0 rest H0 Hrest]; [constructor|].
  unfold union_indexes. destruct (forallb (list_eqb i0) rest); [exact H0|].
  destruct sort.
  - unfold sorted_unique. rewrite merge_sort_Permutation. apply unique_from_NoDup.
  - apply unique_from_NoDup.
Qed.

Lemma DataFrame_of_dict_ok (d : dict Series) :
  Forall (fun kv => NoDup (map fst (snd kv))) d ->
  DataFrame_of_dict d = Ok (frame_of_dict d)
  /\ NoDup (t_index (frame_of_dict d)).
Proof.
  intros H. split.
  - unfold DataFrame_of_dict.
    replace (forallb _ d) with true; [reflexivity|].
    symmetry. apply forallb_forall. intros kv Hkv.
    rewrite List.Forall_forall in H. specialize (H kv Hkv).
    unfold can_reindex. rewrite (bool_decide_eq_true_2 _ H). apply orb_true_r.
  - unfold frame_of_dict. cbn [t_index]. apply union_indexes_NoDup.
    apply List.Forall_forall. intros i Hi.
    apply in_map_iff in Hi as (kv & <- & Hkv).
    rewrite List.Forall_forall in H. exact (H kv Hkv).
Qed.

Lemma concat_columns_ok (frames : list (Table string)) :
  Forall (fun t => NoDup (t_index t)) frames ->
  concat_columns frames = Ok (concat_frames frames).
Proof.
  intros H. unfold concat_columns.
  replace (forallb _ frames) with true; [reflexivity|].
  symmetry. apply forallb_forall. intros t Ht.
  rewrite List.Forall_forall in H. specialize (H t Ht).
  unfold can_reindex. rewrite (bool_decide_eq_true_2 _ H). apply orb_true_r.
Qed.

(** The merged table is built whenever the series that [clean] keeps have
    distinct labels. *)
Lemma build_dff_ok_unique (current_year : Z) (st : collected) :
  (forall d,
      In d [current_year_data st; median_10yr_data st; data_2019 st] ->
      Forall (fun kv => NoDup (map fst (snd kv))) (clean d)) ->
  exists dff, build_dff current_year st = Ok dff.
Proof.
  intros Hd.
  destruct (DataFrame_of_dict_ok (clean (current_year_data st))) as [E1 N1];
    [apply Hd; left; reflexivity|].
  destruct (DataFrame_of_dict_ok (clean (median_10yr_data st))) as [E2 N2];
    [apply Hd; right; left; reflexivity|].
  destruct (DataFrame_of_dict_ok (clean (data_2019 st))) as [E3 N3];
    [apply Hd; right; right; left; reflexivity|].
  destruct (set_multi_index_ok current_year st) as [dff Hdff].
  exists dff. unfold build_dff. rewrite E1, E2, E3.
  cbn [mbind fmap result_bind result_fmap].
  rewrite concat_columns_ok.
  - cbn [mbind result_bind]. exact Hdff.
  - apply List.Forall_cons; [exact N1|].
    apply List.Forall_cons; [exact N2|].
    apply List.Forall_cons; [exact N3|apply List.Forall_nil].
Qed.

Lemma run_ok_unique_labels (getc : string -> result DataFrame)
    (countries : list string) (current_year : Z) :
  NoDup countries ->
  (forall var full, getc var = Ok full -> NoDup (map fst (df_columns full))) ->
  exists js, run getc countries current_year = Ok js.
Proof.
  intros Hc Hg.
  pose proof (embi_countries_NoDup _ Hc) as He.
  destruct (collect_all_invariant getc countries current_year) as (H1 & H2 & H3).
  unfold run.
  generalize dependent (collect_all getc countries current_year).
  intros st H1 H2 H3.
  assert (Hviews : forall k cur med y19,
             collect_var getc countries current_year k = Ok (cur, med, y19) ->
             NoDup (map fst cur) /\ NoDup (map fst med) /\ NoDup (map fst y19)).
  { intros k cur med y19 Hk.
    destruct (collect_var_labels _ _ _ _ _ _ _ (Hg k) Hk) as (P1 & P2 & P3).
    rewrite P1, P2, P3. auto. }
  assert (Hd : forall d,
             In d [current_year_data st; median_10yr_data st; data_2019 st] ->
             Forall (fun kv => NoDup (map fst (snd kv))) (clean d)).
  { intros d Hin. apply List.Forall_forall. intros [k v] Hkv.
    apply clean_In in Hkv. cbn [snd].
    destruct Hin as [<-|[<-|[<-|[]]]];
      [apply H1 in Hkv as [_ Hs]; unfold stored_current in Hs
      |apply H2 in Hkv as [_ Hs]; unfold stored_median in Hs
      |apply H3 in Hkv as [_ Hs]; unfold stored_2019 in Hs];
      destruct (collect_var getc countries current_year k) as [[[c m] y]|] eqn:Ek;
      try discriminate Hs; injection Hs as ->;
      destruct (Hviews _ _ _ _ Ek) as (N1 & N2 & N3); assumption. }
  destruct (build_dff_ok_unique current_year st Hd) as [dff Hdff].
  exists (country_metrics_json (country_dfs dff)).
  rewrite Hdff. reflexivity.
Qed.

(** ** Failed indicators *)

Lemma clean_keys_In {V : Type} (d : dict (option V)) (k : string) :
  In k (keys (clean d)) <-> exists v, In (k, Some v) d.
Proof.
  unfold keys. rewrite in_map_iff. split.
  - intros ([k' v] & <- & Hin). exists v. now apply clean_In.
  - intros [v Hin]. exists (k, v). split; [reflexivity|now apply clean_In].
Qed.

Section Failed.
Variable getc : string -> result DataFrame.
Variable countries : list string.
Variable current_year : Z.

Let st : collected := collect_all getc countries current_year.

Lemma clean_keys_stored (d : dict (option Series)) (k : string) :
  In d [current_year_data st; median_10yr_data st; data_2019 st] ->
  In k (keys (clean d)) ->
  In k (keys var_dict)
  /\ exists views, collect_var getc countries current_year k = Ok views.
Proof.
  intros Hd Hk. apply clean_keys_In in Hk as [v Hv].
  destruct (collect_all_invariant getc countries current_year) as (H1 & H2 & H3).
  fold st in H1, H2, H3.
  destruct Hd as [<-|[<-|[<-|[]]]];
    [apply H1 in Hv as [Hin Hs]; unfold stored_current in Hs
    |apply H2 in Hv as [Hin Hs]; unfold stored_median in Hs
    |apply H3 in Hv as [Hin Hs]; unfold stored_2019 in Hs];
    (split; [exact Hin|]);
    destruct (collect_var getc countries current_year k) as [views|];
    try discriminate Hs; eauto.
Qed.

Lemma failed_not_in_frames (var : string) (e : exn) (d : dict (option Series)) :
  In var (keys var_dict) ->
  collect_var getc countries current_year var = Err e ->
  In d [current_year_data st; median_10yr_data st; data_2019 st] ->
  ~ In (display var)
       (map fst (t_columns (rename_columns var_dict (frame_of_dict (clean d))))).
Proof.
  intros Hvar Herr Hd Hin. rewrite frame_columns in Hin.
  apply in_map_iff in Hin as (k & Hdisp & Hk).
  destruct (clean_keys_stored d k Hd Hk) as [Hkv [views Hok]].
  apply (display_injective _ _ Hkv Hvar) in Hdisp. subst k.
  rewrite Herr in Hok. discriminate Hok.
Qed.

Lemma failed_not_in_records (var : string) (e : exn)
    (js : dict (dict (dict (option Q)))) (code : string)
    (rec : dict (dict (option Q))) :
  In var (keys var_dict) ->
  collect_var getc countries current_year var = Err e ->
  run getc countries current_year = Ok js ->
  In (code, rec) js ->
  ~ In (display var) (keys rec).
Proof.
  intros Hvar Herr Hrun Hrec Hin.
  pose proof (run_record_2025 _ _ _ _ _ _ Hrun Hrec) as Hy.
  destruct (run_record _ _ _ _ _ _ Hrun Hrec) as (dff & t & Hb & Hg & ->).
  fold st in Hb.
  apply in_map_iff in Hin as ([ind r] & Hind & Hin). simpl in Hind. subst ind.
  apply country_record_In in Hin as [Hin _].
  apply get_country_df_inv in Hg as [_ Hsub]. apply Hsub in Hin.
  rewrite Hy in Hb.
  apply (build_dff_level0_2025 st dff) in Hin as (d & k & Hd & Hk & Hdisp);
    [|intros d Hd k Hk; now apply (clean_keys_stored d k Hd)|exact Hb].
  destruct (clean_keys_stored d k Hd Hk) as [Hkv [views Hok]].
  symmetry in Hdisp. apply (display_injective _ _ Hkv Hvar) in Hdisp. subst k.
  rewrite Herr in Hok. discriminate Hok.
Qed.

Lemma collected_views (var : string) (cur med y19 : Series) :
  In var (keys var_dict) ->
  collect_var getc countries current_year var = Ok (cur, med, y19) ->
  In (var, cur) (clean (current_year_data st))
  /\ In (var, med) (clean (median_10yr_data st))
  /\ In (var, y19) (clean (data_2019 st)).
Proof.
  intros Hvar Hok.
  destruct (collect_from_stores getc countries current_year var (keys var_dict)
              (mkCollected [] [] []) Hvar) as (H1 & H2 & H3).
  unfold stored_current, stored_median, stored_2019 in H1, H2, H3.
  rewrite Hok in H1, H2, H3.
  split; [|split]; apply clean_In, dict_get_In; assumption.
Qed.
End Failed.

(** C8: a variable whose collection raises does not stop the loop: the
    [except] branch stores [None] for it in all three dictionaries; it is no
    column of any of the three dataframes and no indicator in any country
    record of the data block; and every variable that is collected keeps its
    three views. *)
Theorem C8_failed_indicator_dropped (getc : string -> result DataFrame)
    (countries : list string) (current_year : Z) (var : string) (e : exn) :
  In var (keys var_dict) ->
  collect_var getc countries current_year var = Err e ->
  let st := collect_all getc countries current_year in
  (dict_get var (current_year_data st) = Some None
   /\ dict_get var (median_10yr_data st) = Some None
   /\ dict_get var (data_2019 st) = Some None)
  /\ (forall d df,
        In d [current_year_data st; median_10yr_data st; data_2019 st] ->
        rename_columns var_dict <$> DataFrame_of_dict (clean d) = Ok df ->
        ~ In (display var) (map fst (t_columns df)))
  /\ (forall js code rec,
        run getc countries current_year = Ok js ->
        In (code, rec) js -> ~ In (display var) (keys rec))
  /\ (forall var' cur med y19,
        In var' (keys var_dict) ->
        collect_var getc countries current_year var' = Ok (cur, med, y19) ->
        In (var', cur) (clean (current_year_data st))
        /\ In (var', med) (clean (median_10yr_data st))
        /\ In (var', y19) (clean (data_2019 st))).
Proof.
  intros Hvar Herr st. split; [|split; [|split]].
  - destruct (collect_from_stores getc countries current_year var (keys var_dict)
                (mkCollected [] [] []) Hvar) as (H1 & H2 & H3).
    unfold stored_current, stored_median, stored_2019 in H1, H2, H3.
    rewrite Herr in H1, H2, H3. auto.
  - intros d df Hd Hdf.
    destruct (DataFrame_of_dict (clean d)) as [t|] eqn:Et; [|discriminate Hdf].
    apply DataFrame_of_dict_inv in Et. subst t. injection Hdf as <-.
    eapply failed_not_in_frames; eassumption.
  - intros js code rec Hjs Hrec.
    eapply failed_not_in_records; eassumption.
  - intros var' cur med y19. apply collected_views.
Qed.

Lemma C8_failed_indicator_dropped_witness :
  dict_get "NGDP_RPCH" (current_year_data (collect_all demo_getc demo_countries 2025))
  = Some None
  /\ dict_get "NGDP_RPCH" (median_10yr_data (collect_all demo_getc demo_countries 2025))
     = Some None
  /\ dict_get "NGDP_RPCH" (data_2019 (collect_all demo_getc demo_countries 2025))
     = Some None.
Proof.
  refine (proj1 (C8_failed_indicator_dropped demo_getc demo_countries 2025
                   "NGDP_RPCH" ValueError _ _)).
  - simpl. right. right. left. reflexivity.
  - vm_compute. reflexivity.
Defined.

(** C1 (what the code does): the period keys of every record of the data
    block are the literals "2025", "2019" and "10yr_Median", whatever the
    current year is; and in a run whose current year is not 2025 every
    country projection raises, so the data block holds no record at all. *)
Theorem C1_literal_2025_key (getc : string -> result DataFrame)
    (countries : list string) (current_year : Z)
    (js : dict (dict (dict (option Q)))) :
  run getc countries current_year = Ok js ->
  (forall code rec ind r,
      In (code, rec) js -> In (ind, r) rec ->
      keys r = ["2025"; "2019"; "10yr_Median"])
  /\ (current_year <> 2025 -> js = []).
Proof.
  intros Hjs. split.
  - intros code rec ind r Hrec Hind.
    destruct (run_record _ _ _ _ _ _ Hjs Hrec) as (dff & t & _ & _ & ->).
    apply country_record_In in Hind as [_ ->]. reflexivity.
  - intros Hne. destruct js as [|[code rec] js']; [reflexivity|].
    exfalso. apply Hne.
    eapply run_record_2025; [exact Hjs|now left].
Qed.

Lemma C1_literal_2025_key_witness :
  run demo_getc demo_countries 2026 = Ok []
  /\ (2026 <> 2025 -> ([] : dict (dict (dict (option Q)))) = []).
Proof.
  assert (Hrun : run demo_getc demo_countries 2026 = Ok []).
  { vm_compute. reflexivity. }
  split; [exact Hrun|].
  exact (proj2 (C1_literal_2025_key demo_getc demo_countries 2026 [] Hrun)).
Defined.

(** The same input in a 2025 run and in a 2026 run: records keyed "2025"
    in the first (0.75 and 8.875 rounded to the floats 0.8 and 8.9), no record
    in the second. *)
Example run_2025 :
  run demo_getc demo_countries 2025
  = Ok [("BRA",
         [("GDP (US Dollars)",
           [("2025", Some (fl (8 # 10))); ("2019", Some (25 # 2));
            ("10yr_Median", Some (fl (89 # 10)))]);
          ("Population",
           [("2025", Some (fl (8 # 10))); ("2019", Some (25 # 2));
            ("10yr_Median", Some (fl (89 # 10)))])]);
        ("ARG",
         [("GDP (US Dollars)",
           [("2025", Some (inject_Z 11)); ("2019", Some (inject_Z 5));
            ("10yr_Median", Some (13 # 2))]);
          ("Population",
           [("2025", Some (inject_Z 11)); ("2019", Some (inject_Z 5));
            ("10yr_Median", Some (13 # 2))])])].
Proof. vm_compute. reflexivity. Qed.

Example run_2026 : run demo_getc demo_countries 2026 = Ok [].
Proof. vm_compute. reflexivity. Qed.

(** ** The 10-year median *)

Lemma monotonic_tail (y : Z) (ys : list Z) :
  is_monotonic_increasing (y :: ys) = true ->
  is_monotonic_increasing ys = true /\ Forall (fun z => y <= z) ys.
Proof.
  revert y. induction ys as [|z ys IH]; intros y H; [split; [reflexivity|constructor]|].
  change (((y <=? z) && is_monotonic_increasing (z :: ys)) = true) in H.
  apply andb_true_iff in H as [Hyz Hm]. apply Z.leb_le in Hyz.
  split; [exact Hm|]. constructor; [exact Hyz|].
  destruct (IH z Hm) as [_ Hall].
  eapply List.Forall_impl; [|exact Hall]. simpl. intros w Hw. lia.
Qed.

Lemma searchsorted_left_0 (ys : list Z) (bound v : Z) :
  v <= bound -> Forall (fun z => bound <= z) ys -> searchsorted Left ys v = O.
Proof.
  intros Hv [|z zs Hz _]; [reflexivity|]. simpl.
  destruct (z <? v) eqn:E; [|reflexivity]. apply Z.ltb_lt in E. lia.
Qed.

Lemma searchsorted_right_0 (ys : list Z) (bound v : Z) :
  v < bound -> Forall (fun z => bound <= z) ys -> searchsorted Right ys v = O.
Proof.
  intros Hv [|z zs Hz _]; [reflexivity|]. simpl.
  destruct (z <=? v) eqn:E; [|reflexivity]. apply Z.leb_le in E. lia.
Qed.

Lemma positions_from_none (i : nat) (label bound : Z) (ys : list Z) :
  label < bound -> Forall (fun z => bound <= z) ys ->
  positions_from i label (map Period ys) = [].
Proof.
  intros Hl H. revert i. induction H as [|z zs Hz _ IH]; intros i; [reflexivity|].
  simpl. destruct (z =? label) eqn:E; [apply Z.eqb_eq in E; lia|]. apply IH.
Qed.

(** On an ascending [PeriodIndex] the positions of a label are the block
    between the two binary-search bounds. *)
Lemma positions_from_sorted (i : nat) (label : Z) (years : list Z) :
  is_monotonic_increasing years = true ->
  positions_from i label (map Period years)
  = seq (i + searchsorted Left years label)
        (searchsorted Right years label - searchsorted Left years label)
  /\ (searchsorted Left years label <= searchsorted Right years label)%nat.
Proof.
  revert i. induction years as [|y ys IH]; intros i Hm; [split; reflexivity|].
  apply monotonic_tail in Hm as [Hm Hall].
  destruct (IH (S i) Hm) as [IHp IHle].
  cbn [map positions_from is_period searchsorted].
  destruct (Z.compare_spec y label) as [Heq|Hlt|Hgt].
  - subst y. rewrite Z.eqb_refl, Z.ltb_irrefl, Z.leb_refl.
    rewrite IHp. rewrite (searchsorted_left_0 ys label label) by (lia || exact Hall).
    rewrite !Nat.add_0_r, !Nat.sub_0_r. split; [reflexivity|lia].
  - assert (E1 : (y =? label) = false) by (apply Z.eqb_neq; lia).
    assert (E2 : (y <? label) = true) by (apply Z.ltb_lt; lia).
    assert (E3 : (y <=? label) = true) by (apply Z.leb_le; lia).
    rewrite E1, E2, E3, IHp. split; [|lia].
    f_equal; lia.
  - assert (E1 : (y =? label) = false) by (apply Z.eqb_neq; lia).
    assert (E2 : (y <? label) = false) by (apply Z.ltb_ge; lia).
    assert (E3 : (y <=? label) = false) by (apply Z.leb_gt; lia).
    rewrite E1, E2, E3. split; [|lia].
    apply (positions_from_none _ _ y); [lia|exact Hall].
Qed.

Lemma period_years_map (years : list Z) : period_years (map Period years) = Some years.
Proof. induction years as [|y ys IH]; simpl; [reflexivity|]. now rewrite IH. Qed.

Lemma last_seq (a n : nat) : List.last (seq (S a) n) a = (a + n)%nat.
Proof.
  destruct n as [|n]; [simpl; lia|].
  rewrite seq_S, List.last_last. lia.
Qed.

(** On an ascending [PeriodIndex] both slice bounds are the binary-search
    positions, whether or not the label occurs. *)
Lemma get_slice_bound_sorted (years : list Z) (label : Z) (sd : side) :
  is_monotonic_increasing years = true ->
  get_slice_bound (map Period years) label sd = Ok (searchsorted sd years label).
Proof.
  intros Hm. unfold get_slice_bound.
  destruct (positions_from_sorted O label years Hm) as [-> Hle].
  set (a := searchsorted Left years label) in *.
  set (b := searchsorted Right years label) in *.
  destruct (b - a)%nat as [|n] eqn:En; simpl seq.
  - rewrite period_years_map. unfold searchsorted_monotonic. rewrite Hm.
    destruct sd; reflexivity.
  - cbv iota beta. rewrite last_seq. cbn [length]. rewrite length_seq.
    replace (a + n - a + 1 =? S n)%nat with true
      by (symmetry; apply Nat.eqb_eq; lia).
    destruct sd; [reflexivity|].
    change (Ok (S (a + n)) = Ok b). f_equal. lia.
Qed.

Lemma window_none (lo hi bound : Z) (ys : list Z) (col : list cell) :
  hi < bound -> Forall (fun z => bound <= z) ys ->
  window_observations ys col lo hi = [].
Proof.
  intros Hh H. revert col. unfold window_observations.
  induction H as [|z zs Hz _ IH]; intros col; [reflexivity|].
  destruct col as [|c cs]; [reflexivity|]. simpl. unfold in_window at 1. simpl.
  replace (z <=? hi) with false by (symmetry; apply Z.leb_gt; lia).
  rewrite andb_false_r. apply IH.
Qed.

(** The positional slice between the two bounds holds exactly the cells of
    the years inside the window. *)
Lemma slice_window (years : list Z) (col : list cell) (lo hi : Z) :
  lo <= hi ->
  is_monotonic_increasing years = true ->
  slice (searchsorted Left years lo) (searchsorted Right years hi) col
  = window_observations years col lo hi.
Proof.
  intros Hlh. revert col. induction years as [|y ys IH]; intros col Hm.
  { unfold slice. reflexivity. }
  apply monotonic_tail in Hm as [Hm Hall].
  destruct col as [|c cs].
  { unfold slice, window_observations. rewrite skipn_nil, firstn_nil. reflexivity. }
  specialize (IH cs Hm).
  cbn [searchsorted]. unfold window_observations. cbn [combine List.filter].
  unfold in_window at 1. cbn [fst].
  destruct (Z.lt_ge_cases y lo) as [Hlo|Hlo].
  - replace (y <? lo) with true by (symmetry; apply Z.ltb_lt; lia).
    replace (y <=? hi) with true by (symmetry; apply Z.leb_le; lia).
    replace (lo <=? y) with false by (symmetry; apply Z.leb_gt; lia).
    cbn [andb]. exact IH.
  - replace (y <? lo) with false by (symmetry; apply Z.ltb_ge; lia).
    replace (lo <=? y) with true by (symmetry; apply Z.leb_le; lia).
    cbn [andb].
    rewrite (searchsorted_left_0 ys y lo) in IH by (lia || exact Hall).
    destruct (Z.le_gt_cases y hi) as [Hhi|Hhi].
    + replace (y <=? hi) with true by (symmetry; apply Z.leb_le; lia).
      cbn [map snd]. fold (window_observations ys cs lo hi). rewrite <- IH.
      unfold slice. rewrite !Nat.sub_0_r. reflexivity.
    + replace (y <=? hi) with false by (symmetry; apply Z.leb_gt; lia).
      fold (window_observations ys cs lo hi).
      rewrite (window_none lo hi y) by (lia || exact Hall).
      reflexivity.
Qed.

Lemma median_of_no_numbers (l : list cell) : numbers l = [] -> median_of l = NaN.
Proof. unfold median_of. intros ->. reflexivity. Qed.

(** X18: on a series whose time index is an ascending annual [PeriodIndex] the
    10-year-median step succeeds and agrees with the specification's wording:
    per country, the median of the observations of the years in
    [target_year - 9, target_year]; no number in the window gives NaN. *)
Lemma median_10yr_on_period_index (series_data : DataFrame) (years : list Z)
    (target_year : Z) :
  df_index series_data = map Period years ->
  is_monotonic_increasing years = true ->
  exists window,
    loc_period_slice series_data (target_year - 9) target_year = Ok window
    /\ median window = spec_median_10yr years (df_columns series_data) target_year
    /\ forall c col,
         In (c, col) (df_columns series_data) ->
         numbers (window_observations years col (target_year - 9) target_year) = [] ->
         In (c, NaN) (sort_values (median window)).
Proof.
  intros Hidx Hm. unfold loc_period_slice. rewrite Hidx.
  rewrite !get_slice_bound_sorted by exact Hm. cbn [mbind result_bind].
  eexists. split; [reflexivity|].
  assert (Hmed : median
                   {| df_index := slice (searchsorted Left years (target_year - 9))
                                        (searchsorted Right years target_year)
                                        (map Period years);
                      df_columns :=
                        map (fun c => (fst c,
                                       slice (searchsorted Left years (target_year - 9))
                                             (searchsorted Right years target_year)
                                             (snd c)))
                            (df_columns series_data) |}
                 = spec_median_10yr years (df_columns series_data) target_year).
  { unfold median, spec_median_10yr. cbn [df_columns]. rewrite map_map.
    apply map_ext. intros [c col]. cbn [fst snd].
    rewrite slice_window by (lia || exact Hm). reflexivity. }
  split; [exact Hmed|].
  intros c col Hin Hnone. apply sort_values_In. rewrite Hmed.
  unfold spec_median_10yr. apply in_map_iff. exists (c, col).
  split; [|exact Hin]. cbn [fst snd]. now rewrite median_of_no_numbers.
Qed.

Lemma positions_from_int_index (i : nat) (label : Z) (years : list Z) :
  positions_from i label (map IntLabel years) = [].
Proof. revert i. induction years as [|y ys IH]; intros i; [reflexivity|apply IH]. Qed.

Lemma entries_monotonic_int (years : list Z) :
  entries_monotonic true (map IntLabel years) = is_monotonic_increasing years
  /\ entries_monotonic false (map IntLabel years) = is_monotonic_decreasing years.
Proof.
  induction years as [|x [|y ys] IH]; [split; reflexivity..|].
  destruct IH as [IH1 IH2].
  change (map IntLabel (x :: y :: ys))
    with (IntLabel x :: IntLabel y :: map IntLabel ys).
  change (IntLabel y :: map IntLabel ys) with (map IntLabel (y :: ys)) in *.
  split.
  - change (entries_monotonic true (IntLabel x :: map IntLabel (y :: ys)))
      with (match entry_leb (IntLabel x) (IntLabel y) with
            | Some true => entries_monotonic true (map IntLabel (y :: ys))
            | _ => false
            end).
    rewrite IH1. cbn [entry_leb].
    change (is_monotonic_increasing (x :: y :: ys))
      with ((x <=? y) && is_monotonic_increasing (y :: ys)).
    now destruct (x <=? y).
  - change (entries_monotonic false (IntLabel x :: map IntLabel (y :: ys)))
      with (match entry_leb (IntLabel y) (IntLabel x) with
            | Some true => entries_monotonic false (map IntLabel (y :: ys))
            | _ => false
            end).
    rewrite IH2. cbn [entry_leb].
    change (is_monotonic_decreasing (x :: y :: ys))
      with ((y <=? x) && is_monotonic_decreasing (y :: ys)).
    now destruct (y <=? x).
Qed.

(** On an index of plain integer years no label equals a [Period] bound.
    The search for the bound needs a monotonic index, and on a monotonic one
    it compares an integer with a [Period]. *)
Lemma get_slice_bound_int_index (years : list Z) (label : Z) (sd : side) :
  years <> [] ->
  get_slice_bound (map IntLabel years) label sd
  = Err (if is_monotonic_increasing years || is_monotonic_decreasing years
         then TypeError
         else KeyError).
Proof.
  intros Hne. unfold get_slice_bound. rewrite positions_from_int_index.
  destruct (entries_monotonic_int years) as [-> ->].
  destruct years as [|y ys]; [contradiction|]. cbn [map period_years].
  now destruct (is_monotonic_increasing (y :: ys) || is_monotonic_decreasing (y :: ys)).
Qed.

(** On a series whose time index holds plain integer years the label slice
    with [Period] bounds raises, and so does the collection of the
    variable. *)
Lemma integer_index_not_collected (getc : string -> result DataFrame)
    (countries : list string) (current_year : Z) (var : string)
    (full : DataFrame) (years : list Z) :
  getc var = Ok full ->
  df_index full = map IntLabel years ->
  years <> [] ->
  (forall series_data,
      getitem_columns full (embi_countries countries) = Ok series_data ->
      loc_period_slice series_data (current_year - 9) current_year
      = Err (if is_monotonic_increasing years || is_monotonic_decreasing years
             then TypeError
             else KeyError))
  /\ (exists e, collect_var getc countries current_year var = Err e).
Proof.
  intros Hget Hidx Hne.
  assert (Hslice : forall series_data,
             getitem_columns full (embi_countries countries) = Ok series_data ->
             loc_period_slice series_data (current_year - 9) current_year
             = Err (if is_monotonic_increasing years || is_monotonic_decreasing years
             then TypeError
             else KeyError)).
  { intros sd Hsel. apply getitem_columns_inv in Hsel as (Hi & _ & _).
    unfold loc_period_slice. rewrite Hi, Hidx.
    rewrite (get_slice_bound_int_index years (current_year - 9) Left Hne).
    reflexivity. }
  assert (Herr : exists e, collect_var getc countries current_year var = Err e).
  { unfold collect_var. rewrite Hget. cbn [mbind result_bind].
    destruct (getitem_columns full (embi_countries countries)) as [sd|e] eqn:Es;
      cbn [mbind result_bind]; [|eauto].
    destruct (get_year_data sd current_year) as [[cv used]|e];
      cbn [mbind result_bind]; [|eauto].
    rewrite (Hslice sd eq_refl). cbn [mbind result_bind]. eauto. }
  split; [exact Hslice|exact Herr].
Qed.

Lemma CustomWEO_getc_index (to_numeric : string -> cell) (df : RawTable)
    (country_col variable_code : string) (full : DataFrame) :
  CustomWEO_getc to_numeric df country_col variable_code = Ok full ->
  exists years, df_index full = map IntLabel years.
Proof.
  unfold CustomWEO_getc.
  destruct (negb (str_in "WEO Subject Code" (raw_columns df))); [discriminate|].
  destruct (List.filter _ (raw_rows df)) as [|row rows]; [discriminate|].
  destruct (negb (str_in country_col (raw_columns df))); [discriminate|].
  destruct (astype_int _) as [years|e]; cbn [mbind result_bind]; [|discriminate].
  intros [= <-]. cbn [df_index]. now exists years.
Qed.

(** X19: with the fallback wrapper [CustomWEO] as the dataset, no variable
    is collected, whatever the file holds: [getc] raises, or it returns a frame
    indexed by plain integers on which the year lookup or the [Period] slice
    raises, so the [except] branch runs for every variable. *)
Lemma CustomWEO_never_collects (to_numeric : string -> cell) (df : RawTable)
    (country_col : string) (countries : list string) (current_year : Z)
    (var : string) :
  exists e,
    collect_var (CustomWEO_getc to_numeric df country_col) countries current_year var
    = Err e.
Proof.
  destruct (CustomWEO_getc to_numeric df country_col var) as [full|e] eqn:Eg.
  - destruct (CustomWEO_getc_index _ _ _ _ _ Eg) as [years Hidx].
    destruct years as [|y ys].
    + unfold collect_var. rewrite Eg. cbn [mbind result_bind].
      destruct (getitem_columns full (embi_countries countries)) as [sd|e] eqn:Es;
        cbn [mbind result_bind]; [|eauto].
      apply getitem_columns_inv in Es as (Hi & _ & _).
      destruct (get_year_data sd current_year) as [[cv used]|e] eqn:Ey;
        cbn [mbind result_bind]; [|eauto].
      apply get_year_data_inv in Ey as (pos & Hpos & _).
      rewrite Hi, Hidx in Hpos. simpl in Hpos. lia.
    + apply (integer_index_not_collected _ countries current_year var full
               (y :: ys) Eg Hidx). discriminate.
  - exists e. unfold collect_var. now rewrite Eg.
Qed.

(** C5 (where the code departs from it): on a series whose time index holds
    plain integer years, as the script's own [CustomWEO.getc] builds it, the
    label slice with [Period] bounds raises ([TypeError] when the years are
    in ascending or in descending order, [KeyError] when they are in no
    order), so the median view is not computed: the variable is handled by
    the [except] branch, which stores [None] for its median. *)
Theorem C5_median_raises_on_integer_index (getc : string -> result DataFrame)
    (countries : list string) (current_year : Z) (var : string)
    (full : DataFrame) (years : list Z) :
  getc var = Ok full ->
  df_index full = map IntLabel years ->
  years <> [] ->
  (forall series_data,
      getitem_columns full (embi_countries countries) = Ok series_data ->
      loc_period_slice series_data (current_year - 9) current_year
      = Err (if is_monotonic_increasing years || is_monotonic_decreasing years
             then TypeError
             else KeyError))
  /\ (exists e, collect_var getc countries current_year var = Err e)
  /\ dict_get var (median_10yr_data
                     (collect_from getc countries current_year
                                   (mkCollected [] [] []) [var]))
     = Some None.
Proof.
  intros Hget Hidx Hne.
  destruct (integer_index_not_collected getc countries current_year var full
              years Hget Hidx Hne) as [Hslice Herr].
  split; [exact Hslice|]. split; [exact Herr|].
  destruct Herr as [e He]. unfold collect_from. cbn [fold_left].
  unfold collect_step. rewrite He. cbn [median_10yr_data dict_set dict_get].
  now rewrite String.eqb_refl.
Qed.

Lemma C5_median_raises_on_integer_index_witness :
  (forall series_data,
      getitem_columns demo_custom_frame (embi_countries demo_countries)
      = Ok series_data ->
      loc_period_slice series_data (2025 - 9) 2025 = Err TypeError)
  /\ (exists e, collect_var custom_getc demo_countries 2025 "NGDPD" = Err e)
  /\ dict_get "NGDPD"
              (median_10yr_data
                 (collect_from custom_getc demo_countries 2025
                               (mkCollected [] [] []) ["NGDPD"]))
     = Some None.
Proof.
  apply (C5_median_raises_on_integer_index custom_getc demo_countries 2025
           "NGDPD" demo_custom_frame [2024; 2025; 2026]).
  - vm_compute. reflexivity.
  - reflexivity.
  - discriminate.
Defined.

(** The same frame with its year columns in no order: the slice raises
    [KeyError]. *)
Example unsorted_integer_index :
  loc_period_slice
    {| df_index := map IntLabel [2025; 2024; 2026];
       df_columns := [("ARG", map (fun z => Num (inject_Z z)) [11; 10; 12])] |}
    2016 2025
  = Err KeyError.
Proof. vm_compute. reflexivity. Qed.

(** The year resolution accepts the integer index; the median step is the
    one that raises, and the data block of the run is empty. *)
Example custom_getc_run :
  (full ← custom_getc "NGDPD"; get_year_data full 2025)
  = Ok ([("USA", Num (inject_Z 0)); ("ARG", Num (inject_Z 11)); ("BRA", NaN)],
        YInt 2025)
  /\ (full ← custom_getc "NGDPD"; loc_period_slice full 2016 2025) = Err TypeError
  /\ collect_var custom_getc demo_countries 2025 "NGDPD" = Err TypeError
  /\ run custom_getc demo_countries 2025 = Ok [].
Proof. vm_compute. repeat split. Qed.

(** The same data under an ascending [PeriodIndex]: the window 2016-2025
    holds ten observations per country. *)
Example demo_weo_median :
  (w ← loc_period_slice demo_weo 2016 2025; Ok (median w))
  = Ok [("ARG", Num (13 # 2)); ("BRA", Num (71 # 8)); ("USA", Num (inject_Z 0))].
Proof. vm_compute. reflexivity. Qed.

(** * Further properties of the script *)

(** ** Year resolution: fallback, failure and ties *)

Lemma get_year_data_no_year (series_data : DataFrame) (target_year : Z) :
  (forall y, ~ In (YInt y) (index_years series_data)) ->
  get_year_data series_data target_year
  = (row ← iloc_last series_data; Ok (sort_values row, last_available)).
Proof.
  intros Hno. unfold get_year_data. fold (index_years series_data).
  destruct (py_in (YInt target_year) (index_years series_data)) eqn:E.
  { apply py_in_In in E. now apply Hno in E. }
  destruct (numeric_years_of (index_years series_data)) as [|y rest] eqn:En;
    [reflexivity|].
  exfalso. apply (Hno y). apply numeric_years_In. rewrite En. now left.
Qed.

(** X1: when no label of a non-empty time index stands for an integer
    year, [get_year_data] falls back to the last row of the series: it returns
    the cells of the last position, one per column, in ascending order of
    value, and reports the string "last_available" instead of a year. *)
Theorem fallback_last_available (series_data : DataFrame) (target_year : Z) :
  ascii_labels (df_index series_data) ->
  df_index series_data <> [] ->
  (forall label y,
      In label (df_index series_data) -> ~ spec_label_year label y) ->
  exists values,
    get_year_data series_data target_year = Ok (values, YStr "last_available")
    /\ Permutation values
         (map (fun c => (fst c,
                         nth (length (df_index series_data) - 1) (snd c) NaN))
              (df_columns series_data))
    /\ Sorted value_le values.
Proof.
  intros _ Hne Hno.
  assert (Hno' : forall y, ~ In (YInt y) (index_years series_data)).
  { intros y H. apply index_years_In_label in H as (label & Hin & Hy).
    exact (Hno label y Hin Hy). }
  rewrite get_year_data_no_year by exact Hno'.
  unfold iloc_last. destruct (df_index series_data) as [|e idx]; [contradiction|].
  replace (length (e :: idx) - 1)%nat with (length idx) by (simpl; lia).
  cbn [length mbind result_bind].
  exists (sort_values (row_at series_data (length idx))).
  split; [reflexivity|]. split; [apply sort_values_row|apply sort_values_Sorted].
Qed.

Lemma fallback_last_available_witness :
  exists values,
    get_year_data frame_no_years 2025 = Ok (values, YStr "last_available")
    /\ Permutation values
         (map (fun c => (fst c,
                         nth (length (df_index frame_no_years) - 1) (snd c) NaN))
              (df_columns frame_no_years))
    /\ Sorted value_le values.
Proof.
  apply fallback_last_available.
  - intros s H. simpl in H.
    repeat (destruct H as [[= <-]|H];
            [apply (bool_decide_unpack _); vm_compute; exact I|]).
    destruct H.
  - discriminate.
  - intros label y H. vm_compute in H.
    repeat (destruct H as [<-|H]; [vm_compute; discriminate|]). destruct H.
Defined.

Example fallback_last_row :
  get_year_data frame_no_years 2025
  = Ok ([("BRA", Num (3#1)); ("ARG", Num (4#1))], YStr "last_available").
Proof. vm_compute. reflexivity. Qed.

(** X2: year resolution raises exactly when the time index is empty, and
    then it is the [IndexError] of [iloc[-1]]. *)
Theorem get_year_data_raises_iff_empty (series_data : DataFrame) (target_year : Z) :
  (df_index series_data = [] ->
   get_year_data series_data target_year = Err IndexError)
  /\ (forall e, get_year_data series_data target_year = Err e ->
                df_index series_data = [] /\ e = IndexError).
Proof.
  split.
  - intros Hnil. unfold get_year_data, iloc_last. rewrite Hnil. reflexivity.
  - intros e He. destruct (df_index series_data) as [|x idx] eqn:Ei.
    + split; [reflexivity|].
      unfold get_year_data, iloc_last in He. rewrite Ei in He.
      now injection He as <-.
    + assert (Hne : df_index series_data <> []) by (rewrite Ei; discriminate).
      destruct (get_year_data_total _ target_year Hne) as (pos & used & _ & Hok).
      rewrite Hok in He. discriminate He.
Qed.

Lemma get_year_data_raises_iff_empty_witness :
  get_year_data {| df_index := []; df_columns := [("ARG", [])] |} 2025
  = Err IndexError.
Proof.
  apply (get_year_data_raises_iff_empty
           {| df_index := []; df_columns := [("ARG", [])] |} 2025).
  reflexivity.
Defined.

(** The minimum search returns the first element with the least key:
    everything before it has a strictly larger key. *)
Lemma py_min_by_first (key : Z -> Z) (best : Z) (l : list Z) :
  exists l1 l2,
    best :: l = l1 ++ py_min_by key best l :: l2
    /\ forall x, In x l1 -> key (py_min_by key best l) < key x.
Proof.
  revert best. induction l as [|x l IH]; intros best.
  - exists [], []. split; [reflexivity|]. intros x [].
  - cbn [py_min_by].
    destruct (IH (if key x <? key best then x else best)) as (l1 & l2 & Hsplit & Hlt).
    set (m := py_min_by key (if key x <? key best then x else best) l) in *.
    destruct (key x <? key best) eqn:E;
      [apply Z.ltb_lt in E|apply Z.ltb_ge in E].
    + destruct l1 as [|b l1].
      * injection Hsplit as Hm Hl. exists [best], l2. split.
        -- simpl. now rewrite <- Hm, Hl.
        -- intros y [<-|[]]. rewrite <- Hm. exact E.
      * injection Hsplit as Hb Hl. subst b.
        exists (best :: x :: l1), l2. split.
        -- simpl. now rewrite Hl.
        -- pose proof (Hlt x (or_introl eq_refl)) as Hx.
           intros y [<-|Hy]; [lia|]. now apply Hlt.
    + destruct l1 as [|b l1].
      * injection Hsplit as Hm Hl. exists [], (x :: l). split.
        -- simpl. now rewrite <- Hm.
        -- intros y [].
      * injection Hsplit as Hb Hl. subst b.
        exists (best :: x :: l1), l2. split.
        -- simpl. now rewrite Hl.
        -- pose proof (Hlt best (or_introl eq_refl)) as Hb.
           intros y [<-|[<-|Hy]]; [exact Hb|lia|].
           apply Hlt. now right.
Qed.

Lemma first_split_unique {A : Type} (y : A) (a b l1 l2 : list A) :
  ~ In y a -> ~ In y l1 -> a ++ y :: b = l1 ++ y :: l2 -> a = l1.
Proof.
  revert l1. induction a as [|x a IH]; intros [|z l1] Ha Hl H; simpl in *.
  - reflexivity.
  - injection H as -> _. tauto.
  - injection H as -> _. tauto.
  - injection H as -> H. f_equal. apply (IH l1); tauto.
Qed.

(** Among the integer years that are equally close to a missing target
    year, the one that stands first in the normalized index is used. *)
Lemma closest_year_first_index (series_data : DataFrame) (target_year : Z) :
  ~ In (YInt target_year) (index_years series_data) ->
  (exists y0, In (YInt y0) (index_years series_data)) ->
  exists closest_year year_pos,
    get_year_data series_data target_year
    = Ok (sort_values (row_at series_data year_pos), YInt closest_year)
    /\ index_years series_data !! year_pos = Some (YInt closest_year)
    /\ forall j y,
         (j < year_pos)%nat ->
         index_years series_data !! j = Some (YInt y) ->
         Z.abs (closest_year - target_year) < Z.abs (y - target_year).
Proof.
  intros Hnot [y0 Hy0].
  unfold get_year_data. fold (index_years series_data).
  destruct (py_in (YInt target_year) (index_years series_data)) eqn:E.
  { apply py_in_In in E. contradiction. }
  apply numeric_years_In in Hy0.
  destruct (numeric_years_of (index_years series_data)) as [|y1 rest] eqn:En;
    [destruct Hy0|].
  set (key := fun x => Z.abs (x - target_year)).
  destruct (py_min_by_first key y1 rest) as (l1 & l2 & Hsplit & Hlt).
  destruct (py_min_by_spec key y1 rest) as [Hin _].
  set (closest := py_min_by key y1 rest) in *.
  rewrite <- En in Hin, Hsplit. apply numeric_years_In in Hin.
  destruct (py_index_Some _ _ Hin) as [pos Hpos].
  exists closest, pos. rewrite Hpos.
  rewrite iloc_row
    by (rewrite <- index_years_length; eapply py_index_lt, Hpos).
  split; [reflexivity|].
  apply py_index_first in Hpos as [Hat Hbefore]. split; [exact Hat|].
  intros j y Hj Hjy.
  apply Hlt.
  pose proof (take_drop_middle _ _ _ Hat) as Hmid.
  assert (Hsplit' : numeric_years_of (take pos (index_years series_data))
                    ++ closest :: numeric_years_of (drop (S pos) (index_years series_data))
                    = l1 ++ closest :: l2).
  { rewrite <- Hsplit. rewrite <- Hmid at 3.
    unfold numeric_years_of. rewrite flat_map_app. reflexivity. }
  apply first_split_unique in Hsplit'.
  - rewrite <- Hsplit'. apply numeric_years_In.
    apply list_elem_of_In, list_elem_of_lookup. exists j.
    rewrite lookup_take_lt by exact Hj. exact Hjy.
  - intros Hc. apply numeric_years_In, list_elem_of_In, list_elem_of_lookup in Hc
      as [i Hi].
    pose proof (lookup_lt_Some _ _ _ Hi) as Hlen. rewrite length_take in Hlen.
    rewrite lookup_take_lt in Hi by lia. apply (Hbefore i); [lia|exact Hi].
  - intros Hc. apply Hlt in Hc. lia.
Qed.

(** X3: among the years of the index that are equally close to a missing
    target year, the one that stands first in the index is used: the values
    returned are those stored at a label of the closest year, and every label
    at an earlier position that stands for an integer year is strictly
    farther from the target. *)
Theorem closest_year_first_on_ties (series_data : DataFrame) (target_year : Z) :
  ascii_labels (df_index series_data) ->
  (forall label,
      In label (df_index series_data) -> ~ spec_label_year label target_year) ->
  (exists label y0,
      In label (df_index series_data) /\ spec_label_year label y0) ->
  exists closest_year year_pos label values,
    get_year_data series_data target_year = Ok (values, YInt closest_year)
    /\ Permutation values
         (map (fun c => (fst c, nth year_pos (snd c) NaN))
              (df_columns series_data))
    /\ df_index series_data !! year_pos = Some label
    /\ spec_label_year label closest_year
    /\ forall j label' y,
         (j < year_pos)%nat ->
         df_index series_data !! j = Some label' ->
         spec_label_year label' y ->
         Z.abs (closest_year - target_year) < Z.abs (y - target_year).
Proof.
  intros _ Hnot (label0 & y0 & Hin0 & Hy0).
  assert (Hnot' : ~ In (YInt target_year) (index_years series_data)).
  { intros H. apply index_years_In_label in H as (label & Hin & Hy).
    exact (Hnot label Hin Hy). }
  assert (Hex : exists y0, In (YInt y0) (index_years series_data)).
  { exists y0. apply index_years_In_label. eauto. }
  destruct (closest_year_first_index _ _ Hnot' Hex) as (y & pos & Hget & Hat & Hties).
  apply index_years_lookup_label in Hat as (label & Hlabel & Hyear).
  exists y, pos, label, (sort_values (row_at series_data pos)).
  split; [exact Hget|]. split; [apply sort_values_row|].
  split; [exact Hlabel|]. split; [exact Hyear|].
  intros j label' y' Hj Hjl Hjy. apply (Hties j y' Hj).
  apply index_years_lookup_label. eauto.
Qed.

Lemma closest_year_first_on_ties_witness :
  exists closest_year year_pos label values,
    get_year_data frame_tie 2020 = Ok (values, YInt closest_year)
    /\ Permutation values
         (map (fun c => (fst c, nth year_pos (snd c) NaN)) (df_columns frame_tie))
    /\ df_index frame_tie !! year_pos = Some label
    /\ spec_label_year label closest_year
    /\ forall j label' y,
         (j < year_pos)%nat ->
         df_index frame_tie !! j = Some label' ->
         spec_label_year label' y ->
         Z.abs (closest_year - 2020) < Z.abs (y - 2020).
Proof.
  apply (closest_year_first_on_ties frame_tie 2020).
  - intros s H. vm_compute in H.
    repeat (destruct H as [H|H]; [discriminate H|]). destruct H.
  - intros label H. vm_compute in H.
    repeat (destruct H as [<-|H]; [simpl; lia|]). destruct H.
  - exists (Period 2017), 2017. split; [simpl; auto|reflexivity].
Defined.

(** 2021 stands before 2019 in the index and wins the tie. *)
Example tie_2020_uses_2021 :
  get_year_data frame_tie 2020 = Ok ([("ARG", Num (4#1))], YInt 2021).
Proof. vm_compute. reflexivity. Qed.

(** ** Reading years from text *)

Lemma ascii_digit_facts (c : ascii) :
  match digit_of_ascii c with
  | Some d =>
      is_py_space c = false /\ 0 <= d <= 9
      /\ c <> "-"%char /\ c <> "+"%char /\ c <> "_"%char
  | None => True
  end.
Proof.
  destruct c as [b0 b1 b2 b3 b4 b5 b6 b7].
  destruct b0, b1, b2, b3, b4, b5, b6, b7; vm_compute;
    try exact I; repeat split; discriminate.
Qed.

Lemma lstrip_no_space (cs : list ascii) :
  Forall (fun c => is_py_space c = false) cs -> lstrip cs = cs.
Proof. intros [|c cs' Hc _]; [reflexivity|]. simpl. now rewrite Hc. Qed.

Lemma strip_no_space (cs : list ascii) :
  Forall (fun c => is_py_space c = false) cs -> strip cs = cs.
Proof.
  intros H. unfold strip. rewrite (lstrip_no_space cs H).
  rewrite lstrip_no_space by (apply Forall_rev; exact H).
  apply rev_involutive.
Qed.

Lemma digits_no_space (cs : list ascii) :
  Forall is_digit cs -> Forall (fun c => is_py_space c = false) cs.
Proof.
  apply List.Forall_impl. intros c [d Hd].
  pose proof (ascii_digit_facts c) as H. rewrite Hd in H. tauto.
Qed.

(** A non-empty run of digits always parses, to a number that is not
    negative. *)
Lemma py_digits_all_digits (cs : list ascii) (acc : Z) (prev_digit : bool) :
  Forall is_digit cs ->
  cs <> [] \/ prev_digit = true ->
  0 <= acc ->
  exists z, py_digits acc prev_digit cs = Some z /\ 0 <= z.
Proof.
  intros H. revert acc prev_digit.
  induction H as [|c cs [d Hd] _ IH]; intros acc b Hne Hacc.
  - destruct Hne as [Hne| ->]; [contradiction|]. exists acc. auto.
  - simpl. rewrite Hd.
    pose proof (ascii_digit_facts c) as Hc. rewrite Hd in Hc.
    apply IH; [now right|lia].
Qed.

Lemma count_digits_le (cs : list ascii) : (count_digits cs <= length cs)%nat.
Proof. unfold count_digits. apply List.filter_length_le. Qed.

Lemma count_digits_all (cs : list ascii) :
  Forall is_digit cs -> count_digits cs = length cs.
Proof.
  unfold count_digits. induction 1 as [|c cs Hc _ IH]; [reflexivity|].
  simpl. rewrite (bool_decide_eq_true_2 _ Hc). simpl. now rewrite IH.
Qed.

Lemma string_length_list (s : string) :
  length (list_ascii_of_string s) = String.length s.
Proof. induction s as [|c s IH]; simpl; congruence. Qed.

Lemma py_int_unsigned (s : string) (c : ascii) (cs : list ascii) :
  strip (list_ascii_of_string s) = c :: cs ->
  c <> "-"%char -> c <> "+"%char ->
  (count_digits (c :: cs) <= max_str_digits)%nat ->
  py_int s = py_digits 0 false (c :: cs).
Proof.
  unfold py_int. intros -> Hm Hp Hlim.
  rewrite (proj2 (Nat.ltb_ge _ _) Hlim).
  destruct c as [b0 b1 b2 b3 b4 b5 b6 b7].
  destruct b0, b1, b2, b3, b4, b5, b6, b7; try reflexivity; congruence.
Qed.

Lemma py_int_over_limit (s : string) :
  (max_str_digits < count_digits (strip (list_ascii_of_string s)))%nat ->
  py_int s = None.
Proof. unfold py_int. intros H. now rewrite (proj2 (Nat.ltb_lt _ _) H). Qed.

Lemma isdigit_chars (s : string) :
  isdigit s = true ->
  list_ascii_of_string s <> [] /\ Forall is_digit (list_ascii_of_string s).
Proof.
  unfold isdigit. destruct (list_ascii_of_string s) as [|c cs]; [discriminate|].
  intros H. split; [discriminate|].
  apply List.Forall_forall. intros x Hx. rewrite forallb_forall in H.
  apply (bool_decide_eq_true_1 _ (H x Hx)).
Qed.

(** The value of a run of digits read after [acc]. *)
Lemma py_digits_bound (cs : list ascii) (acc z : Z) (prev_digit : bool) :
  Forall is_digit cs ->
  0 <= acc ->
  py_digits acc prev_digit cs = Some z ->
  acc * 10 ^ Z.of_nat (length cs) <= z < (acc + 1) * 10 ^ Z.of_nat (length cs).
Proof.
  intros H. revert acc prev_digit.
  induction H as [|c cs [d Hd] _ IH]; intros acc b Hacc Hz.
  - simpl in *. destruct b; [|discriminate]. injection Hz as <-. lia.
  - simpl py_digits in Hz. rewrite Hd in Hz.
    pose proof (ascii_digit_facts c) as Hc. rewrite Hd in Hc.
    destruct Hc as (_ & Hd09 & _).
    apply IH in Hz; [|lia].
    change (length (c :: cs)) with (S (length cs)).
    rewrite Nat2Z.inj_succ, Z.pow_succ_r by lia.
    assert (Hp : 0 < 10 ^ Z.of_nat (length cs)) by (apply Z.pow_pos_nonneg; lia).
    nia.
Qed.

(** An all-digit text within the digit limit reads as a number that is not
    negative; beyond the limit [int] refuses it. *)
Lemma isdigit_py_int_cases (s : string) :
  isdigit s = true ->
  if (max_str_digits <? String.length s)%nat then py_int s = None
  else exists z, py_int s = Some z
                 /\ 0 <= z < 10 ^ Z.of_nat (String.length s).
Proof.
  intros H. apply isdigit_chars in H as [Hne Hall].
  pose proof (strip_no_space _ (digits_no_space _ Hall)) as Hstrip.
  pose proof (count_digits_all _ Hall) as Hcount.
  rewrite string_length_list in Hcount.
  destruct (max_str_digits <? String.length s)%nat eqn:El.
  - apply Nat.ltb_lt in El. apply py_int_over_limit. rewrite Hstrip, Hcount.
    exact El.
  - apply Nat.ltb_ge in El.
    destruct (list_ascii_of_string s) as [|c cs] eqn:E; [contradiction|].
    assert (Hc : is_digit c) by (now inversion Hall).
    destruct Hc as [d Hd]. pose proof (ascii_digit_facts c) as Hf.
    rewrite Hd in Hf. destruct Hf as (_ & _ & Hm & Hp & _).
    rewrite (py_int_unsigned s c cs)
      by (rewrite ?E, ?Hcount; assumption).
    destruct (py_digits_all_digits (c :: cs) 0 false Hall) as (z & Hz & Hpos);
      [left; discriminate|lia|].
    exists z. split; [exact Hz|].
    pose proof (py_digits_bound _ _ _ _ Hall (Z.le_refl 0) Hz) as Hb.
    rewrite <- string_length_list, E. lia.
Qed.

(** The conversion of an all-digit column name to int64. *)
Lemma int64_of_text_digits (s : string) :
  isdigit s = true ->
  match int64_of_text s with
  | Ok z => py_int s = Some z /\ 0 <= z < 2 ^ 63
  | Err e =>
      (e = OverflowError /\ exists z, py_int s = Some z /\ 2 ^ 63 <= z)
      \/ (e = ValueError /\ (max_str_digits < String.length s)%nat)
  end.
Proof.
  intros H. pose proof (isdigit_py_int_cases s H) as Hc. unfold int64_of_text.
  destruct (max_str_digits <? String.length s)%nat eqn:El.
  - rewrite Hc. right. split; [reflexivity|now apply Nat.ltb_lt].
  - destruct Hc as (z & -> & Hz0 & _).
    destruct (- 2 ^ 63 <=? z) eqn:E1; [|apply Z.leb_gt in E1; lia].
    destruct (z <? 2 ^ 63) eqn:E2; cbn [andb].
    + apply Z.ltb_lt in E2. split; [reflexivity|lia].
    + apply Z.ltb_ge in E2. left. split; [reflexivity|eauto].
Qed.

(** X4: an all-digit column name, which is what [CustomWEO.getc] keeps as a
    year column, converts to an int64 label exactly when its value is below
    2^63: the label is then the number the text denotes, never negative; a
    larger value raises [OverflowError], and a text of more than 4300 digits
    makes [int] raise [ValueError].  A name of at most 18 digits, as every
    year is, always converts. *)
Theorem isdigit_py_int (s : string) :
  isdigit s = true ->
  match int64_of_text s with
  | Ok z => py_int s = Some z /\ 0 <= z < 2 ^ 63
  | Err e =>
      (e = OverflowError /\ exists z, py_int s = Some z /\ 2 ^ 63 <= z)
      \/ (e = ValueError /\ (max_str_digits < String.length s)%nat)
  end
  /\ ((String.length s <= 18)%nat ->
      exists z, int64_of_text s = Ok z /\ py_int s = Some z /\ 0 <= z < 10 ^ 18).
Proof.
  intros H. split; [now apply int64_of_text_digits|].
  intros Hlen. pose proof (isdigit_py_int_cases s H) as Hc.
  assert (El : (max_str_digits <? String.length s)%nat = false).
  { apply Nat.ltb_ge. unfold max_str_digits. lia. }
  rewrite El in Hc. destruct Hc as (z & Hz & Hz0 & Hz1).
  assert (Hz2 : z < 10 ^ 18).
  { eapply Z.lt_le_trans; [exact Hz1|].
    apply Z.pow_le_mono_r; lia. }
  exists z. unfold int64_of_text. rewrite Hz.
  replace (- 2 ^ 63 <=? z) with true by (symmetry; apply Z.leb_le; lia).
  replace (z <? 2 ^ 63) with true by (symmetry; apply Z.ltb_lt; lia).
  cbn [andb]. split; [reflexivity|]. split; [reflexivity|lia].
Qed.

Lemma isdigit_py_int_witness :
  match int64_of_text "2025" with
  | Ok z => py_int "2025" = Some z /\ 0 <= z < 2 ^ 63
  | Err e =>
      (e = OverflowError /\ exists z, py_int "2025" = Some z /\ 2 ^ 63 <= z)
      \/ (e = ValueError /\ (max_str_digits < String.length "2025")%nat)
  end
  /\ exists z, int64_of_text "2025" = Ok z /\ py_int "2025" = Some z
               /\ 0 <= z < 10 ^ 18.
Proof.
  destruct (isdigit_py_int "2025" eq_refl) as [H1 H2].
  split; [exact H1|]. apply H2. simpl. lia.
Defined.

(** A column name of twenty digits passes [isdigit] and overflows int64. *)
Example int64_overflow :
  isdigit "99999999999999999999" = true
  /\ int64_of_text "99999999999999999999" = Err OverflowError
  /\ int64_of_text "2025" = Ok 2025.
Proof. vm_compute. repeat split. Qed.

(** The separators 0x1C-0x1F are no blanks for [int]: such a label stays
    text. *)
Example separator_is_no_blank :
  py_int (String "028" "2025") = None
  /\ py_int (String "009" "2025 ") = Some 2025
  /\ extract_year_from_index (StrLabel (String "028" "2025"))
     = YStr (String "028" "2025").
Proof. vm_compute. repeat split. Qed.

Lemma string_of_uint_digits (d : Decimal.uint) :
  Forall is_digit (list_ascii_of_string (NilEmpty.string_of_uint d)).
Proof.
  induction d; simpl; constructor; try exact IHd; vm_compute; eauto.
Qed.

(** Reading the decimal digits of [d] after the value [acc]. *)
Lemma py_digits_string_of_uint (d : Decimal.uint) (acc : Z) :
  py_digits acc true (list_ascii_of_string (NilEmpty.string_of_uint d))
  = Some (acc * 10 ^ Z.of_N (DecimalPos.Unsigned.usize d)
          + Z.of_N (DecimalPos.Unsigned.of_lu (Decimal.rev d))).
Proof.
  revert acc. induction d; intros acc;
    [simpl; f_equal; lia|..];
    cbn [NilEmpty.string_of_uint list_ascii_of_string py_digits];
    match goal with
    | |- context [digit_of_ascii ?c] =>
        let v := eval vm_compute in (digit_of_ascii c) in
        change (digit_of_ascii c) with v
    end;
    cbv iota; rewrite IHd; f_equal;
    match goal with
    | |- context [Decimal.rev (?D d)] =>
        change (Decimal.rev (D d)) with (Decimal.revapp d (D Decimal.Nil))
    end;
    rewrite DecimalPos.Unsigned.of_lu_revapp;
    match goal with
    | |- context [DecimalPos.Unsigned.of_lu (?D Decimal.Nil)] =>
        let v := eval vm_compute in (DecimalPos.Unsigned.of_lu (D Decimal.Nil)) in
        change (DecimalPos.Unsigned.of_lu (D Decimal.Nil)) with v
    end;
    cbn [DecimalPos.Unsigned.usize];
    rewrite N2Z.inj_add, N2Z.inj_mul, N2Z.inj_pow, N2Z.inj_succ;
    rewrite Z.pow_succ_r by apply N2Z.is_nonneg;
    change (Z.of_N 10) with 10;
    set (P := 10 ^ Z.of_N (DecimalPos.Unsigned.usize d));
    set (R := Z.of_N (DecimalPos.Unsigned.of_lu (Decimal.rev d)));
    cbn [Z.of_N]; ring.
Qed.

Lemma py_digits_first_digit (c : ascii) (cs : list ascii) (acc : Z) :
  is_digit c -> py_digits acc false (c :: cs) = py_digits acc true (c :: cs).
Proof. intros [d Hd]. simpl. now rewrite Hd. Qed.

Lemma py_digits_to_uint (p : positive) :
  exists c cs,
    list_ascii_of_string (NilZero.string_of_uint (Pos.to_uint p)) = c :: cs
    /\ Forall is_digit (c :: cs)
    /\ py_digits 0 false (c :: cs) = Some (Z.pos p).
Proof.
  pose proof (DecimalPos.Unsigned.to_uint_nonnil p) as Hnil.
  pose proof (DecimalPos.Unsigned.of_to p) as Hof.
  rewrite DecimalPos.Unsigned.of_uint_alt in Hof.
  pose proof (string_of_uint_digits (Pos.to_uint p)) as Hall.
  pose proof (py_digits_string_of_uint (Pos.to_uint p) 0) as Hread.
  rewrite Hof in Hread. cbn [Z.of_N] in Hread. rewrite Z.mul_0_l, Z.add_0_l in Hread.
  assert (Hs : NilZero.string_of_uint (Pos.to_uint p)
               = NilEmpty.string_of_uint (Pos.to_uint p)).
  { destruct (Pos.to_uint p); [contradiction|reflexivity..]. }
  rewrite Hs.
  destruct (list_ascii_of_string (NilEmpty.string_of_uint (Pos.to_uint p)))
    as [|c cs] eqn:E.
  { destruct (Pos.to_uint p); [contradiction|discriminate E..]. }
  exists c, cs. split; [reflexivity|]. split; [exact Hall|].
  rewrite py_digits_first_digit by (now inversion Hall). exact Hread.
Qed.

(** [int(str(z))] is [z], for a number within the digit limit. *)
Lemma py_int_py_str (z : Z) :
  (String.length (py_str z) <= max_str_digits)%nat ->
  py_int (py_str z) = Some z.
Proof.
  intros Hlen. rewrite <- string_length_list in Hlen. revert Hlen.
  destruct z as [|p|p]; [reflexivity|..]; unfold py_str;
    cbn [Z.to_int NilZero.string_of_int]; intros Hlen.
  - destruct (py_digits_to_uint p) as (c & cs & Hcs & Hall & Hread).
    assert (Hc : is_digit c) by (now inversion Hall).
    destruct Hc as [d Hd]. pose proof (ascii_digit_facts c) as Hf.
    rewrite Hd in Hf. destruct Hf as (_ & _ & Hm & Hp & _).
    rewrite (py_int_unsigned _ c cs); [exact Hread| |exact Hm|exact Hp|].
    + rewrite Hcs. apply strip_no_space, digits_no_space, Hall.
    + rewrite Hcs in Hlen. pose proof (count_digits_le (c :: cs)). lia.
  - destruct (py_digits_to_uint p) as (c & cs & Hcs & Hall & Hread).
    unfold py_int. cbn [list_ascii_of_string] in *. rewrite Hcs in *.
    rewrite strip_no_space
      by (constructor; [reflexivity|apply digits_no_space, Hall]).
    replace (max_str_digits <? count_digits ("-"%char :: c :: cs))%nat with false.
    + cbv iota beta. rewrite Hread. reflexivity.
    + symmetry. apply Nat.ltb_ge.
      pose proof (count_digits_le ("-"%char :: c :: cs)). lia.
Qed.

(** X5: a time index whose labels are the decimal text of the years is
    resolved like one of integers or periods: when the text of the target
    year is a label, the exact-year branch is taken; the values returned are
    those stored at a label that reads as the target year, and the target
    year is reported. *)
Theorem text_year_found_exactly (series_data : DataFrame) (target_year : Z) :
  ascii_labels (df_index series_data) ->
  (String.length (py_str target_year) <= max_str_digits)%nat ->
  In (StrLabel (py_str target_year)) (df_index series_data) ->
  exists year_pos label values,
    get_year_data series_data target_year = Ok (values, YInt target_year)
    /\ df_index series_data !! year_pos = Some label
    /\ spec_label_year label target_year
    /\ Permutation values
         (map (fun c => (fst c, nth year_pos (snd c) NaN))
              (df_columns series_data))
    /\ Sorted value_le values.
Proof.
  intros _ Hlen Hin.
  assert (Hy : In (YInt target_year) (index_years series_data)).
  { apply index_years_In_label. exists (StrLabel (py_str target_year)).
    split; [exact Hin|]. simpl. now apply py_int_py_str. }
  destruct (get_year_data_exact _ _ Hy) as (pos & Hpos & Hget).
  apply py_index_first in Hpos as [Hat _].
  apply index_years_lookup_label in Hat as (label & Hlabel & Hyear).
  exists pos, label, (sort_values (row_at series_data pos)).
  split; [exact Hget|]. split; [exact Hlabel|]. split; [exact Hyear|].
  split; [apply sort_values_row|apply sort_values_Sorted].
Qed.

Lemma text_year_found_exactly_witness :
  exists year_pos label values,
    get_year_data frame_text_years 2025 = Ok (values, YInt 2025)
    /\ df_index frame_text_years !! year_pos = Some label
    /\ spec_label_year label 2025
    /\ Permutation values
         (map (fun c => (fst c, nth year_pos (snd c) NaN))
              (df_columns frame_text_years))
    /\ Sorted value_le values.
Proof.
  apply text_year_found_exactly.
  - intros s H. simpl in H.
    repeat (destruct H as [[= <-]|H];
            [apply (bool_decide_unpack _); vm_compute; exact I|]).
    destruct H.
  - vm_compute. lia.
  - right. right. left. reflexivity.
Defined.

(** The label [\x1c2025] is no year; the row of the label "2025" is
    returned. *)
Example text_year_row :
  get_year_data frame_text_years 2025
  = Ok ([("BRA", Num (3#1)); ("ARG", Num (7#1))], YInt 2025).
Proof. vm_compute. reflexivity. Qed.

(** ** The fallback wrapper [CustomWEO] *)

Lemma CustomWEO_country_col_In (df : RawTable) (country_col : string) :
  CustomWEO_country_col df = Ok country_col ->
  In country_col (raw_columns df).
Proof.
  unfold CustomWEO_country_col.
  destruct (List.find _ _) as [col|] eqn:E; [|discriminate].
  intros [= <-]. apply find_some in E as [_ E]. now apply str_in_In.
Qed.

Lemma astype_int_err (cols : list string) (e : exn) :
  astype_int cols = Err e ->
  exists col, In col cols /\ int64_of_text col = Err e.
Proof.
  induction cols as [|col cols IH]; [discriminate|]. simpl.
  destruct (int64_of_text col) as [z|e'] eqn:Ec; cbn [mbind result_bind].
  - destruct (astype_int cols) as [zs|e'']; cbn [mbind result_bind];
      [discriminate|].
    intros [= <-]. destruct (IH eq_refl) as (c & Hc & He). eauto.
  - intros [= <-]. eauto.
Qed.

Lemma astype_int_ok (cols : list string) (years : list Z) :
  astype_int cols = Ok years ->
  Forall2 (fun z col => int64_of_text col = Ok z) years cols.
Proof.
  revert years. induction cols as [|col cols IH]; intros years; simpl.
  - intros [= <-]. constructor.
  - destruct (int64_of_text col) as [z|] eqn:Ec; cbn [mbind result_bind];
      [|discriminate].
    destruct (astype_int cols) as [zs|]; cbn [mbind result_bind]; [|discriminate].
    intros [= <-]. constructor; [exact Ec|now apply IH].
Qed.

Lemma int64_of_text_Ok (col : string) (z : Z) :
  int64_of_text col = Ok z -> py_int col = Some z.
Proof.
  unfold int64_of_text. destruct (py_int col) as [y|]; [|discriminate].
  destruct (_ && _); [|discriminate]. now intros [= <-].
Qed.

(** X6: with the country column that the constructor of the wrapper
    found, [getc] raises in three cases only: [KeyError] when the file has no
    'WEO Subject Code' column, [ValueError] when no row carries the variable
    code, and the error of [astype(int)] on an all-digit column name that does
    not fit: [OverflowError] for a value from 2^63 on, [ValueError] for a name
    of more than 4300 digits.  In every other case it returns a frame. *)
Theorem CustomWEO_getc_errors (to_numeric : string -> cell) (df : RawTable)
    (country_col variable_code : string) :
  Forall is_ascii_text (raw_columns df) ->
  CustomWEO_country_col df = Ok country_col ->
  match CustomWEO_getc to_numeric df country_col variable_code with
  | Ok full => True
  | Err e =>
      (e = KeyError /\ ~ In "WEO Subject Code" (raw_columns df))
      \/ (e = ValueError
          /\ forall row, In row (raw_rows df) ->
                         raw_cell df row "WEO Subject Code" <> variable_code)
      \/ (exists col,
             In col (raw_columns df) /\ isdigit col = true
             /\ ((e = OverflowError
                  /\ exists z, py_int col = Some z /\ 2 ^ 63 <= z)
                 \/ (e = ValueError
                     /\ (max_str_digits < String.length col)%nat)))
  end.
Proof.
  intros _ Hcol. apply CustomWEO_country_col_In, str_in_In in Hcol.
  unfold CustomWEO_getc.
  destruct (str_in "WEO Subject Code" (raw_columns df)) eqn:Es; cbn [negb].
  - destruct (List.filter _ (raw_rows df)) as [|r rs] eqn:Ef.
    + right. left. split; [reflexivity|]. intros row Hrow Heq.
      assert (Hin : In row (List.filter
                              (fun row => String.eqb (raw_cell df row "WEO Subject Code")
                                                     variable_code)
                              (raw_rows df))).
      { apply filter_In. split; [exact Hrow|]. now apply String.eqb_eq. }
      rewrite Ef in Hin. destruct Hin.
    + rewrite Hcol. cbn [negb].
      destruct (astype_int (List.filter isdigit (raw_columns df))) as [years|e]
        eqn:Ea; cbn [mbind result_bind]; [exact I|].
      right. right. apply astype_int_err in Ea as (col & Hc & He).
      apply filter_In in Hc as [Hc1 Hc2]. exists col.
      split; [exact Hc1|]. split; [exact Hc2|].
      pose proof (int64_of_text_digits col Hc2) as Hd. rewrite He in Hd.
      exact Hd.
  - left. split; [reflexivity|]. intros H. apply str_in_In in H. congruence.
Qed.

Lemma CustomWEO_getc_errors_witness :
  match CustomWEO_getc demo_to_numeric demo_raw "ISO" "PCPIPCH" with
  | Ok full => True
  | Err e =>
      (e = KeyError /\ ~ In "WEO Subject Code" (raw_columns demo_raw))
      \/ (e = ValueError
          /\ forall row, In row (raw_rows demo_raw) ->
                         raw_cell demo_raw row "WEO Subject Code" <> "PCPIPCH")
      \/ (exists col,
             In col (raw_columns demo_raw) /\ isdigit col = true
             /\ ((e = OverflowError
                  /\ exists z, py_int col = Some z /\ 2 ^ 63 <= z)
                 \/ (e = ValueError
                     /\ (max_str_digits < String.length col)%nat)))
  end.
Proof.
  apply CustomWEO_getc_errors.
  - apply (bool_decide_unpack _). vm_compute. exact I.
  - reflexivity.
Defined.

(** A file with a year column of twenty digits: [getc] raises
    [OverflowError]. *)
Example getc_overflow :
  CustomWEO_getc demo_to_numeric
    {| raw_columns := ["WEO Subject Code"; "ISO"; "2025"; "99999999999999999999"];
       raw_rows := [["NGDPD"; "ARG"; "11"; "12"]] |} "ISO" "NGDPD"
  = Err OverflowError.
Proof. vm_compute. reflexivity. Qed.

Lemma CustomWEO_getc_inv (to_numeric : string -> cell) (df : RawTable)
    (country_col variable_code : string) (full : DataFrame) :
  CustomWEO_getc to_numeric df country_col variable_code = Ok full ->
  let year_cols := List.filter isdigit (raw_columns df) in
  let var_data :=
    List.filter (fun row => String.eqb (raw_cell df row "WEO Subject Code")
                                       variable_code)
                (raw_rows df) in
  var_data <> []
  /\ exists years,
       Forall2 (fun z col => int64_of_text col = Ok z) years year_cols
       /\ full = {| df_index := map IntLabel years;
                    df_columns :=
                      map (fun row =>
                             (raw_cell df row country_col,
                              map (fun col => to_numeric (raw_cell df row col))
                                  year_cols))
                          var_data |}.
Proof.
  unfold CustomWEO_getc.
  destruct (negb (str_in "WEO Subject Code" (raw_columns df))); [discriminate|].
  destruct (List.filter _ (raw_rows df)) as [|row rows] eqn:Ef; [discriminate|].
  destruct (negb (str_in country_col (raw_columns df))); [discriminate|].
  destruct (astype_int _) as [years|] eqn:Ea; cbn [mbind result_bind];
    [|discriminate].
  intros [= <-]. split; [discriminate|]. exists years.
  split; [now apply astype_int_ok|reflexivity].
Qed.

Lemma year_cols_labels (years : list Z) (cols : list string) :
  Forall (fun c => isdigit c = true) cols ->
  Forall2 (fun z col => int64_of_text col = Ok z) years cols ->
  Forall2 (fun label c => exists z, py_int c = Some z /\ 0 <= z /\ label = IntLabel z)
          (map IntLabel years) cols.
Proof.
  intros Hdig H. induction H as [|z col years cols Hz _ IH]; simpl; constructor.
  - apply Forall_cons in Hdig as [Hc _].
    pose proof (int64_of_text_digits col Hc) as Hd. rewrite Hz in Hd.
    exists z. destruct Hd as [Hp Hr]. split; [exact Hp|]. split; [lia|reflexivity].
  - apply IH. now apply Forall_cons in Hdig as [_ Hdig].
Qed.

(** X7: a frame that [CustomWEO.getc] returns is well formed: its index
    holds, in column order, the integer value of every all-digit column name
    (none of them negative); it has one column per row of the variable,
    labelled with that row's country code, and at least one; and every column
    has exactly one cell per index entry. *)
Theorem CustomWEO_getc_frame (to_numeric : string -> cell) (df : RawTable)
    (country_col variable_code : string) (full : DataFrame) :
  CustomWEO_getc to_numeric df country_col variable_code = Ok full ->
  Forall2 (fun label c => exists z, py_int c = Some z /\ 0 <= z /\ label = IntLabel z)
          (df_index full) (List.filter isdigit (raw_columns df))
  /\ map fst (df_columns full)
     = map (fun row => raw_cell df row country_col)
           (List.filter (fun row => String.eqb (raw_cell df row "WEO Subject Code")
                                               variable_code)
                        (raw_rows df))
  /\ df_columns full <> []
  /\ Forall (fun c => length (snd c) = length (df_index full)) (df_columns full).
Proof.
  intros H. apply CustomWEO_getc_inv in H as (Hne & years & Hyears & ->).
  cbn [df_index df_columns].
  split; [|split; [|split]].
  - apply year_cols_labels; [|exact Hyears].
    apply List.Forall_forall. intros c Hc. now apply filter_In in Hc.
  - rewrite map_map. reflexivity.
  - intros Hnil. apply map_eq_nil in Hnil. contradiction.
  - apply List.Forall_forall. intros c Hc. apply in_map_iff in Hc as (row & <- & _).
    cbn [snd]. rewrite !length_map. symmetry. eapply Forall2_length, Hyears.
Qed.

Lemma CustomWEO_getc_frame_witness :
  Forall2 (fun label c => exists z, py_int c = Some z /\ 0 <= z /\ label = IntLabel z)
          [IntLabel 2024; IntLabel 2025; IntLabel 2026]
          (List.filter isdigit (raw_columns demo_raw)).
Proof.
  refine (proj1 (CustomWEO_getc_frame demo_to_numeric demo_raw "ISO" "NGDPD"
                   {| df_index := [IntLabel 2024; IntLabel 2025; IntLabel 2026];
                      df_columns :=
                        [("ARG", map (fun z => Num (inject_Z z)) [10; 11; 12]);
                         ("BRA", [Num (inject_Z 5); NaN; Num (inject_Z 1)]);
                         ("USA", map (fun z => Num (inject_Z z)) [0; 0; 0])] |} _)).
  vm_compute. reflexivity.
Defined.

(** X8: year resolution over the wrapper reads the raw file: when some
    all-digit column name is the target year, [get_year_data] returns, for
    such a column, the numeric reading of that column's cell in every row of
    the variable, labelled with the row's country code, in ascending order of
    value, and reports the target year. *)
Theorem CustomWEO_year_values (to_numeric : string -> cell) (df : RawTable)
    (country_col variable_code : string) (full : DataFrame)
    (year_col : string) (target_year : Z) :
  Forall is_ascii_text (raw_columns df) ->
  CustomWEO_getc to_numeric df country_col variable_code = Ok full ->
  In year_col (raw_columns df) ->
  isdigit year_col = true ->
  py_int year_col = Some target_year ->
  exists col values,
    In col (raw_columns df) /\ isdigit col = true
    /\ py_int col = Some target_year
    /\ get_year_data full target_year = Ok (values, YInt target_year)
    /\ Permutation values
         (map (fun row => (raw_cell df row country_col,
                           to_numeric (raw_cell df row col)))
              (List.filter
                 (fun row => String.eqb (raw_cell df row "WEO Subject Code")
                                        variable_code)
                 (raw_rows df)))
    /\ Sorted value_le values.
Proof.
  intros _ Hget Hin Hdig Hint.
  apply CustomWEO_getc_inv in Hget as (_ & years & Hyears & ->).
  set (year_cols := List.filter isdigit (raw_columns df)) in *.
  set (var_data := List.filter _ (raw_rows df)).
  set (full := {| df_index := _; df_columns := _ |}).
  assert (Hcols : forall pos z,
             years !! pos = Some z ->
             exists col, year_cols !! pos = Some col /\ py_int col = Some z).
  { intros pos z Hz.
    destruct (Forall2_lookup_l _ _ _ _ _ Hyears Hz) as (col & Hcol & Hc).
    exists col. split; [exact Hcol|now apply int64_of_text_Ok]. }
  assert (Hy : In (YInt target_year) (index_years full)).
  { apply index_years_In_label. exists (IntLabel target_year). split; [|reflexivity].
    unfold full. cbn [df_index]. apply in_map.
    assert (Hc : In year_col year_cols) by (apply filter_In; auto).
    apply list_elem_of_In, list_elem_of_lookup in Hc as [pos Hpos].
    destruct (Forall2_lookup_r _ _ _ _ _ Hyears Hpos) as (z & Hz & Hconv).
    apply int64_of_text_Ok in Hconv. rewrite Hint in Hconv.
    injection Hconv as <-.
    apply list_elem_of_In, list_elem_of_lookup. eauto. }
  destruct (get_year_data_exact _ _ Hy) as (pos & Hpos & Hok).
  apply py_index_first in Hpos as [Hat _].
  apply index_years_lookup_label in Hat as (label & Hlabel & Hyear).
  unfold full in Hlabel. cbn [df_index] in Hlabel.
  rewrite list_lookup_fmap in Hlabel.
  destruct (years !! pos) as [z|] eqn:Ez; [|discriminate Hlabel].
  injection Hlabel as <-. simpl in Hyear. subst z.
  destruct (Hcols pos target_year Ez) as (col & Hcol & Hcint).
  assert (Hc : In col year_cols).
  { apply list_elem_of_In, list_elem_of_lookup. eauto. }
  apply filter_In in Hc as [Hc1 Hc2].
  exists col, (sort_values (row_at full pos)).
  split; [exact Hc1|]. split; [exact Hc2|]. split; [exact Hcint|].
  split; [exact Hok|]. split; [|apply sort_values_Sorted].
  rewrite sort_values_Permutation.
  unfold row_at, full. cbn [df_columns]. rewrite map_map.
  apply Permutation_refl'. apply map_ext. intros row. cbn [fst snd]. f_equal.
  apply nth_lookup_Some with (d := NaN).
  rewrite list_lookup_fmap, Hcol. reflexivity.
Qed.

Lemma CustomWEO_year_values_witness :
  exists col values,
    In col (raw_columns demo_raw) /\ isdigit col = true
    /\ py_int col = Some 2025
    /\ get_year_data demo_custom_frame 2025 = Ok (values, YInt 2025)
    /\ Permutation values
         (map (fun row => (raw_cell demo_raw row "ISO",
                           demo_to_numeric (raw_cell demo_raw row col)))
              (List.filter
                 (fun row => String.eqb (raw_cell demo_raw row "WEO Subject Code")
                                        "NGDPD")
                 (raw_rows demo_raw)))
    /\ Sorted value_le values.
Proof.
  apply (CustomWEO_year_values demo_to_numeric demo_raw "ISO" "NGDPD" _ "2025").
  - apply (bool_decide_unpack _). vm_compute. exact I.
  - vm_compute. reflexivity.
  - vm_compute. tauto.
  - reflexivity.
  - reflexivity.
Defined.

(** ** The collection loop: shape of the three dictionaries *)

Lemma dict_set_fresh {V : Type} (k : string) (v : V) (d : dict V) :
  ~ In k (keys d) -> dict_set k v d = d ++ [(k, v)].
Proof.
  induction d as [|[k' v'] d IH]; simpl; intros H; [reflexivity|].
  destruct (String.eqb_spec k' k) as [->|Hne]; [tauto|].
  rewrite IH by tauto. reflexivity.
Qed.

Lemma var_dict_keys_NoDup : NoDup (keys var_dict).
Proof. apply (bool_decide_unpack _). vm_compute. exact I. Qed.

Section LoopShape.
Variable getc : string -> result DataFrame.
Variable countries : list string.
Variable current_year : Z.

Lemma collect_from_appends (vars : list string) (st : collected) :
  NoDup vars ->
  (forall k, In k vars ->
             ~ In k (keys (current_year_data st))
             /\ ~ In k (keys (median_10yr_data st))
             /\ ~ In k (keys (data_2019 st))) ->
  let st' := collect_from getc countries current_year st vars in
  current_year_data st'
  = current_year_data st
    ++ map (fun k => (k, stored_current getc countries current_year k)) vars
  /\ median_10yr_data st'
     = median_10yr_data st
       ++ map (fun k => (k, stored_median getc countries current_year k)) vars
  /\ data_2019 st'
     = data_2019 st
       ++ map (fun k => (k, stored_2019 getc countries current_year k)) vars.
Proof.
  revert st. induction vars as [|v vars IH]; intros st Hnd Hfresh.
  - simpl. rewrite !app_nil_r. auto.
  - apply NoDup_cons in Hnd as [Hv Hnd]. rewrite list_elem_of_In in Hv.
    destruct (Hfresh v (or_introl eq_refl)) as (F1 & F2 & F3).
    destruct (collect_step_data getc countries current_year st v) as (E1 & E2 & E3).
    rewrite dict_set_fresh in E1, E2, E3 by assumption.
    cbn [collect_from fold_left].
    fold (collect_from getc countries current_year
            (collect_step getc countries current_year st v) vars).
    destruct (IH (collect_step getc countries current_year st v) Hnd) as (I1 & I2 & I3).
    + intros k Hk. rewrite E1, E2, E3. unfold keys. rewrite !map_app, !in_app_iff.
      destruct (Hfresh k (or_intror Hk)) as (G1 & G2 & G3). unfold keys in *.
      simpl. assert (v <> k) by (intros ->; contradiction). tauto.
    + cbv zeta in I1, I2, I3. rewrite I1, I2, I3, E1, E2, E3.
      rewrite <- !app_assoc. auto.
Qed.

Lemma collect_all_entries :
  let st := collect_all getc countries current_year in
  current_year_data st
  = map (fun k => (k, stored_current getc countries current_year k)) (keys var_dict)
  /\ median_10yr_data st
     = map (fun k => (k, stored_median getc countries current_year k)) (keys var_dict)
  /\ data_2019 st
     = map (fun k => (k, stored_2019 getc countries current_year k)) (keys var_dict).
Proof.
  apply (collect_from_appends (keys var_dict) (mkCollected [] [] []));
    [apply var_dict_keys_NoDup|]. intros k _. simpl. tauto.
Qed.

Lemma clean_stored_keys (stored : string -> option Series) (vars : list string) :
  (forall k, is_Some (stored k)
             <-> exists views, collect_var getc countries current_year k = Ok views) ->
  keys (clean (map (fun k => (k, stored k)) vars))
  = List.filter (fun k => match collect_var getc countries current_year k with
                          | Ok _ => true
                          | Err _ => false
                          end) vars.
Proof.
  intros Hs. induction vars as [|k vars IH]; [reflexivity|].
  cbn [map clean flat_map fst snd List.filter]. fold (clean (map (fun k => (k, stored k)) vars)).
  specialize (Hs k).
  destruct (stored k) as [v|] eqn:Ek.
  - destruct (proj1 Hs (ex_intro _ v eq_refl)) as [views ->].
    unfold keys in *. simpl. now rewrite IH.
  - destruct (collect_var getc countries current_year k) as [views|e].
    + destruct (proj2 Hs (ex_intro _ views eq_refl)) as [x Hx]. discriminate Hx.
    + exact IH.
Qed.
End LoopShape.

(** X9: after the loop each of the three dictionaries has one entry per
    variable of [var_dict], in that order, whether its collection raised or
    not; and the three dictionaries keep a value for exactly the same
    variables, those whose collection did not raise, so the three dataframes
    built from them have the same columns in the same order. *)
Theorem collect_all_shape (getc : string -> result DataFrame)
    (countries : list string) (current_year : Z) :
  let st := collect_all getc countries current_year in
  let collected_vars :=
    List.filter (fun k => match collect_var getc countries current_year k with
                          | Ok _ => true
                          | Err _ => false
                          end) (keys var_dict) in
  (keys (current_year_data st) = keys var_dict
   /\ keys (median_10yr_data st) = keys var_dict
   /\ keys (data_2019 st) = keys var_dict)
  /\ (keys (clean (current_year_data st)) = collected_vars
      /\ keys (clean (median_10yr_data st)) = collected_vars
      /\ keys (clean (data_2019 st)) = collected_vars)
  /\ forall d,
       In d [current_year_data st; median_10yr_data st; data_2019 st] ->
       map fst (t_columns (rename_columns var_dict (frame_of_dict (clean d))))
       = map display collected_vars.
Proof.
  intros st collected_vars.
  destruct (collect_all_entries getc countries current_year) as (E1 & E2 & E3).
  fold st in E1, E2, E3.
  assert (K : keys (clean (current_year_data st)) = collected_vars
              /\ keys (clean (median_10yr_data st)) = collected_vars
              /\ keys (clean (data_2019 st)) = collected_vars).
  { rewrite E1, E2, E3. split; [|split]; apply clean_stored_keys; intros k;
      unfold stored_current, stored_median, stored_2019;
      destruct (collect_var getc countries current_year k) as [[[c m] y]|e];
      (split; [intros [x Hx]; try discriminate Hx; eauto
              |intros [x Hx]; try discriminate Hx; eauto]). }
  split; [|split; [exact K|]].
  - assert (Hk : forall (V : Type) (f : string -> V) (l : list string),
                 keys (map (fun k => (k, f k)) l) = l).
    { intros V f l. unfold keys. induction l as [|k l IH]; simpl; congruence. }
    rewrite E1, E2, E3, !Hk. auto.
  - destruct K as (K1 & K2 & K3).
    intros d [<-|[<-|[<-|[]]]]; rewrite frame_columns; congruence.
Qed.

(** In the sample run two of the twelve variables are collected. *)
Example demo_collected_vars :
  keys (clean (current_year_data (collect_all demo_getc demo_countries 2025)))
  = ["NGDPD"; "LP"].
Proof. vm_compute. reflexivity. Qed.

(** X10: once the current-year lookup of a variable has succeeded, its 2019
    lookup succeeds as well: the all-NaN substitute of the inner [except] is
    never stored, and the 2019 view of a collected variable always holds the
    cells of one row of its series, one per country column, in ascending
    order of value. *)
Theorem values_2019_never_substituted (getc : string -> result DataFrame)
    (countries : list string) (current_year : Z) (var : string)
    (cur med y19 : Series) :
  collect_var getc countries current_year var = Ok (cur, med, y19) ->
  exists full series_data year_pos used,
    getc var = Ok full
    /\ getitem_columns full (embi_countries countries) = Ok series_data
    /\ get_year_data series_data 2019 = Ok (y19, used)
    /\ (year_pos < length (df_index series_data))%nat
    /\ Permutation y19
         (map (fun c => (fst c, nth year_pos (snd c) NaN))
              (df_columns series_data))
    /\ Sorted value_le y19.
Proof.
  intros H.
  apply collect_var_inv in H
    as (full & sd & used & w & Hfull & Hsel & Hcur & _ & _ & ->).
  apply get_year_data_inv in Hcur as (pos & Hpos & _).
  assert (Hne : df_index sd <> []).
  { intros Hnil. rewrite Hnil in Hpos. simpl in Hpos. lia. }
  destruct (get_year_data_total sd 2019 Hne) as (p & u & Hp & Hok).
  exists full, sd, p, u. unfold values_2019_of. rewrite Hok.
  split; [exact Hfull|]. split; [exact Hsel|]. split; [reflexivity|].
  split; [exact Hp|]. split; [apply sort_values_row|apply sort_values_Sorted].
Qed.

Lemma values_2019_never_substituted_witness :
  exists full series_data year_pos used,
    demo_getc "NGDPD" = Ok full
    /\ getitem_columns full (embi_countries demo_countries) = Ok series_data
    /\ get_year_data series_data 2019 = Ok (snd demo_views, used)
    /\ (year_pos < length (df_index series_data))%nat
    /\ Permutation (snd demo_views)
         (map (fun c => (fst c, nth year_pos (snd c) NaN))
              (df_columns series_data))
    /\ Sorted value_le (snd demo_views).
Proof.
  apply (values_2019_never_substituted demo_getc demo_countries 2025 "NGDPD"
           (fst (fst demo_views)) (snd (fst demo_views)) (snd demo_views)).
  vm_compute. reflexivity.
Defined.

(** ** The merged table *)

Lemma add_suffix_labels (suffix : string) (t : Table string) :
  map fst (t_columns (add_suffix suffix t))
  = map (fun c => (fst c ++ suffix)%string) (t_columns t).
Proof. unfold add_suffix. cbn [t_columns]. now rewrite map_map. Qed.

(** X11: assigning the (indicator, period) tuples as column labels never
    fails with a length mismatch, whatever the three frames hold: every
    column of the concatenated frame carries one of the three suffixes, so
    the [if]/[elif] chain without [else] produces one tuple per column.  The
    rows are kept, and every period label is the text of the current year,
    "10yr_Median" or "2019". *)
Theorem multi_index_always_assigned (current_year : Z) (t1 t2 t3 : Table string) :
  let dff := concat_frames [add_suffix ("_" ++ py_str current_year) t1;
                            add_suffix "_10yr_Median" t2;
                            add_suffix "_2019" t3] in
  exists indexed,
    set_multi_index current_year dff = Ok indexed
    /\ length (t_columns indexed) = length (t_columns dff)
    /\ t_index indexed = t_index dff
    /\ forall p, In p (level1 indexed) ->
                 p = py_str current_year \/ p = "10yr_Median" \/ p = "2019".
Proof.
  intros dff.
  assert (Hlen : length (columns_tuples current_year (map fst (t_columns dff)))
                 = length (t_columns dff)).
  { rewrite columns_tuples_length; [apply length_map|].
    intros col Hcol. unfold dff in Hcol. rewrite concat_columns_labels in Hcol.
    cbn [flat_map] in Hcol. rewrite !add_suffix_labels, app_nil_r in Hcol.
    apply in_app_or in Hcol as [Hcol|Hcol];
      [|apply in_app_or in Hcol as [Hcol|Hcol]];
      apply in_map_iff in Hcol as (c & <- & _);
      apply column_tuple_one; simpl; auto. }
  clearbody dff. unfold set_multi_index. rewrite Hlen, Nat.eqb_refl.
  eexists. split; [reflexivity|]. cbn [t_columns t_index]. split; [|split].
  - rewrite (Permutation_length (merge_sort_Permutation _ _)).
    rewrite length_combine, length_map, Hlen. apply Nat.min_id.
  - reflexivity.
  - intros p Hp. unfold level1 in Hp. cbn [t_columns] in Hp.
    apply in_map_iff in Hp as (c & <- & Hc).
    apply list_elem_of_In in Hc. rewrite merge_sort_Permutation in Hc.
    apply list_elem_of_In in Hc. destruct c as [key data].
    apply in_combine_l in Hc. cbn [fst snd].
    unfold columns_tuples in Hc. apply in_flat_map in Hc as (col & _ & Hc).
    eapply column_tuple_period, Hc.
Qed.

(** ** Holdings, resolved codes and the countries of the data block *)

Lemma holdings_countries_In (location : list (option string)) (name : string) :
  In name (holdings_countries location) <-> In (Some name) location.
Proof.
  unfold holdings_countries, unique. rewrite unique_from_In.
  rewrite <- !list_elem_of_In, list_elem_of_omap. split.
  - intros [(x & Hx & E) _]. destruct x as [n|]; [|discriminate E].
    simpl in E. injection E as ->. exact Hx.
  - intros H. split; [|apply not_elem_of_nil]. exists (Some name). now split.
Qed.

Lemma holdings_codes_NoDup (location : list (option string)) :
  NoDup (embi_countries (holdings_countries location)).
Proof. apply embi_countries_NoDup, unique_from_NoDup. Qed.

(** X12: the codes the script works with are distinct, whatever the
    holdings file repeats, and they are exactly the codes the table gives for
    the names that stand in the 'Location' column; missing cells and names the
    table does not hold add nothing. *)
Theorem holdings_codes (location : list (option string)) :
  NoDup (embi_countries (holdings_countries location))
  /\ forall code,
       In code (embi_countries (holdings_countries location))
       <-> exists name, In (Some name) location
                        /\ country_mapping !! name = Some code.
Proof.
  split; [apply holdings_codes_NoDup|]. intros code.
  rewrite embi_countries_omap, <- list_elem_of_In, list_elem_of_omap.
  split; intros (name & Hn & E); exists name; (split; [|exact E]).
  - apply list_elem_of_In in Hn. now apply holdings_countries_In.
  - apply list_elem_of_In. now apply holdings_countries_In.
Qed.

Example holdings_demo :
  embi_countries
    (holdings_countries [Some "Brazil"; None; Some "Cash"; Some "Brazil";
                         Some "Argentina"])
  = ["BRA"; "ARG"].
Proof. vm_compute. reflexivity. Qed.

(** X13: with the names taken from the holdings file, the script reaches the
    data block whenever every frame of the dataset has one column per country
    code: no frame construction, concatenation or label assignment raises, and
    a country whose projection raises is only skipped. *)
Theorem script_reaches_data_block (getc : string -> result DataFrame)
    (location : list (option string)) (current_year : Z) :
  (forall var full, getc var = Ok full -> NoDup (map fst (df_columns full))) ->
  exists js, run getc (holdings_countries location) current_year = Ok js.
Proof.
  intros Hg. apply run_ok_unique_labels; [apply unique_from_NoDup|exact Hg].
Qed.

Lemma script_reaches_data_block_witness :
  exists js,
    run demo_getc (holdings_countries [Some "Brazil"; None; Some "Brazil";
                                       Some "Argentina"]) 2025 = Ok js.
Proof.
  apply (script_reaches_data_block demo_getc
           [Some "Brazil"; None; Some "Brazil"; Some "Argentina"] 2025).
  intros var full. unfold demo_getc.
  destruct (String.eqb var "NGDPD"); [|destruct (String.eqb var "LP")];
    intros [= <-]; apply (bool_decide_unpack _); vm_compute; exact I.
Defined.

Lemma union_indexes_In (sort : bool) (indexes : list (list string)) (x : string) :
  In x (union_indexes sort indexes) -> exists i, In i indexes /\ In x i.
Proof.
  destruct indexes as [|i0 rest]; [intros []|].
  unfold union_indexes. destruct (forallb (list_eqb i0) rest).
  - intros H. exists i0. split; [now left|exact H].
  - destruct sort; intros H.
    + apply (proj1 (sorted_unique_In _ _)) in H.
      apply in_concat in H as (i & Hi & Hx). eauto.
    + unfold unique in H. apply (proj1 (unique_from_In _ _ _)) in H as [H _].
      apply in_concat in H as (i & Hi & Hx). eauto.
Qed.

Lemma frame_of_dict_index_In (d : dict Series) (x : string) :
  In x (t_index (frame_of_dict d)) -> exists k s, In (k, s) d /\ In x (map fst s).
Proof.
  unfold frame_of_dict. cbn [t_index]. intros H.
  apply union_indexes_In in H as (i & Hi & Hx).
  apply in_map_iff in Hi as ([k s] & <- & Hin). eauto.
Qed.

Lemma set_multi_index_index (current_year : Z) (t : Table string)
    (indexed : Table (string * string)) :
  set_multi_index current_year t = Ok indexed -> t_index indexed = t_index t.
Proof.
  unfold set_multi_index. destruct (length _ =? length _)%nat; [|discriminate].
  now intros [= <-].
Qed.

Lemma concat_frames_index (frames : list (Table string)) :
  t_index (concat_frames frames) = union_indexes false (map t_index frames).
Proof. reflexivity. Qed.

Lemma build_dff_t_index (current_year : Z) (st : collected)
    (dff : Table (string * string)) :
  build_dff current_year st = Ok dff ->
  t_index dff
  = union_indexes false
      [t_index (frame_of_dict (clean (current_year_data st)));
       t_index (frame_of_dict (clean (median_10yr_data st)));
       t_index (frame_of_dict (clean (data_2019 st)))].
Proof.
  intros Hb. apply build_dff_inv, set_multi_index_index in Hb.
  rewrite Hb. reflexivity.
Qed.

Lemma build_dff_index (current_year : Z) (st : collected)
    (dff : Table (string * string)) (x : string) :
  build_dff current_year st = Ok dff ->
  In x (t_index dff) ->
  exists d k s,
    In d [current_year_data st; median_10yr_data st; data_2019 st]
    /\ In (k, s) (clean d) /\ In x (map fst s).
Proof.
  intros Hb Hx. apply build_dff_inv, set_multi_index_index in Hb.
  rewrite Hb, concat_frames_index in Hx.
  apply union_indexes_In in Hx as (i & Hi & Hx).
  cbn [map add_suffix rename_columns t_index] in Hi.
  destruct Hi as [<-|[<-|[<-|[]]]];
    apply frame_of_dict_index_In in Hx as (k & s & Hin & Hx);
    eexists _, k, s; (split; [|split; [exact Hin|exact Hx]]); simpl; auto.
Qed.

Lemma collect_var_codes (getc : string -> result DataFrame)
    (countries : list string) (current_year : Z) (var : string)
    (cur med y19 : Series) (s : Series) (c : string) :
  collect_var getc countries current_year var = Ok (cur, med, y19) ->
  In s [cur; med; y19] ->
  In c (map fst s) -> In c (embi_countries countries).
Proof.
  intros H Hs Hc.
  apply collect_var_inv in H
    as (full & sd & used & w & Hfull & Hsel & Hcur & Hwin & -> & ->).
  apply getitem_columns_inv in Hsel as (_ & Hlab & _).
  apply get_year_data_inv in Hcur as (pos & _ & ->).
  apply loc_period_slice_inv in Hwin as (start & stop & _ & _ & ->).
  destruct Hs as [<-|[<-|[<-|[]]]].
  - rewrite <- list_elem_of_In, sort_values_labels, list_elem_of_In in Hc.
    rewrite row_at_codes in Hc. now apply Hlab.
  - rewrite <- list_elem_of_In, sort_values_labels, list_elem_of_In in Hc.
    rewrite median_codes in Hc. cbn [df_columns] in Hc.
    rewrite map_map in Hc. now apply Hlab.
  - unfold values_2019_of in Hc.
    destruct (get_year_data sd 2019) as [[v u]|e] eqn:E19.
    + apply get_year_data_inv in E19 as (p & _ & ->).
      rewrite <- list_elem_of_In, sort_values_labels, list_elem_of_In in Hc.
      rewrite row_at_codes in Hc. now apply Hlab.
    + rewrite <- list_elem_of_In, sort_values_labels, list_elem_of_In in Hc.
      now rewrite nan_series_codes in Hc.
Qed.

Lemma str_index_In (x : string) (l : list string) (i : nat) :
  str_index x l = Some i -> In x l.
Proof.
  revert i. induction l as [|y l IH]; intros i; simpl; [discriminate|].
  destruct (String.eqb_spec y x) as [->|Hne]; [now left|].
  destruct (str_index x l) as [j|]; [|discriminate]. intros _. right. eauto.
Qed.

(** X14: every country of the data block is a code resolved from a name of
    the holdings list: a country of the dataset that the fund does not hold
    never gets a record. *)
Theorem data_block_countries (getc : string -> result DataFrame)
    (countries : list string) (current_year : Z)
    (js : dict (dict (dict (option Q)))) (code : string) :
  run getc countries current_year = Ok js ->
  In code (keys js) ->
  In code (embi_countries countries)
  /\ exists name, In name countries /\ country_mapping !! name = Some code.
Proof.
  intros Hrun Hcode.
  assert (Hin : In code (embi_countries countries)).
  { unfold keys in Hcode. apply in_map_iff in Hcode as ([c rec] & <- & Hrec).
    cbn [fst].
    destruct (run_record _ _ _ _ _ _ Hrun Hrec) as (dff & t & Hb & Hg & _).
    assert (Hidx : In c (t_index dff)).
    { unfold get_country_df, loc_row in Hg.
      destruct (str_index c (t_index dff)) as [i|] eqn:Ei;
        [|discriminate Hg].
      eapply str_index_In, Ei. }
    destruct (build_dff_index _ _ _ _ Hb Hidx) as (d & k & s & Hd & Hks & Hc).
    destruct (collect_all_invariant getc countries current_year) as (H1 & H2 & H3).
    apply clean_In in Hks.
    destruct Hd as [<-|[<-|[<-|[]]]];
      [apply H1 in Hks as [_ Hs]; unfold stored_current in Hs
      |apply H2 in Hks as [_ Hs]; unfold stored_median in Hs
      |apply H3 in Hks as [_ Hs]; unfold stored_2019 in Hs];
      destruct (collect_var getc countries current_year k) as [[[cu me] y]|] eqn:Ek;
      try discriminate Hs; injection Hs as ->;
      eapply (collect_var_codes _ _ _ _ _ _ _ _ _ Ek); try exact Hc;
      simpl; auto. }
  split; [exact Hin|].
  rewrite embi_countries_omap, <- list_elem_of_In, list_elem_of_omap in Hin.
  destruct Hin as (name & Hn & E). exists name.
  split; [now apply list_elem_of_In|exact E].
Qed.

Lemma data_block_countries_witness :
  In "BRA" (embi_countries demo_countries)
  /\ exists name, In name demo_countries /\ country_mapping !! name = Some "BRA".
Proof.
  refine (data_block_countries demo_getc demo_countries 2025
            (match run demo_getc demo_countries 2025 with
             | Ok js => js
             | Err _ => []
             end) "BRA" _ _).
  - vm_compute. reflexivity.
  - vm_compute. auto.
Defined.

(** ** The country projection [get_country_df] *)

Lemma str_index_lookup (x : string) (l : list string) :
  In x l -> exists i, str_index x l = Some i /\ l !! i = Some x.
Proof.
  induction l as [|y l IH]; simpl; [tauto|]. intros H.
  destruct (String.eqb_spec y x) as [->|Hne].
  - exists 0%nat. split; reflexivity.
  - destruct H as [H|H]; [contradiction|].
    destruct (IH H) as (i & Hi & Hl). exists (S i). rewrite Hi.
    split; [reflexivity|exact Hl].
Qed.

Lemma nth_map_lookup {A : Type} (F : A -> cell) (l : list A) (i : nat) (x : A) :
  l !! i = Some x -> nth i (map F l) NaN = F x.
Proof.
  revert i. induction l as [|y l IH]; intros [|i]; simpl; try discriminate.
  - now intros [= ->].
  - apply IH.
Qed.

Lemma cell_at_map (F : string -> cell) (l : list string) (x : string) :
  In x l -> cell_at l (map F l) x = F x.
Proof.
  intros H. unfold cell_at. destruct (str_index_lookup x l H) as (i & -> & Hl).
  now apply nth_map_lookup.
Qed.

Lemma find_app_first {A : Type} (f : A -> bool) (l1 l2 : list A) :
  List.find f (l1 ++ l2)
  = match List.find f l1 with
    | Some x => Some x
    | None => List.find f l2
    end.
Proof.
  induction l1 as [|x l1 IH]; [reflexivity|]. simpl.
  destruct (f x); [reflexivity|exact IH].
Qed.

Lemma find_filter_same {A : Type} (f : A -> bool) (l : list A) :
  List.find f (List.filter f l) = List.find f l.
Proof.
  induction l as [|x l IH]; [reflexivity|]. simpl.
  destruct (f x) eqn:E; simpl; [now rewrite E|exact IH].
Qed.

Lemma find_filter_other (col label : string) (cols : list (string * list cell)) :
  label <> col ->
  List.find (fun c => String.eqb (fst c) col)
            (List.filter (fun c => String.eqb (fst c) label) cols) = None.
Proof.
  intros Hne. induction cols as [|c cols IH]; [reflexivity|]. simpl.
  destruct (String.eqb_spec (fst c) label) as [E|_]; [|exact IH].
  simpl. destruct (String.eqb_spec (fst c) col) as [E'|_]; [congruence|exact IH].
Qed.

Lemma find_label_flat_map (col : string) (labels : list string)
    (cols : list (string * list cell)) :
  List.find (fun c => String.eqb (fst c) col)
            (flat_map (fun label =>
                         List.filter (fun c => String.eqb (fst c) label) cols)
                      labels)
  = if str_in col labels
    then List.find (fun c => String.eqb (fst c) col) cols
    else None.
Proof.
  induction labels as [|label labels IH]; [reflexivity|].
  cbn [flat_map]. rewrite find_app_first, IH. unfold str_in. cbn [existsb].
  fold (str_in col labels).
  destruct (String.eqb_spec col label) as [->|Hne].
  - rewrite find_filter_same. cbn [orb].
    destruct (List.find _ cols); [reflexivity|]. now destruct (str_in label labels).
  - rewrite find_filter_other by congruence. reflexivity.
Qed.

Lemma find_label_map (G : list cell -> list cell) (col : string)
    (cols : list (string * list cell)) :
  List.find (fun c => String.eqb (fst c) col)
            (map (fun c => (fst c, G (snd c))) cols)
  = option_map (fun c => (fst c, G (snd c)))
               (List.find (fun c => String.eqb (fst c) col) cols).
Proof.
  induction cols as [|c cols IH]; [reflexivity|]. simpl.
  destruct (String.eqb (fst c) col); [reflexivity|exact IH].
Qed.

Lemma find_label_periods (h : string -> list cell) (periods : list string)
    (col : string) :
  In col periods ->
  List.find (fun c => String.eqb (fst c) col) (map (fun p => (p, h p)) periods)
  = Some (col, h col).
Proof.
  induction periods as [|p periods IH]; simpl; [tauto|]. intros H.
  destruct (String.eqb_spec p col) as [->|Hne]; [reflexivity|].
  destruct H as [H|H]; [contradiction|]. now apply IH.
Qed.

Lemma sorted_unique_NoDup (l : list string) : NoDup (sorted_unique l).
Proof.
  unfold sorted_unique. rewrite merge_sort_Permutation. apply unique_from_NoDup.
Qed.

Lemma loc_scalar_reindex (dfz : Table string) (labels : list string)
    (ind col : string) :
  In ind labels -> loc_scalar (reindex dfz labels) ind col = loc_scalar dfz ind col.
Proof.
  intros H. unfold loc_scalar, reindex. cbn [t_columns t_index].
  rewrite (find_label_map (fun data => map (cell_at (t_index dfz) data) labels)).
  destruct (List.find _ (t_columns dfz)) as [c|]; [|reflexivity].
  cbn [option_map snd]. now rewrite cell_at_map.
Qed.

Lemma getitem_table_inv (t : Table string) (labels : list string) (dfz : Table string) :
  getitem_table t labels = Ok dfz ->
  t_index dfz = t_index t
  /\ (forall label, In label labels -> In label (map fst (t_columns t)))
  /\ t_columns dfz
     = flat_map (fun label =>
                   List.filter (fun c => String.eqb (fst c) label) (t_columns t))
                labels.
Proof.
  unfold getitem_table. destruct (forallb _ labels) eqn:E; [|discriminate].
  intros [= <-]. cbn [t_index t_columns]. split; [reflexivity|].
  split; [|reflexivity]. intros label Hl. rewrite forallb_forall in E.
  apply str_in_In, E, Hl.
Qed.

Lemma loc_scalar_getitem (t : Table string) (labels : list string)
    (dfz : Table string) (ind col : string) :
  getitem_table t labels = Ok dfz ->
  In col labels ->
  loc_scalar dfz ind col = loc_scalar t ind col.
Proof.
  intros H Hcol. apply getitem_table_inv in H as (Hi & _ & Hc).
  unfold loc_scalar. rewrite Hc, Hi, find_label_flat_map.
  replace (str_in col labels) with true by (symmetry; now apply str_in_In).
  reflexivity.
Qed.

Lemma round_half_even_spec (x : Q) :
  (Qabs (x - inject_Z (round_half_even x)) <= 1 # 2)%Q
  /\ ((Qabs (x - inject_Z (round_half_even x)) == 1 # 2)%Q ->
      Z.even (round_half_even x) = true).
Proof.
  unfold round_half_even.
  pose proof (Qfloor_le x) as Hf1. pose proof (Qlt_floor x) as Hf2.
  rewrite inject_Z_plus in Hf2. change (inject_Z 1) with 1%Q in Hf2.
  destruct (Qcompare_spec (x - inject_Z (Qfloor x)) (1 # 2)) as [Heq|Hlt|Hgt].
  - destruct (Z.even (Qfloor x)) eqn:Ev.
    + split; [|intros _; exact Ev]. apply Qabs_case; intros; lra.
    + split.
      * rewrite inject_Z_plus. change (inject_Z 1) with 1%Q.
        apply Qabs_case; intros; lra.
      * intros _. rewrite Z.add_1_r, Z.even_succ, <- Z.negb_even, Ev. reflexivity.
  - split; [apply Qabs_case; intros; lra|].
    intros H. exfalso. revert H. apply Qabs_case; intros; lra.
  - rewrite inject_Z_plus. change (inject_Z 1) with 1%Q.
    split; [apply Qabs_case; intros; lra|].
    intros H. exfalso. revert H. apply Qabs_case; intros; lra.
Qed.

(** [round_cell] rounds as the specification words it. *)
Lemma round_cell_spec (digits : nat) (x : cell) :
  spec_rounded digits x (round_cell digits x).
Proof.
  destruct x as [|q]; [reflexivity|]. cbn [spec_rounded round_cell].
  split; [reflexivity|]. intros _ _ _.
  exists (round_half_even (fl (q * inject_Z (10 ^ Z.of_nat digits)))).
  split; [reflexivity|]. apply round_half_even_spec.
Qed.

(** The floats 0.15, 0.35 and 2.15 lie below the decimals they print as,
    but their products with ten round to 1.5, 3.5 and 21.5: they round to
    0.2, 0.4 and 2.2, and the exact 0.25 to 0.2. *)
Example round_cell_floats :
  fl (1 # 10) = 3602879701896397 # 36028797018963968
  /\ round_cell 1 (Num (fl (15 # 100))) = Num (fl (2 # 10))
  /\ round_cell 1 (Num (fl (35 # 100))) = Num (fl (4 # 10))
  /\ round_cell 1 (Num (fl (215 # 100))) = Num (fl (22 # 10))
  /\ round_cell 1 (Num (25 # 100)) = Num (fl (2 # 10))
  /\ round_cell 1 NaN = NaN.
Proof. vm_compute. repeat split. Qed.

Lemma round_cell_nth (digits : nat) (data : list cell) (i : nat) :
  nth i (map (round_cell digits) data) NaN = round_cell digits (nth i data NaN).
Proof. apply (map_nth (round_cell digits) data NaN i). Qed.

Lemma loc_scalar_round (digits : nat) (t : Table string) (ind col : string) :
  loc_scalar (round_table digits t) ind col
  = round_cell digits (loc_scalar t ind col).
Proof.
  unfold loc_scalar, round_table. cbn [t_columns t_index].
  rewrite (find_label_map (map (round_cell digits))).
  destruct (List.find _ (t_columns t)) as [c|]; [|reflexivity].
  cbn [option_map snd]. unfold cell_at.
  destruct (str_index ind (t_index t)); [apply round_cell_nth|reflexivity].
Qed.

Lemma unstack_inv (row : list ((string * string) * cell)) (wide : Table string) :
  unstack row = Ok wide ->
  NoDup (map fst row)
  /\ t_index wide = sorted_unique (map (fun kv => fst (fst kv)) row)
  /\ map fst (t_columns wide) = sorted_unique (map (fun kv => snd (fst kv)) row)
  /\ forall ind col,
       In ind (t_index wide) ->
       In col (map fst (t_columns wide)) ->
       loc_scalar wide ind col = row_get row (ind, col).
Proof.
  unfold unstack. destruct (has_duplicates (map fst row)) eqn:Ed; [discriminate|].
  intros [= <-]. cbn [t_index t_columns].
  assert (Hcols : forall (h : string -> list cell) (l : list string),
             map fst (map (fun p => (p, h p)) l) = l).
  { intros h l. rewrite map_map. cbn [fst]. apply map_id. }
  split; [|split; [reflexivity|split; [apply Hcols|]]].
  - induction (map fst row) as [|k ks IH]; [constructor|].
    simpl in Ed. apply orb_false_elim in Ed as [Ek Eks].
    apply NoDup_cons. split; [|now apply IH].
    rewrite list_elem_of_In. intros Hin.
    assert (Hex : existsb (tuple_eqb k) ks = true).
    { apply existsb_exists. exists k. split; [exact Hin|].
      unfold tuple_eqb. now rewrite !String.eqb_refl. }
    congruence.
  - intros ind col Hind Hcol. rewrite Hcols in Hcol.
    unfold loc_scalar. cbn [t_columns t_index].
    rewrite (find_label_periods
               (fun p => map (fun i => row_get row (i, p))
                             (sorted_unique (map (fun kv => fst (fst kv)) row)))
               _ col Hcol).
    cbn [snd]. now rewrite (cell_at_map (fun i => row_get row (i, col))).
Qed.

Lemma loc_row_level0 (dff : Table (string * string)) (country_code : string)
    (row : list ((string * string) * cell)) :
  loc_row dff country_code = Ok row ->
  map (fun kv => fst (fst kv)) row = level0 dff
  /\ map (fun kv => snd (fst kv)) row = level1 dff.
Proof.
  unfold loc_row.
  destruct (str_index country_code (t_index dff)); [|discriminate].
  destruct (_ =? _)%nat; [|discriminate]. intros [= <-].
  unfold level0, level1. rewrite !map_map. split; reflexivity.
Qed.

Lemma get_country_df_stages (dff : Table (string * string)) (country_code : string)
    (round_digits : nat) (sort_order : list string) (t : Table string) :
  get_country_df dff country_code round_digits (Some sort_order) = Ok t ->
  exists row wide dfz,
    loc_row dff country_code = Ok row
    /\ unstack row = Ok wide
    /\ getitem_table (round_table round_digits wide)
                     ["2025"; "2019"; "10yr_Median"] = Ok dfz
    /\ t = reindex dfz
             (List.filter (fun ind => str_in ind (t_index dfz)) sort_order
              ++ List.filter (fun ind => negb (str_in ind sort_order)) (t_index dfz)).
Proof.
  unfold get_country_df.
  destruct (loc_row dff country_code) as [row|];
    cbn [mbind result_bind]; [|discriminate].
  destruct (unstack row) as [wide|] eqn:Ew;
    cbn [mbind result_bind]; [|discriminate].
  destruct (getitem_table _ _) as [dfz|] eqn:Eg;
    cbn [mbind result_bind]; [|discriminate].
  intros [= <-]. exists row, wide, dfz.
  split; [reflexivity|]. split; [exact Ew|]. split; [exact Eg|reflexivity].
Qed.

(** The shape of a country table: the rows are the indicators of the merged
    table, those of [sort_order] first and in its order; a cell is the merged
    table's value for the country, rounded. *)
Lemma get_country_df_values (dff : Table (string * string)) (country_code : string)
    (round_digits : nat) (sort_order : list string) (t : Table string) :
  get_country_df dff country_code round_digits (Some sort_order) = Ok t ->
  exists row,
    loc_row dff country_code = Ok row
    /\ NoDup (map fst row)
    /\ t_index t
       = List.filter (fun ind => str_in ind (sorted_unique (level0 dff))) sort_order
         ++ List.filter (fun ind => negb (str_in ind sort_order))
                        (sorted_unique (level0 dff))
    /\ forall ind col,
         In ind (t_index t) ->
         In col ["2025"; "2019"; "10yr_Median"] ->
         loc_scalar t ind col = round_cell round_digits (row_get row (ind, col)).
Proof.
  intros H.
  destruct (get_country_df_stages _ _ _ _ _ H) as (row & wide & dfz & Hr & Hw & Hg & ->).
  destruct (loc_row_level0 _ _ _ Hr) as [H0 _].
  destruct (unstack_inv _ _ Hw) as (Hnd & Hwi & Hwc & Hval).
  destruct (getitem_table_inv _ _ _ Hg) as (Hzi & Hlab & _).
  cbn [round_table t_index t_columns] in Hzi, Hlab.
  rewrite map_map in Hlab. cbn [fst] in Hlab.
  rewrite H0 in Hwi. rewrite Hwi in Hzi.
  exists row. split; [exact Hr|]. split; [exact Hnd|].
  cbn [reindex t_index]. rewrite Hzi. split; [reflexivity|].
  intros ind col Hind Hcol.
  assert (Hi : In ind (sorted_unique (level0 dff))).
  { apply in_app_or in Hind as [Hind|Hind];
      apply filter_In in Hind as [H1 H2];
      [now apply (proj1 (str_in_In _ _)) in H2|exact H1]. }
  rewrite <- Hzi, loc_scalar_reindex by (rewrite Hzi; exact Hind).
  rewrite (loc_scalar_getitem _ _ _ _ _ Hg Hcol), loc_scalar_round.
  rewrite Hval; [reflexivity|now rewrite Hwi|now apply Hlab].
Qed.

(** X15: the table [get_country_df] returns for a country has the three
    columns '2025', '2019' and '10yr_Median' in this order; its rows are the
    indicators of the merged table, those named in [sort_order] first and in
    its order, the others after them in alphabetical order; and each cell is
    the value the merged table holds for the country under (indicator,
    period), rounded to [round_digits] decimals as numpy rounds a float64
    ([spec_rounded]): a missing value stays missing, a number stays a number,
    and a float whose product with [10^round_digits] stays in the range of
    binary64 becomes the float of [n / 10^round_digits] for the integer [n]
    nearest to the float of that product, halves to even. *)
Theorem get_country_df_table (dff : Table (string * string)) (country_code : string)
    (round_digits : nat) (sort_order : list string) (t : Table string) :
  get_country_df dff country_code round_digits (Some sort_order) = Ok t ->
  map fst (t_columns t) = ["2025"; "2019"; "10yr_Median"]
  /\ t_index t
     = List.filter (fun ind => str_in ind (sorted_unique (level0 dff))) sort_order
       ++ List.filter (fun ind => negb (str_in ind sort_order))
                      (sorted_unique (level0 dff))
  /\ exists row,
       loc_row dff country_code = Ok row
       /\ forall ind col,
            In ind (t_index t) ->
            In col ["2025"; "2019"; "10yr_Median"] ->
            spec_rounded round_digits (row_get row (ind, col))
                         (loc_scalar t ind col).
Proof.
  intros H.
  destruct (get_country_df_values _ _ _ _ _ H) as (row & Hrow & _ & Hidx & Hval).
  split; [|split; [exact Hidx|exists row; split; [exact Hrow|]]];
    [|intros ind col Hind Hcol; rewrite (Hval ind col Hind Hcol);
      apply round_cell_spec].
  destruct (get_country_df_stages _ _ _ _ _ H) as (r & wide & dfz & _ & Hw & Hg & ->).
  destruct (unstack_inv _ _ Hw) as (_ & _ & Hwc & _).
  destruct (getitem_table_inv _ _ _ Hg) as (_ & Hlab & Hcols).
  cbn [reindex t_columns]. rewrite map_map. cbn [fst].
  change (map (fun x : string * list cell => fst x) (t_columns dfz))
    with (map fst (t_columns dfz)).
  rewrite Hcols. cbn [flat_map].
  rewrite !map_app, !filter_label_unique; try reflexivity;
    try (apply Hlab; simpl; auto);
    cbn [round_table t_columns]; rewrite map_map; cbn [fst];
    change (map (fun x : string * list cell => fst x) (t_columns wide))
      with (map fst (t_columns wide));
    rewrite Hwc; apply sorted_unique_NoDup.
Qed.

Lemma get_country_df_table_witness :
  map fst (t_columns demo_country_table) = ["2025"; "2019"; "10yr_Median"]
  /\ t_index demo_country_table
     = List.filter (fun ind => str_in ind (sorted_unique (level0 demo_dff)))
                   logical_order
       ++ List.filter (fun ind => negb (str_in ind logical_order))
                      (sorted_unique (level0 demo_dff))
  /\ exists row,
       loc_row demo_dff "BRA" = Ok row
       /\ forall ind col,
            In ind (t_index demo_country_table) ->
            In col ["2025"; "2019"; "10yr_Median"] ->
            spec_rounded 1 (row_get row (ind, col))
                         (loc_scalar demo_country_table ind col).
Proof.
  apply (get_country_df_table demo_dff "BRA" 1 logical_order demo_country_table).
  vm_compute. reflexivity.
Defined.

Example demo_country_table_value :
  t_index demo_country_table = ["GDP (US Dollars)"; "Population"]
  /\ loc_scalar demo_country_table "Population" "10yr_Median"
     = Num (fl (89 # 10)).
Proof. vm_compute. split; reflexivity. Qed.

(** ** From the collected series to the numbers of the data block *)

Lemma str_index_Some_lookup (x : string) (l : list string) (i : nat) :
  str_index x l = Some i -> l !! i = Some x.
Proof.
  revert i. induction l as [|y l IH]; intros i; simpl; [discriminate|].
  destruct (String.eqb_spec y x) as [->|Hne].
  - now intros [= <-].
  - destruct (str_index x l) as [j|]; [|discriminate].
    intros [= <-]. simpl. now apply IH.
Qed.



Lemma union_indexes_covers (sort : bool) (indexes : list (list string))
    (i : list string) (x : string) :
  In i indexes -> In x i -> In x (union_indexes sort indexes).
Proof.
  destruct indexes as [|i0 rest]; [intros []|]. intros Hi Hx.
  unfold union_indexes. destruct (forallb (list_eqb i0) rest) eqn:E.
  - destruct Hi as [<-|Hi]; [exact Hx|].
    rewrite forallb_forall in E. specialize (E i Hi).
    unfold list_eqb in E. apply bool_decide_eq_true_1 in E. now subst.
  - assert (Hc : In x (concat (i0 :: rest))).
    { apply in_concat. exists i. split; assumption. }
    destruct sort; [now apply sorted_unique_In|].
    unfold unique. apply unique_from_In. split; [exact Hc|intros []].
Qed.


Lemma suffixed_frame_column (d : dict Series) (suffix k : string) (s : Series) :
  In (k, s) d ->
  In ((display k ++ suffix)%string,
      map (series_get s) (t_index (frame_of_dict d)))
     (t_columns (add_suffix suffix (rename_columns var_dict (frame_of_dict d)))).
Proof.
  intros Hin. unfold add_suffix, rename_columns, frame_of_dict.
  cbn [t_columns t_index]. rewrite !map_map. cbn [fst snd].
  apply in_map_iff. exists (k, s). split; [reflexivity|exact Hin].
Qed.

Lemma concat_frames_column (frames : list (Table string)) (f : Table string)
    (c : string * list cell) :
  In f frames ->
  In c (t_columns f) ->
  In (fst c, map (cell_at (t_index f) (snd c)) (t_index (concat_frames frames)))
     (t_columns (concat_frames frames)).
Proof.
  intros Hf Hc. unfold concat_frames. cbn [t_columns t_index].
  apply in_flat_map. exists f. split; [exact Hf|].
  apply in_map_iff. exists c. split; [reflexivity|exact Hc].
Qed.

Lemma combine_tuples_In (current_year : Z) (cols : list (string * list cell))
    (c : string * list cell) (key : string * string) :
  (forall c', In c' cols -> exists tup, column_tuple current_year (fst c') = [tup]) ->
  In c cols ->
  column_tuple current_year (fst c) = [key] ->
  In (key, snd c)
     (combine (columns_tuples current_year (map fst cols)) (map snd cols)).
Proof.
  unfold columns_tuples.
  induction cols as [|c0 cols IH]; intros Hall Hin Hkey; [destruct Hin|].
  cbn [map flat_map].
  destruct (Hall c0 (or_introl eq_refl)) as [tup Htup]. rewrite Htup.
  cbn [app combine]. destruct Hin as [->|Hin].
  - left. rewrite Hkey in Htup. now injection Htup as <-.
  - right. apply IH; [|exact Hin|exact Hkey].
    intros c' Hc'. apply Hall. now right.
Qed.


Lemma loc_row_inv (dff : Table (string * string)) (country_code : string)
    (row : list ((string * string) * cell)) :
  loc_row dff country_code = Ok row ->
  exists i,
    t_index dff !! i = Some country_code
    /\ row = map (fun c => (fst c, nth i (snd c) NaN)) (t_columns dff).
Proof.
  unfold loc_row.
  destruct (str_index country_code (t_index dff)) as [i|] eqn:Ei; [|discriminate].
  destruct (_ =? _)%nat; [|discriminate]. intros [= <-].
  exists i. split; [now apply str_index_Some_lookup|reflexivity].
Qed.

(** Each series that [clean] keeps is a column of the merged table, under
    its (indicator, period) pair and aligned to the table's rows. *)
Lemma build_dff_column (current_year : Z) (st : collected)
    (dff : Table (string * string)) (d : dict (option Series))
    (suffix period k : string) (s : Series) :
  build_dff current_year st = Ok dff ->
  In (d, suffix) [(current_year_data st, ("_" ++ py_str current_year)%string);
                  (median_10yr_data st, "_10yr_Median");
                  (data_2019 st, "_2019")] ->
  In (k, s) (clean d) ->
  column_tuple current_year (display k ++ suffix) = [(display k, period)] ->
  In ((display k, period),
      map (cell_at (t_index (frame_of_dict (clean d)))
                   (map (series_get s) (t_index (frame_of_dict (clean d)))))
          (t_index dff))
     (t_columns dff).
Proof.
  intros Hb Hd Hks Htup.
  apply build_dff_inv in Hb.
  set (f1 := add_suffix ("_" ++ py_str current_year)
               (rename_columns var_dict
                  (frame_of_dict (clean (current_year_data st))))) in Hb.
  set (f2 := add_suffix "_10yr_Median"
               (rename_columns var_dict
                  (frame_of_dict (clean (median_10yr_data st))))) in Hb.
  set (f3 := add_suffix "_2019"
               (rename_columns var_dict
                  (frame_of_dict (clean (data_2019 st))))) in Hb.
  set (f := add_suffix suffix (rename_columns var_dict (frame_of_dict (clean d)))).
  assert (Hf : In f [f1; f2; f3]).
  { destruct Hd as [[= <- <-]|[[= <- <-]|[[= <- <-]|[]]]]; simpl; auto. }
  assert (Hall : forall c', In c' (t_columns (concat_frames [f1; f2; f3])) ->
                            exists tup, column_tuple current_year (fst c') = [tup]).
  { intros c' Hc'. apply (in_map fst) in Hc'.
    rewrite concat_columns_labels in Hc'. cbn [flat_map] in Hc'.
    unfold f1, f2, f3 in Hc'. rewrite !suffixed_labels, app_nil_r in Hc'.
    apply in_app_or in Hc' as [Hc'|Hc'];
      [|apply in_app_or in Hc' as [Hc'|Hc']];
      apply in_map_iff in Hc' as (k' & <- & _);
      apply column_tuple_one; simpl; auto. }
  pose proof (concat_frames_column [f1; f2; f3] f _ Hf
                (suffixed_frame_column (clean d) suffix k s Hks)) as Hcol.
  cbn [fst snd] in Hcol.
  pose proof (combine_tuples_In current_year _ _ (display k, period) Hall Hcol Htup)
    as Hcomb.
  cbn [snd] in Hcomb.
  rewrite (set_multi_index_index _ _ _ Hb).
  unfold set_multi_index in Hb.
  destruct (length _ =? length _)%nat; [|discriminate Hb].
  injection Hb as Hb. rewrite <- Hb. cbn [t_columns].
  apply list_elem_of_In. rewrite merge_sort_Permutation.
  apply list_elem_of_In. exact Hcomb.
Qed.


Lemma stored_views (getc : string -> result DataFrame) (countries : list string)
    (current_year : Z) (k : string) (cur med y19 : Series) :
  In k (keys var_dict) ->
  collect_var getc countries current_year k = Ok (cur, med, y19) ->
  let st := collect_all getc countries current_year in
  In (k, cur) (clean (current_year_data st))
  /\ In (k, med) (clean (median_10yr_data st))
  /\ In (k, y19) (clean (data_2019 st)).
Proof.
  intros Hk Hc st.
  destruct (collect_all_entries getc countries current_year) as (E1 & E2 & E3).
  fold st in E1, E2, E3. rewrite E1, E2, E3.
  split; [|split]; apply clean_In, in_map_iff; exists k;
    (split; [|exact Hk]);
    unfold stored_current, stored_median, stored_2019; now rewrite Hc.
Qed.

Lemma clean_keys_collected (getc : string -> result DataFrame)
    (countries : list string) (current_year : Z) (d : dict (option Series))
    (k : string) :
  let st := collect_all getc countries current_year in
  In d [current_year_data st; median_10yr_data st; data_2019 st] ->
  In k (keys (clean d)) ->
  In k (keys var_dict)
  /\ exists cur med y19,
       collect_var getc countries current_year k = Ok (cur, med, y19).
Proof.
  intros st Hd Hk. unfold keys in Hk.
  apply in_map_iff in Hk as ([k' v] & <- & Hin). cbn [fst].
  apply clean_In in Hin.
  destruct (collect_all_invariant getc countries current_year) as (H1 & H2 & H3).
  fold st in H1, H2, H3.
  destruct Hd as [<-|[<-|[<-|[]]]];
    [apply H1 in Hin as [Hk Hs]; unfold stored_current in Hs
    |apply H2 in Hin as [Hk Hs]; unfold stored_median in Hs
    |apply H3 in Hin as [Hk Hs]; unfold stored_2019 in Hs];
    (split; [exact Hk|]);
    destruct (collect_var getc countries current_year k') as [[[c m] y]|];
    try discriminate Hs; eauto.
Qed.



Example demo_entry_value :
  demo_entry = [("2025", Some (fl (8 # 10))); ("2019", Some (25 # 2));
                ("10yr_Median", Some (fl (89 # 10)))].
Proof. vm_compute. reflexivity. Qed.

(** ** The indicators of a record *)

Lemma fold_dict_set_appends {V : Type} (f : string -> V) (l : list string)
    (acc : dict V) :
  NoDup l ->
  (forall x, In x l -> ~ In x (keys acc)) ->
  fold_left (fun acc x => dict_set x (f x) acc) l acc
  = acc ++ map (fun x => (x, f x)) l.
Proof.
  revert acc. induction l as [|x l IH]; intros acc Hnd Hfresh.
  - simpl. now rewrite app_nil_r.
  - apply NoDup_cons in Hnd as [Hx Hnd]. rewrite list_elem_of_In in Hx.
    cbn [fold_left map]. rewrite IH.
    + rewrite dict_set_fresh by (apply Hfresh; now left).
      now rewrite <- app_assoc.
    + exact Hnd.
    + intros y Hy. rewrite dict_set_fresh by (apply Hfresh; now left).
      unfold keys. rewrite map_app, in_app_iff. simpl.
      intros [H|[H|[]]]; [exact (Hfresh y (or_intror Hy) H)|].
      subst y. contradiction.
Qed.

Lemma country_record_keys (df : Table string) :
  NoDup (t_index df) -> keys (country_record df) = t_index df.
Proof.
  intros Hnd. unfold country_record.
  rewrite (fold_dict_set_appends (indicator_record df)) by (auto; intros x _ []).
  unfold keys. simpl. rewrite map_map. cbn [fst]. apply map_id.
Qed.

Lemma str_in_ext (x : string) (l1 l2 : list string) :
  (In x l1 <-> In x l2) -> str_in x l1 = str_in x l2.
Proof.
  intros H. destruct (str_in x l1) eqn:E1, (str_in x l2) eqn:E2; try reflexivity.
  - apply str_in_In, H, str_in_In in E1. congruence.
  - apply str_in_In, H, str_in_In in E2. congruence.
Qed.

Lemma filter_none {A : Type} (f : A -> bool) (l : list A) :
  (forall x, In x l -> f x = false) -> List.filter f l = [].
Proof.
  induction l as [|x l IH]; intros H; [reflexivity|]. simpl.
  rewrite (H x (or_introl eq_refl)). apply IH. intros y Hy. apply H. now right.
Qed.

Lemma display_in_logical_order :
  Forall (fun k => In (display k) logical_order) (keys var_dict).
Proof. apply (bool_decide_unpack _). vm_compute. exact I. Qed.

Lemma logical_order_NoDup : NoDup logical_order.
Proof. apply (bool_decide_unpack _). vm_compute. exact I. Qed.

(** In a 2025 run the indicators of the merged table are the display names
    of the collected variables. *)
Lemma build_dff_level0_collected (getc : string -> result DataFrame)
    (countries : list string) (dff : Table (string * string)) (ind : string) :
  build_dff 2025 (collect_all getc countries 2025) = Ok dff ->
  In ind (level0 dff)
  <-> exists k, In k (keys var_dict)
                /\ (exists views, collect_var getc countries 2025 k = Ok views)
                /\ ind = display k.
Proof.
  intros Hb. set (st := collect_all getc countries 2025) in *. split.
  - intros Hl0.
    assert (Hkeys : forall d,
               In d [current_year_data st; median_10yr_data st; data_2019 st] ->
               forall k, In k (keys (clean d)) -> In k (keys var_dict)).
    { intros d Hd k Hk. eapply clean_keys_collected; eassumption. }
    destruct (build_dff_level0_2025 st dff ind Hkeys Hb Hl0) as (d & k & Hd & Hk & ->).
    destruct (clean_keys_collected getc countries 2025 d k Hd Hk)
      as (Hvar & cur & med & y19 & Hc).
    exists k. split; [exact Hvar|]. split; [eauto|reflexivity].
  - intros (k & Hvar & [[[cur med] y19] Hc] & ->).
    destruct (stored_views getc countries 2025 k cur med y19 Hvar Hc) as (S1 & _).
    fold st in S1.
    pose proof column_tuple_2025 as Hcomp. rewrite List.Forall_forall in Hcomp.
    destruct (Hcomp k Hvar) as (T1 & _).
    pose proof (build_dff_column 2025 st dff (current_year_data st) "_2025" "2025"
                  k cur Hb (or_introl eq_refl) S1 T1) as Hcol.
    unfold level0. apply in_map_iff. eexists. split; [|exact Hcol]. reflexivity.
Qed.

(** X17: every record of the data block lists exactly the indicators whose
    variable was collected, each once and in the order of [logical_order],
    the same for every country. *)
Theorem record_indicators (getc : string -> result DataFrame)
    (countries : list string) (current_year : Z)
    (js : dict (dict (dict (option Q)))) (code : string)
    (rec : dict (dict (option Q))) :
  run getc countries current_year = Ok js ->
  In (code, rec) js ->
  keys rec
  = List.filter
      (fun ind =>
         str_in ind
           (map display
              (List.filter
                 (fun k => match collect_var getc countries current_year k with
                           | Ok _ => true
                           | Err _ => false
                           end) (keys var_dict))))
      logical_order.
Proof.
  intros Hrun Hrec.
  pose proof (run_record_2025 _ _ _ _ _ _ Hrun Hrec) as ->.
  destruct (run_record _ _ _ _ _ _ Hrun Hrec) as (dff & t & Hb & Hg & ->).
  destruct (get_country_df_values _ _ _ _ _ Hg) as (_ & _ & _ & Hidx & _).
  assert (Hl0 : forall ind,
             In ind (sorted_unique (level0 dff))
             <-> In ind (map display
                           (List.filter
                              (fun k => match collect_var getc countries 2025 k with
                                        | Ok _ => true
                                        | Err _ => false
                                        end) (keys var_dict)))).
  { intros ind. rewrite sorted_unique_In, (build_dff_level0_collected _ _ _ _ Hb).
    rewrite in_map_iff. split.
    - intros (k & Hk & [views Hc] & ->). exists k. split; [reflexivity|].
      apply filter_In. split; [exact Hk|]. now rewrite Hc.
    - intros (k & <- & Hk). apply filter_In in Hk as [Hk Hc]. exists k.
      split; [exact Hk|]. split; [|reflexivity].
      destruct (collect_var getc countries 2025 k) as [views|]; [eauto|discriminate]. }
  assert (Hrest : List.filter (fun ind => negb (str_in ind logical_order))
                              (sorted_unique (level0 dff)) = []).
  { apply filter_none. intros ind Hind. apply negb_false_iff, str_in_In.
    apply (proj1 (Hl0 ind)) in Hind. apply in_map_iff in Hind as (k & <- & Hk).
    apply filter_In in Hk as [Hk _].
    pose proof display_in_logical_order as Hd. rewrite List.Forall_forall in Hd.
    now apply Hd. }
  rewrite Hrest, app_nil_r in Hidx.
  rewrite country_record_keys.
  - rewrite Hidx. apply filter_ext. intros ind. apply str_in_ext, Hl0.
  - rewrite Hidx. apply NoDup_ListNoDup, List.NoDup_filter, NoDup_ListNoDup.
    exact logical_order_NoDup.
Qed.

Lemma record_indicators_witness :
  keys demo_record
  = List.filter
      (fun ind =>
         str_in ind
           (map display
              (List.filter
                 (fun k => match collect_var demo_getc demo_countries 2025 k with
                           | Ok _ => true
                           | Err _ => false
                           end) (keys var_dict))))
      logical_order.
Proof.
  apply (record_indicators demo_getc demo_countries 2025 demo_js "BRA" demo_record).
  - vm_compute. reflexivity.
  - vm_compute. auto.
Defined.

(** ** The 10-year median on the library's frames *)

Lemma median_10yr_on_period_index_witness :
  exists window,
    loc_period_slice demo_weo (2025 - 9) 2025 = Ok window
    /\ median window
       = spec_median_10yr [2015; 2016; 2017; 2018; 2019; 2020; 2021; 2022; 2023;
                           2024; 2025; 2026] (df_columns demo_weo) 2025
    /\ forall c col,
         In (c, col) (df_columns demo_weo) ->
         numbers (window_observations
                    [2015; 2016; 2017; 2018; 2019; 2020; 2021; 2022; 2023; 2024;
                     2025; 2026] col (2025 - 9) 2025) = [] ->
         In (c, NaN) (sort_values (median window)).
Proof.
  apply (median_10yr_on_period_index demo_weo
           [2015; 2016; 2017; 2018; 2019; 2020; 2021; 2022; 2023; 2024; 2025; 2026]
           2025); reflexivity.
Defined.

(** ** The download loop *)


(** A run in which the two 2025 releases are not yet published and the
    second 2024 release is served as an HTML page. *)
Example download_loop_demo :
  download_loop (fun release =>
                   if (fst release =? 2025)%Z then None
                   else if (snd release =? 2)%Z then Some "<HTML><Head>"
                   else Some "WEO Country Code,ISO,WEO Subject Code")
                download_attempts
  = Some (2024, 1).
Proof. vm_compute. reflexivity. Qed.

(** The tags are found in any letter case; a first line that holds only a
    doctype declaration shows none. *)
Example html_check_demo :
  is_html "<HTML><Head>" = true /\ is_html "<!DOCTYPE html>" = false.
Proof. vm_compute. split; reflexivity. Qed.

(** ** Every resolved country gets a record *)

Lemma collected_series_labels (getc : string -> result DataFrame)
    (countries : list string) (current_year : Z) (d : dict (option Series))
    (k : string) (s : Series) :
  (forall var full, getc var = Ok full -> NoDup (map fst (df_columns full))) ->
  let st := collect_all getc countries current_year in
  In d [current_year_data st; median_10yr_data st; data_2019 st] ->
  In (k, s) (clean d) ->
  Permutation (map fst s) (embi_countries countries).
Proof.
  intros Hg st Hd Hks. apply clean_In in Hks.
  destruct (collect_all_invariant getc countries current_year) as (H1 & H2 & H3).
  fold st in H1, H2, H3.
  destruct Hd as [<-|[<-|[<-|[]]]];
    [apply H1 in Hks as [_ Hs]; unfold stored_current in Hs
    |apply H2 in Hks as [_ Hs]; unfold stored_median in Hs
    |apply H3 in Hks as [_ Hs]; unfold stored_2019 in Hs];
    destruct (collect_var getc countries current_year k) as [[[c m] y]|] eqn:Ek;
    try discriminate Hs; injection Hs as ->;
    destruct (collect_var_labels _ _ _ _ _ _ _ (Hg k) Ek) as (P1 & P2 & P3);
    assumption.
Qed.

Lemma collect_all_clean_keys (getc : string -> result DataFrame)
    (countries : list string) (current_year : Z) (d : dict (option Series)) :
  let st := collect_all getc countries current_year in
  In d [current_year_data st; median_10yr_data st; data_2019 st] ->
  keys (clean d)
  = List.filter (fun k => match collect_var getc countries current_year k with
                          | Ok _ => true
                          | Err _ => false
                          end) (keys var_dict).
Proof.
  intros st Hd.
  destruct (collect_all_entries getc countries current_year) as (E1 & E2 & E3).
  fold st in E1, E2, E3.
  destruct Hd as [<-|[<-|[<-|[]]]]; [rewrite E1|rewrite E2|rewrite E3];
    apply clean_stored_keys; intros k;
    unfold stored_current, stored_median, stored_2019;
    destruct (collect_var getc countries current_year k) as [[[c m] y]|e];
    (split; [intros [x Hx]; try discriminate Hx; eauto
            |intros [x Hx]; try discriminate Hx; eauto]).
Qed.

Lemma count_label_absent (x : string) (l : list string) :
  ~ In x l -> count_label x l = 0%nat.
Proof.
  unfold count_label. induction l as [|y l IH]; [reflexivity|]. simpl. intros H.
  destruct (String.eqb_spec x y) as [->|Hne]; [tauto|]. apply IH. tauto.
Qed.

Lemma count_label_NoDup (x : string) (l : list string) :
  NoDup l -> In x l -> count_label x l = 1%nat.
Proof.
  induction 1 as [|y l Hy Hnd IH]; [intros []|]. rewrite list_elem_of_In in Hy.
  intros Hin. unfold count_label. simpl.
  destruct (String.eqb_spec x y) as [->|Hne].
  - simpl. f_equal. now apply count_label_absent.
  - destruct Hin as [->|Hin]; [contradiction|]. now apply IH.
Qed.

Lemma has_duplicates_NoDup (l : list (string * string)) :
  NoDup l -> has_duplicates l = false.
Proof.
  induction 1 as [|x l Hx Hnd IH]; [reflexivity|]. simpl. rewrite IH.
  rewrite orb_false_r. apply not_true_is_false. intros E.
  apply existsb_exists in E as (y & Hy & E). unfold tuple_eqb in E.
  apply andb_prop in E as [E1 E2]. apply String.eqb_eq in E1, E2.
  destruct x, y. simpl in E1, E2. subst. apply Hx. now apply list_elem_of_In.
Qed.

Lemma get_country_df_ok (dff : Table (string * string)) (country_code : string)
    (round_digits : nat) (sort_order : list string) :
  NoDup (t_index dff) ->
  NoDup (map fst (t_columns dff)) ->
  (forall p, In p ["2025"; "2019"; "10yr_Median"] -> In p (level1 dff)) ->
  In country_code (t_index dff) ->
  exists t, get_country_df dff country_code round_digits (Some sort_order) = Ok t.
Proof.
  intros Hidx Hcols Hper Hin. unfold get_country_df.
  assert (Hrow : exists row, loc_row dff country_code = Ok row).
  { unfold loc_row. destruct (str_index_lookup _ _ Hin) as (i & -> & _).
    rewrite (count_label_NoDup _ _ Hidx Hin). simpl. eauto. }
  destruct Hrow as [row Hrow]. rewrite Hrow. cbn [mbind result_bind].
  destruct (loc_row_level0 _ _ _ Hrow) as [_ H1].
  destruct (loc_row_inv _ _ _ Hrow) as (i & _ & Hr).
  assert (Hkeys : map fst row = map fst (t_columns dff)).
  { rewrite Hr, map_map. reflexivity. }
  destruct (unstack row) as [wide|e] eqn:Ew.
  - cbn [mbind result_bind].
    destruct (unstack_inv _ _ Ew) as (_ & _ & Hwc & _).
    unfold getitem_table.
    replace (forallb _ ["2025"; "2019"; "10yr_Median"]) with true.
    + cbn [mbind result_bind]. eauto.
    + symmetry. apply forallb_forall. intros p Hp. apply str_in_In.
      cbn [round_table t_columns]. rewrite map_map. cbn [fst].
      change (map (fun x : string * list cell => fst x) (t_columns wide))
        with (map fst (t_columns wide)).
      rewrite Hwc, H1. apply sorted_unique_In, Hper, Hp.
  - unfold unstack in Ew. rewrite Hkeys, (has_duplicates_NoDup _ Hcols) in Ew.
    discriminate Ew.
Qed.

Lemma country_dfs_fold_keys (dff : Table (string * string)) (codes : list string)
    (acc : dict (Table string)) :
  NoDup codes ->
  (forall c, In c codes -> ~ In c (keys acc)) ->
  (forall c, In c codes ->
             exists t, get_country_df dff c 1 (Some logical_order) = Ok t) ->
  keys (fold_left
          (fun acc country_code =>
             match get_country_df dff country_code 1 (Some logical_order) with
             | Ok t => dict_set country_code t acc
             | Err _ => acc
             end) codes acc)
  = keys acc ++ codes.
Proof.
  revert acc. induction codes as [|c codes IH]; intros acc Hnd Hfresh Hok.
  - simpl. now rewrite app_nil_r.
  - apply NoDup_cons in Hnd as [Hc Hnd]. rewrite list_elem_of_In in Hc.
    cbn [fold_left]. destruct (Hok c (or_introl eq_refl)) as [t ->].
    rewrite IH.
    + rewrite dict_set_fresh by (apply Hfresh; now left).
      unfold keys. rewrite map_app, <- app_assoc. reflexivity.
    + exact Hnd.
    + intros y Hy. rewrite dict_set_fresh by (apply Hfresh; now left).
      unfold keys. rewrite map_app, in_app_iff. simpl.
      intros [H|[H|[]]]; [exact (Hfresh y (or_intror Hy) H)|].
      subst y. contradiction.
    + intros y Hy. apply Hok. now right.
Qed.

Lemma country_metrics_json_fold_keys (dfs : dict (Table string))
    (acc : dict (dict (dict (option Q)))) :
  NoDup (keys dfs) ->
  (forall c, In c (keys dfs) -> ~ In c (keys acc)) ->
  keys (fold_left (fun acc kv => dict_set (fst kv) (country_record (snd kv)) acc)
                  dfs acc)
  = keys acc ++ keys dfs.
Proof.
  revert acc. induction dfs as [|[c t] dfs IH]; intros acc Hnd Hfresh.
  - simpl. now rewrite app_nil_r.
  - cbn [keys map fst] in Hnd. apply NoDup_cons in Hnd as [Hc Hnd].
    rewrite list_elem_of_In in Hc.
    cbn [fold_left fst snd]. rewrite IH.
    + rewrite dict_set_fresh by (apply Hfresh; now left).
      unfold keys. rewrite map_app, <- app_assoc. reflexivity.
    + exact Hnd.
    + intros y Hy. rewrite dict_set_fresh by (apply Hfresh; now left).
      unfold keys. rewrite map_app, in_app_iff. simpl.
      intros [H|[H|[]]]; [exact (Hfresh y (or_intror Hy) H)|].
      subst y. contradiction.
Qed.

Lemma fst_combine_same_length {A B : Type} (l1 : list A) (l2 : list B) :
  length l1 = length l2 -> map fst (combine l1 l2) = l1.
Proof.
  revert l2. induction l1 as [|a l1 IH]; intros [|b l2]; simpl;
    try discriminate; [reflexivity|]. intros [= H]. now rewrite IH.
Qed.

Lemma columns_tuples_2025 (suffix period : string) (ks : list string) :
  In (suffix, period) [("_2025", "2025"); ("_10yr_Median", "10yr_Median");
                       ("_2019", "2019")] ->
  (forall k, In k ks -> In k (keys var_dict)) ->
  columns_tuples 2025 (map (fun k => (display k ++ suffix)%string) ks)
  = map (fun k => (display k, period)) ks.
Proof.
  intros Hs Hks. unfold columns_tuples.
  pose proof column_tuple_2025 as Hcomp. rewrite List.Forall_forall in Hcomp.
  induction ks as [|k ks IH]; [reflexivity|]. cbn [map flat_map].
  rewrite IH by (intros x Hx; apply Hks; now right).
  destruct (Hcomp k (Hks k (or_introl eq_refl))) as (T1 & T2 & T3).
  destruct Hs as [[= <- <-]|[[= <- <-]|[[= <- <-]|[]]]];
    [rewrite T1|rewrite T2|rewrite T3]; reflexivity.
Qed.

(** In a 2025 run the column labels of the merged table are distinct. *)
Lemma build_dff_columns_NoDup (st : collected) (cv : list string)
    (dff : Table (string * string)) :
  NoDup cv ->
  (forall k, In k cv -> In k (keys var_dict)) ->
  keys (clean (current_year_data st)) = cv ->
  keys (clean (median_10yr_data st)) = cv ->
  keys (clean (data_2019 st)) = cv ->
  build_dff 2025 st = Ok dff ->
  NoDup (map fst (t_columns dff)).
Proof.
  intros Hnd Hcv K1 K2 K3 Hb.
  apply build_dff_inv in Hb.
  assert (Hlabels :
            map fst (t_columns
                       (concat_frames
                          [add_suffix ("_" ++ py_str 2025)
                             (rename_columns var_dict
                                (frame_of_dict (clean (current_year_data st))));
                           add_suffix "_10yr_Median"
                             (rename_columns var_dict
                                (frame_of_dict (clean (median_10yr_data st))));
                           add_suffix "_2019"
                             (rename_columns var_dict
                                (frame_of_dict (clean (data_2019 st))))]))
            = map (fun k => (display k ++ "_2025")%string) cv
              ++ map (fun k => (display k ++ "_10yr_Median")%string) cv
              ++ map (fun k => (display k ++ "_2019")%string) cv).
  { rewrite concat_columns_labels. cbn [flat_map].
    rewrite !suffixed_labels, app_nil_r, K1, K2, K3. reflexivity. }
  revert Hb Hlabels. generalize (concat_frames
                          [add_suffix ("_" ++ py_str 2025)
                             (rename_columns var_dict
                                (frame_of_dict (clean (current_year_data st))));
                           add_suffix "_10yr_Median"
                             (rename_columns var_dict
                                (frame_of_dict (clean (median_10yr_data st))));
                           add_suffix "_2019"
                             (rename_columns var_dict
                                (frame_of_dict (clean (data_2019 st))))]).
  intros t Hb Hlabels. unfold set_multi_index in Hb.
  destruct (length _ =? length _)%nat eqn:El; [|discriminate Hb].
  apply Nat.eqb_eq in El. injection Hb as <-. cbn [t_columns].
  rewrite merge_sort_Permutation.
  rewrite fst_combine_same_length by (now rewrite length_map).
  rewrite Hlabels. unfold columns_tuples. rewrite !flat_map_app.
  fold (columns_tuples 2025 (map (fun k => (display k ++ "_2025")%string) cv)).
  fold (columns_tuples 2025 (map (fun k => (display k ++ "_10yr_Median")%string) cv)).
  fold (columns_tuples 2025 (map (fun k => (display k ++ "_2019")%string) cv)).
  rewrite (columns_tuples_2025 "_2025" "2025" cv (or_introl eq_refl) Hcv).
  rewrite (columns_tuples_2025 "_10yr_Median" "10yr_Median" cv
             (or_intror (or_introl eq_refl)) Hcv).
  rewrite (columns_tuples_2025 "_2019" "2019" cv
             (or_intror (or_intror (or_introl eq_refl))) Hcv).
  assert (Hpart : forall p : string, NoDup (map (fun k => (display k, p)) cv)).
  { intros p. apply NoDup_fmap_2_strong; [|exact Hnd].
    intros k1 k2 H1 H2 [= E]. apply list_elem_of_In in H1, H2.
    apply display_injective; auto. }
  apply NoDup_app. split; [apply Hpart|]. split.
  - intros x Hx Hx'. apply list_elem_of_In, in_map_iff in Hx as (k & <- & _).
    apply list_elem_of_In, in_app_or in Hx'.
    destruct Hx' as [Hx'|Hx']; apply in_map_iff in Hx' as (k' & E & _);
      discriminate E.
  - apply NoDup_app. split; [apply Hpart|]. split; [|apply Hpart].
    intros x Hx Hx'. apply list_elem_of_In, in_map_iff in Hx as (k & <- & _).
    apply list_elem_of_In, in_map_iff in Hx' as (k' & E & _).
    discriminate E.
Qed.

(** X22: in a 2025 run over a dataset whose frames have one column per
    country code, as soon as one variable is collected every code resolved
    from the holdings list gets a record, and only these: the countries of the
    data block are the resolved codes, each once. *)
Theorem data_block_complete (getc : string -> result DataFrame)
    (countries : list string) :
  NoDup countries ->
  (forall var full, getc var = Ok full -> NoDup (map fst (df_columns full))) ->
  (exists var views,
      In var (keys var_dict)
      /\ collect_var getc countries 2025 var = Ok views) ->
  exists js,
    run getc countries 2025 = Ok js
    /\ Permutation (keys js) (embi_countries countries).
Proof.
  intros Hc Hg (var & [[cur med] y19] & Hvar & Hcol).
  pose proof (embi_countries_NoDup _ Hc) as He.
  pose proof (fun d k s => collected_series_labels getc countries 2025 d k s Hg)
    as Hlab.
  destruct (stored_views getc countries 2025 var cur med y19 Hvar Hcol)
    as (S1 & S2 & S3).
  pose proof (collect_all_clean_keys getc countries 2025) as Hkeys.
  cbv zeta in Hlab, Hkeys. unfold run.
  generalize dependent (collect_all getc countries 2025).
  intros st Hlab S1 S2 S3 Hkeys.
  assert (Hd : forall d,
             In d [current_year_data st; median_10yr_data st; data_2019 st] ->
             Forall (fun kv => NoDup (map fst (snd kv))) (clean d)).
  { intros d Hin. apply List.Forall_forall. intros [k s] Hks. cbn [snd].
    rewrite (Hlab d k s Hin Hks). exact He. }
  destruct (build_dff_ok_unique 2025 st Hd) as [dff Hdff].
  pose proof column_tuple_2025 as Hcomp. rewrite List.Forall_forall in Hcomp.
  destruct (Hcomp var Hvar) as (T1 & T2 & T3).
  (* the rows of the merged table *)
  pose proof (build_dff_t_index _ _ _ Hdff) as Hidx.
  assert (Hnd : NoDup (t_index dff)).
  { rewrite Hidx. apply union_indexes_NoDup.
    apply List.Forall_cons;
      [apply DataFrame_of_dict_ok, Hd; left; reflexivity|].
    apply List.Forall_cons;
      [apply DataFrame_of_dict_ok, Hd; right; left; reflexivity|].
    apply List.Forall_cons;
      [apply DataFrame_of_dict_ok, Hd; right; right; left; reflexivity|].
    apply List.Forall_nil. }
  assert (Hperm : Permutation (t_index dff) (embi_countries countries)).
  { apply NoDup_Permutation; [exact Hnd|exact He|]. intros x.
    rewrite !list_elem_of_In. split.
    - intros Hx.
      destruct (build_dff_index _ _ _ _ Hdff Hx) as (d & k & s & Hin & Hks & Hxs).
      apply list_elem_of_In. rewrite <- (Hlab d k s Hin Hks).
      now apply list_elem_of_In.
    - intros Hx. rewrite Hidx.
      apply (union_indexes_covers false _
               (t_index (frame_of_dict (clean (current_year_data st)))));
        [now left|].
      unfold frame_of_dict. cbn [t_index].
      apply (union_indexes_covers true _ (map fst cur)).
      + apply in_map_iff. exists (var, cur). split; [reflexivity|exact S1].
      + apply list_elem_of_In.
        rewrite (Hlab _ var cur (or_introl eq_refl) S1).
        now apply list_elem_of_In. }
  (* every projection succeeds *)
  assert (Hper : forall p, In p ["2025"; "2019"; "10yr_Median"] -> In p (level1 dff)).
  { intros p Hp. unfold level1. apply in_map_iff.
    destruct Hp as [<-|[<-|[<-|[]]]].
    - eexists. split; [|exact (build_dff_column 2025 st dff _ "_2025" "2025" var cur
                                 Hdff (or_introl eq_refl) S1 T1)]. reflexivity.
    - eexists. split; [|exact (build_dff_column 2025 st dff _ "_2019" "2019" var y19
                                 Hdff (or_intror (or_intror (or_introl eq_refl)))
                                 S3 T3)]. reflexivity.
    - eexists. split; [|exact (build_dff_column 2025 st dff _ "_10yr_Median"
                                 "10yr_Median" var med
                                 Hdff (or_intror (or_introl eq_refl)) S2 T2)].
      reflexivity. }
  assert (Hcols : NoDup (map fst (t_columns dff))).
  { apply (build_dff_columns_NoDup st
             (List.filter (fun k => match collect_var getc countries 2025 k with
                                    | Ok _ => true
                                    | Err _ => false
                                    end) (keys var_dict)));
      [apply NoDup_ListNoDup, List.NoDup_filter, NoDup_ListNoDup, var_dict_keys_NoDup
      |intros k Hk; now apply filter_In in Hk
      |apply Hkeys; left; reflexivity
      |apply Hkeys; right; left; reflexivity
      |apply Hkeys; right; right; left; reflexivity
      |exact Hdff]. }
  assert (Hok : forall c, In c (t_index dff) ->
                          exists t, get_country_df dff c 1 (Some logical_order) = Ok t).
  { intros c Hin. now apply get_country_df_ok. }
  exists (country_metrics_json (country_dfs dff)). split.
  - rewrite Hdff. reflexivity.
  - assert (Hk : keys (country_dfs dff) = t_index dff).
    { unfold country_dfs. rewrite country_dfs_fold_keys; auto. }
    unfold country_metrics_json.
    rewrite country_metrics_json_fold_keys; rewrite ?Hk; auto.
Qed.

Lemma data_block_complete_witness :
  exists js,
    run demo_getc demo_countries 2025 = Ok js
    /\ Permutation (keys js) (embi_countries demo_countries).
Proof.
  apply (data_block_complete demo_getc demo_countries).
  - apply (bool_decide_unpack _). vm_compute. exact I.
  - intros var full. unfold demo_getc.
    destruct (String.eqb var "NGDPD"); [|destruct (String.eqb var "LP")];
      intros [= <-]; apply (bool_decide_unpack _); vm_compute; exact I.
  - exists "NGDPD", demo_views. split; [simpl; auto|]. vm_compute. reflexivity.
Defined.

(** ** A held country that the dataset lacks *)

Lemma has_column_In (df : DataFrame) (label : string) :
  has_column df label = true <-> In label (map fst (df_columns df)).
Proof.
  unfold has_column. rewrite existsb_exists, in_map_iff. split.
  - intros (c & Hc & E). apply String.eqb_eq in E. eauto.
  - intros (c & E & Hc). exists c. split; [exact Hc|now apply String.eqb_eq].
Qed.

Lemma getitem_columns_missing (df : DataFrame) (labels : list string)
    (label : string) :
  In label labels ->
  ~ In label (map fst (df_columns df)) ->
  getitem_columns df labels = Err KeyError.
Proof.
  intros Hl Hmiss. unfold getitem_columns.
  destruct (forallb (has_column df) labels) eqn:E; [|reflexivity].
  rewrite forallb_forall in E. specialize (E label Hl).
  apply has_column_In in E. contradiction.
Qed.

Lemma clean_all_none {V : Type} (f : string -> option V) (l : list string) :
  (forall k, In k l -> f k = None) -> clean (map (fun k => (k, f k)) l) = [].
Proof.
  induction l as [|k l IH]; intros H; [reflexivity|].
  cbn [map clean flat_map fst snd]. rewrite (H k (or_introl eq_refl)).
  apply IH. intros x Hx. apply H. now right.
Qed.

Lemma build_dff_nothing_collected (current_year : Z) (st : collected) :
  clean (current_year_data st) = [] ->
  clean (median_10yr_data st) = [] ->
  clean (data_2019 st) = [] ->
  build_dff current_year st = Ok (mkTable [] []).
Proof.
  intros C1 C2 C3. unfold build_dff. rewrite C1, C2, C3. reflexivity.
Qed.

(** When no variable is collected the script still runs through, with an
    empty data block. *)
Lemma run_nothing_collected (getc : string -> result DataFrame)
    (countries : list string) (current_year : Z) :
  (forall var, In var (keys var_dict) ->
               exists e, collect_var getc countries current_year var = Err e) ->
  run getc countries current_year = Ok [].
Proof.
  intros Hfail.
  destruct (collect_all_entries getc countries current_year) as (E1 & E2 & E3).
  unfold run.
  rewrite (build_dff_nothing_collected current_year
             (collect_all getc countries current_year)).
  - reflexivity.
  - rewrite E1. apply clean_all_none. intros k Hk. unfold stored_current.
    now destruct (Hfail k Hk) as [e ->].
  - rewrite E2. apply clean_all_none. intros k Hk. unfold stored_median.
    now destruct (Hfail k Hk) as [e ->].
  - rewrite E3. apply clean_all_none. intros k Hk. unfold stored_2019.
    now destruct (Hfail k Hk) as [e ->].
Qed.

(** X23: one held country that the dataset does not cover empties the
    dashboard.  The column selection [w.getc(var)[embi_countries]] raises
    KeyError as soon as one resolved code is no column of the frame, so the
    variable is dropped for every country; when this holds for all variables
    the script still runs to the end, with an empty data block. *)
Theorem missing_country_empties_data_block (getc : string -> result DataFrame)
    (countries : list string) (current_year : Z) (code : string) :
  In code (embi_countries countries) ->
  (forall var full, getc var = Ok full -> ~ In code (map fst (df_columns full))) ->
  (forall var,
      collect_var getc countries current_year var
      = match getc var with
        | Ok _ => Err KeyError
        | Err e => Err e
        end)
  /\ run getc countries current_year = Ok [].
Proof.
  intros Hcode Hmiss.
  assert (Hvar : forall var,
             collect_var getc countries current_year var
             = match getc var with
               | Ok _ => Err KeyError
               | Err e => Err e
               end).
  { intros var. unfold collect_var.
    destruct (getc var) as [full|e] eqn:Eg; cbn [mbind result_bind]; [|reflexivity].
    rewrite (getitem_columns_missing full _ code Hcode (Hmiss var full Eg)).
    reflexivity. }
  split; [exact Hvar|].
  apply run_nothing_collected. intros var _. rewrite Hvar.
  destruct (getc var); eauto.
Qed.

Lemma missing_country_empties_data_block_witness :
  (forall var,
      collect_var demo_getc ["Brazil"; "Chile"] 2025 var
      = match demo_getc var with
        | Ok _ => Err KeyError
        | Err e => Err e
        end)
  /\ run demo_getc ["Brazil"; "Chile"] 2025 = Ok [].
Proof.
  apply (missing_country_empties_data_block demo_getc ["Brazil"; "Chile"] 2025 "CHL").
  - vm_compute. auto.
  - intros var full. unfold demo_getc.
    destruct (String.eqb var "NGDPD"); [|destruct (String.eqb var "LP")];
      intros [= <-]; vm_compute; intros [H|[H|[H|[]]]]; discriminate H.
Defined.
